(** * csis279_server: a shallow embedding of the forum backend

    The server is a NestJS application: controllers validate query
    parameters and delegate to service classes, the services issue Prisma
    queries against a PostgreSQL schema (see the SQL migrations), and a
    middleware checks the bearer token of every protected route.

    The embedding follows that layering:
    - [Exception], [M]: the exceptions the code throws and a state and
      exception monad for the asynchronous service methods ([try_catch] is
      the [try { ... } catch (error) { ... }] of the services);
    - [Database], [World]: the relational store of the migrations, the
      log of calls made to external collaborators, the clock and the
      process environment;
    - [Prisma]: the model delegates ([findUnique], [findMany], [create],
      [update], [delete]) with the constraints of the migrations;
    - one module per service, controller and middleware of the source.

    The statements proved about the server follow the definitions: the
    outcome of [delete] on a missing row, the token check, [signup] and
    [login], the orderings of the filtered listings, [like] and
    [unlike], the filter endpoints, and the targets of replies. *)

From Stdlib Require Import ZArith List String Ascii Bool Lia Sorted Permutation.
Import ListNotations.
Open Scope string_scope.
Open Scope list_scope.
Open Scope Z_scope.

(* ------------------------------------------------------------------ *)
(** ** JavaScript values *)

(** A JavaScript number as far as the server computes with it: the
    doubles that are integers (identifiers, counters, millisecond
    timestamps), the two infinities, and [NaN], which [parseInt] yields
    when it finds no digits. [Num z] stands for the double of value
    [z]; the sign of zero is not kept. *)
Inductive number : Type :=
| NaN
| Num (z : Z)
| Infinity
| NegativeInfinity.

(** The double nearest to the integer [z], ties to the even
    significand. Every integer up to [2^53] in magnitude is a double.
    Above, the bits beyond the 53 of the significand are rounded away,
    and a magnitude that rounds to [2^1024] is infinite. *)
Definition to_double (z : Z) : number :=
  let a := Z.abs z in
  if a <=? 2 ^ 53 then Num z
  else
    let e := Z.log2 a - 52 in
    let q := Z.shiftr a e in
    let r := a - Z.shiftl q e in
    let half := Z.shiftl 1 (e - 1) in
    let q' := if r <? half then q
              else if half <? r then q + 1
              else if Z.even q then q else q + 1 in
    let m := Z.shiftl q' e in
    if 2 ^ 1024 <=? m
    then (if z <? 0 then NegativeInfinity else Infinity)
    else Num (Z.sgn z * m).

(** [a + b] on numbers: the double nearest to the sum; [NaN] is
    absorbing, and so is an infinity, except against its opposite. *)
Definition number_add (a b : number) : number :=
  match a, b with
  | NaN, _ | _, NaN => NaN
  | Num x, Num y => to_double (x + y)
  | Infinity, NegativeInfinity | NegativeInfinity, Infinity => NaN
  | Infinity, _ | _, Infinity => Infinity
  | NegativeInfinity, _ | _, NegativeInfinity => NegativeInfinity
  end.

(** [!s] for a string-typed field that may be absent: [undefined] and
    the empty string are falsy. *)
Definition falsy_string (s : option string) : bool :=
  match s with
  | None => true
  | Some s => String.eqb s ""
  end.

(** [!n] for a number-typed field that may be absent: [undefined] and
    [0] are falsy. *)
Definition falsy_number (n : option Z) : bool :=
  match n with
  | None => true
  | Some z => z =? 0
  end.

(** [String(x)] of a query parameter. *)
Definition String_ (x : option string) : string :=
  match x with
  | None => "undefined"
  | Some s => s
  end.

(** [s.split(' ')]: the pieces of [s] between single spaces. *)
Fixpoint split_space_aux (s : string) (cur : string) : list string :=
  match s with
  | EmptyString => [cur]
  | String c rest =>
      if Ascii.eqb c " "%char
      then cur :: split_space_aux rest ""
      else split_space_aux rest (String.append cur (String c ""))
  end.

Definition split_space (s : string) : list string := split_space_aux s "".

(** *** [parseInt] *)

Definition is_white (c : ascii) : bool :=
  let n := N_of_ascii c in
  (n =? 32)%N || ((9 <=? n)%N && (n <=? 13)%N).

Fixpoint trim_start (s : string) : string :=
  match s with
  | String c rest => if is_white c then trim_start rest else s
  | EmptyString => s
  end.

(** The value of [c] as a digit in base [radix], when it is one. *)
Definition digit_value (radix : Z) (c : ascii) : option Z :=
  let n := Z.of_N (N_of_ascii c) in
  let v :=
    if (48 <=? n) && (n <=? 57) then Some (n - 48)
    else if (97 <=? n) && (n <=? 122) then Some (n - 87)
    else if (65 <=? n) && (n <=? 90) then Some (n - 55)
    else None in
  match v with
  | Some d => if d <? radix then Some d else None
  | None => None
  end.

(** Reads the longest prefix of digits; [acc] is [None] until a digit has
    been read. *)
Fixpoint read_digits (radix : Z) (s : string) (acc : option Z) : option Z :=
  match s with
  | EmptyString => acc
  | String c rest =>
      match digit_value radix c with
      | Some d =>
          read_digits radix rest
            (Some (match acc with Some a => a * radix + d | None => d end))
      | None => acc
      end
  end.

Definition strip_hex_prefix (s : string) : option string :=
  match s with
  | String "0" (String "x" rest) => Some rest
  | String "0" (String "X" rest) => Some rest
  | _ => None
  end.

(** [parseInt(x)] with no radix argument: leading ASCII white space is
    skipped, a sign is read, a [0x] prefix selects base 16, and the
    longest prefix of digits is converted to the nearest double; no
    digit at all gives [NaN]. An absent argument is converted to the
    text "undefined" first. *)
Definition parseInt (x : option string) : number :=
  let s := trim_start (String_ x) in
  let '(sign, s) :=
    match s with
    | String "-" rest => (-1, rest)
    | String "+" rest => (1, rest)
    | _ => (1, s)
    end in
  let '(radix, s) :=
    match strip_hex_prefix s with
    | Some rest => (16, rest)
    | None => (10, s)
    end in
  match read_digits radix s None with
  | Some z => to_double (sign * z)
  | None => NaN
  end.

(* ------------------------------------------------------------------ *)
(** ** Exceptions *)

(** The HTTP exceptions of [@nestjs/common] that the code throws, the
    request errors of the Prisma client, and the plain [Error] of the
    [bcrypt] and [jsonwebtoken] packages. [InternalServerErrorException]
    is thrown both with and without a message. *)
Inductive Exception : Type :=
| BadRequestException (message : string)
| UnauthorizedException (message : string)
| NotFoundException (message : string)
| InternalServerErrorException (message : option string)
| PrismaClientKnownRequestError (code : string)
| PrismaClientValidationError
| Error (message : string).

(** The response status Nest's exception filter gives an exception: an
    exception that is not an HTTP exception is answered with 500. *)
Definition getStatus (e : Exception) : Z :=
  match e with
  | BadRequestException _ => 400
  | UnauthorizedException _ => 401
  | NotFoundException _ => 404
  | InternalServerErrorException _ => 500
  | PrismaClientKnownRequestError _ => 500
  | PrismaClientValidationError => 500
  | Error _ => 500
  end.

(** What a call to a library outside the repository returns: a value, or
    the message of the [Error] it throws. *)
Inductive Outcome (A : Type) : Type :=
| Success (a : A)
| Failure (message : string).
Arguments Success {A} a.
Arguments Failure {A} message.

Inductive Result (A : Type) : Type :=
| Ok (a : A)
| Throw (e : Exception).
Arguments Ok {A} a.
Arguments Throw {A} e.

(* ------------------------------------------------------------------ *)
(** ** Data model

    One record per table of the migrations (the [Likes] column of
    [Replies] is the [LikesNB] counter after the second migration, and
    [Likes] rows carry a [ReplyID]). A [DATE] column is held as the value
    [getTime()] returns for it. *)

Module User.
Record t : Type := mk
  { UserID : Z; FirstName : string; LastName : string;
    Email : string; Password : string }.
End User.

Module Topics.
Record t : Type := mk
  { TopicID : Z; Title : string; Content : string; CreatedAt : Z;
    CreatorID : Z; LikesNb : Z }.
End Topics.

Module Questions.
Record t : Type := mk
  { QuestionID : Z; Title : string; Content : string; CreatedAt : Z;
    CreatorID : Z; LikesNb : Z }.
End Questions.

Module Events.
Record t : Type := mk
  { EventID : Z; Title : string; Description : string; Date : Z;
    Location : string; CreatorID : Z; LikesNB : Z }.
End Events.

Module Replies.
Record t : Type := mk
  { ReplyID : Z; Content : string; CreatedAt : Z; CreatorID : Z;
    QuestionID : option Z; TopicID : option Z; LikesNB : Z }.
End Replies.

Module Likes.
Record t : Type := mk
  { LikeID : Z; UserID : Z; EventID : option Z; TopicID : option Z;
    QuestionID : option Z; ReplyID : option Z }.
End Likes.

Module Saved.
Record t : Type := mk
  { SavedID : Z; UserID : Z; EventID : option Z; TopicID : option Z;
    QuestionID : option Z }.
End Saved.

(** A topic or a question with the relations the [include] of [getOne]
    adds to it: the user who created it, the like rows and the saved
    rows that refer to it, each with its user, and the number of its
    replies. *)
Module Included.
Record t (R : Type) : Type := mk
  { row : R;
    CreatedBy : option User.t;
    Likes : list (Likes.t * option User.t);
    Saved : list (Saved.t * option User.t);
    _count_Replies : Z }.
Arguments mk {R} _ _ _ _ _.
Arguments row {R} _.
Arguments CreatedBy {R} _.
Arguments Likes {R} _.
Arguments Saved {R} _.
Arguments _count_Replies {R} _.
End Included.

(** A table: its rows in storage order and the next value of the
    [SERIAL] sequence of its key. *)
Record Table (R : Type) : Type := mkTable
  { rows : list R; next_id : Z }.
Arguments mkTable {R} rows next_id.
Arguments rows {R} t.
Arguments next_id {R} t.

Definition empty_table {R : Type} : Table R := mkTable [] 1.

Record Database : Type := mkDatabase
  { tUser : Table User.t;
    tTopics : Table Topics.t;
    tQuestions : Table Questions.t;
    tEvents : Table Events.t;
    tReplies : Table Replies.t;
    tLikes : Table Likes.t;
    tSaved : Table Saved.t }.

Definition empty_database : Database :=
  mkDatabase empty_table empty_table empty_table empty_table
             empty_table empty_table empty_table.

Definition set_tUser (x : Table User.t) (d : Database) : Database :=
  mkDatabase x (tTopics d) (tQuestions d) (tEvents d) (tReplies d) (tLikes d) (tSaved d).
Definition set_tTopics (x : Table Topics.t) (d : Database) : Database :=
  mkDatabase (tUser d) x (tQuestions d) (tEvents d) (tReplies d) (tLikes d) (tSaved d).
Definition set_tQuestions (x : Table Questions.t) (d : Database) : Database :=
  mkDatabase (tUser d) (tTopics d) x (tEvents d) (tReplies d) (tLikes d) (tSaved d).
Definition set_tEvents (x : Table Events.t) (d : Database) : Database :=
  mkDatabase (tUser d) (tTopics d) (tQuestions d) x (tReplies d) (tLikes d) (tSaved d).
Definition set_tReplies (x : Table Replies.t) (d : Database) : Database :=
  mkDatabase (tUser d) (tTopics d) (tQuestions d) (tEvents d) x (tLikes d) (tSaved d).
Definition set_tLikes (x : Table Likes.t) (d : Database) : Database :=
  mkDatabase (tUser d) (tTopics d) (tQuestions d) (tEvents d) (tReplies d) x (tSaved d).
Definition set_tSaved (x : Table Saved.t) (d : Database) : Database :=
  mkDatabase (tUser d) (tTopics d) (tQuestions d) (tEvents d) (tReplies d) (tLikes d) x.

(* ------------------------------------------------------------------ *)
(** ** The world a request runs in *)

(** The payload the server signs into a token and reads back from it. *)
Record JwtClaims : Type := mkClaims { sub : Z; email : string }.

Inductive Model : Type :=
| M_user | M_topics | M_questions | M_events | M_replies | M_likes | M_saved.

Inductive Action : Type :=
| A_findUnique | A_findMany | A_create | A_update | A_delete.

(** The calls a request makes to its collaborators, in the order it
    makes them. *)
Inductive Effect : Type :=
| Query (model : Model) (action : Action)
| Bcrypt_hash
| Bcrypt_compare
| Jwt_signAsync (payload : JwtClaims) (expiresIn : number)
| Jwt_verify (token : string)
| Logger (error : Exception)
| Next (userEntity : User.t).

(** [process.env]. *)
Record Env : Type := mkEnv
  { JWT_DURATION : option string; SECRET_KEY : option string }.

Record World : Type := mkWorld
  { db : Database;
    calls : list Effect;
    Date_now : Z;
    process_env : Env }.

Definition set_db (d : Database) (w : World) : World :=
  mkWorld d (calls w) (Date_now w) (process_env w).
Definition set_calls (l : list Effect) (w : World) : World :=
  mkWorld (db w) l (Date_now w) (process_env w).

(** The libraries the repository calls and does not contain: the
    collation of [String.prototype.localeCompare], the case-insensitive
    [contains] filter of the database, [bcrypt], the token signer and
    verifier of [@nestjs/jwt], and the parser of ISO-8601 time stamps.

    The last two fields are the Prisma client on the keys of the [data]
    of [user.create] that are not columns of [User], each given with
    the JSON text of its value. The generated client, which the
    repository does not contain, decides whether it accepts them
    ([nested_valid], given the [UserID] of the [data] as well: the
    relation fields with a well-formed nested write) and what the
    nested writes do: [nested_writes further u d] is the database they
    leave, from the database [d] in which the user [u] has been
    inserted, or the code of the error that rolls the insert back. *)
Class Platform : Type := mkPlatform
  { localeCompare : string -> string -> Z;
    contains_insensitive : string -> string -> bool;
    bcrypt_hash : string -> Z -> Outcome string;
    bcrypt_compare : string -> string -> Outcome bool;
    jwt_sign : JwtClaims -> number -> Outcome string;
    jwt_verify : string -> option string -> Outcome JwtClaims;
    Date_parse : string -> option Z;
    nested_valid : option Z -> list (string * string) -> bool;
    nested_writes : list (string * string) -> User.t -> Database
                    -> Database + string }.

(* ------------------------------------------------------------------ *)
(** ** The monad of service methods *)

Definition M (A : Type) : Type := World -> Result A * World.

Definition ret {A : Type} (a : A) : M A := fun w => (Ok a, w).

Definition bind {A B : Type} (m : M A) (f : A -> M B) : M B :=
  fun w =>
    match m w with
    | (Ok a, w') => f a w'
    | (Throw e, w') => (Throw e, w')
    end.

Definition throw {A : Type} (e : Exception) : M A := fun w => (Throw e, w).

(** [try { body } catch (error) { handler }]: what [body] wrote before it
    threw stays written. *)
Definition try_catch {A : Type} (body : M A) (handler : Exception -> M A) : M A :=
  fun w =>
    match body w with
    | (Ok a, w') => (Ok a, w')
    | (Throw e, w') => handler e w'
    end.

(** [try { ...; return p; } catch (error) { handler }] where [p] is a
    promise the block does not await: [body] runs under the handler and
    yields the promise, which is handed to the caller as it is, so that
    its rejection never reaches [handler]. *)
Definition try_return {A : Type} (body : M (M A)) (handler : Exception -> M (M A))
  : M A :=
  fun w =>
    match try_catch body handler w with
    | (Ok p, w') => p w'
    | (Throw e, w') => (Throw e, w')
    end.

Definition gets {A : Type} (f : World -> A) : M A := fun w => (Ok (f w), w).

Definition modify_db (f : Database -> Database) : M unit :=
  fun w => (Ok tt, set_db (f (db w)) w).

Definition emit (e : Effect) : M unit :=
  fun w => (Ok tt, set_calls (calls w ++ [e]) w).

Definition lift_outcome {A : Type} (o : Outcome A) : M A :=
  match o with
  | Success a => ret a
  | Failure message => throw (Error message)
  end.

Declare Scope monad_scope.
Delimit Scope monad_scope with monad.
Notation "x <- c ;; k" := (bind c (fun x => k))
  (at level 61, c at next level, right associativity) : monad_scope.
Notation "c ;;; k" := (bind c (fun _ => k))
  (at level 61, right associativity) : monad_scope.
Open Scope monad_scope.

(** [this.logger.error(error.message)] and [this.logger.fatal(e)]. *)
Definition logger_error (error : Exception) : M unit := emit (Logger error).

(* ------------------------------------------------------------------ *)
(** ** The persistence layer

    The Prisma model delegates, run against the tables under the
    constraints of the migrations: primary keys drawn from [SERIAL]
    sequences (a rejected insert has consumed its value), the unique
    indexes, [VARCHAR] lengths, the 32-bit range of [INTEGER], and the
    foreign keys with their [ON DELETE] actions. Every call is entered in
    the log of the world before it runs. [findUnique_include] returns
    a row with the related rows its [include] names; the other
    delegates return the rows of their own table. *)

Definition opt_is (o : option Z) (id : Z) : bool :=
  match o with
  | Some x => x =? id
  | None => false
  end.

(** [ON DELETE SET NULL] on one nullable reference. *)
Definition set_null (o : option Z) (id : Z) : option Z :=
  if opt_is o id then None else o.

Definition longer_than (n : Z) (s : string) : bool :=
  n <? Z.of_nat (String.length s).

Definition in_int4 (z : Z) : bool :=
  (-2147483648 <=? z) && (z <=? 2147483647).

(** The [data] of a counter update: [{ increment: n }] or [{ decrement: n }]. *)
Inductive IntUpdate : Type :=
| increment (n : Z)
| decrement (n : Z).

Definition apply_update (u : IntUpdate) (z : Z) : Z :=
  match u with
  | increment n => z + n
  | decrement n => z - n
  end.

(** A field of an update that is [undefined] is left as it is. *)
Definition or_keep {A : Type} (new : option A) (old : A) : A :=
  match new with
  | Some a => a
  | None => old
  end.

Definition known_error {A : Type} (code : string) : M A :=
  throw (PrismaClientKnownRequestError code).

(** Draws the next key of a table. *)
Definition nextval {R : Type} (get : Database -> Table R)
    (set : Table R -> Database -> Database) : M Z :=
  t <- gets (fun w => get (db w)) ;;
  modify_db (set (mkTable (rows t) (next_id t + 1))) ;;;
  ret (next_id t).

Definition insert_row {R : Type} (get : Database -> Table R)
    (set : Table R -> Database -> Database) (r : R) : M unit :=
  modify_db (fun d => set (mkTable (rows (get d) ++ [r]) (next_id (get d))) d).

Definition set_rows {R : Type} (get : Database -> Table R)
    (set : Table R -> Database -> Database) (f : list R -> list R) : M unit :=
  modify_db (fun d => set (mkTable (f (rows (get d))) (next_id (get d))) d).

Definition Likes_null_EventID (id : Z) (l : Likes.t) : Likes.t :=
  Likes.mk (Likes.LikeID l) (Likes.UserID l) (set_null (Likes.EventID l) id)
           (Likes.TopicID l) (Likes.QuestionID l) (Likes.ReplyID l).
Definition Likes_null_TopicID (id : Z) (l : Likes.t) : Likes.t :=
  Likes.mk (Likes.LikeID l) (Likes.UserID l) (Likes.EventID l)
           (set_null (Likes.TopicID l) id) (Likes.QuestionID l) (Likes.ReplyID l).
Definition Likes_null_QuestionID (id : Z) (l : Likes.t) : Likes.t :=
  Likes.mk (Likes.LikeID l) (Likes.UserID l) (Likes.EventID l)
           (Likes.TopicID l) (set_null (Likes.QuestionID l) id) (Likes.ReplyID l).
Definition Likes_null_ReplyID (id : Z) (l : Likes.t) : Likes.t :=
  Likes.mk (Likes.LikeID l) (Likes.UserID l) (Likes.EventID l)
           (Likes.TopicID l) (Likes.QuestionID l) (set_null (Likes.ReplyID l) id).

Definition Saved_null_EventID (id : Z) (s : Saved.t) : Saved.t :=
  Saved.mk (Saved.SavedID s) (Saved.UserID s) (set_null (Saved.EventID s) id)
           (Saved.TopicID s) (Saved.QuestionID s).
Definition Saved_null_TopicID (id : Z) (s : Saved.t) : Saved.t :=
  Saved.mk (Saved.SavedID s) (Saved.UserID s) (Saved.EventID s)
           (set_null (Saved.TopicID s) id) (Saved.QuestionID s).
Definition Saved_null_QuestionID (id : Z) (s : Saved.t) : Saved.t :=
  Saved.mk (Saved.SavedID s) (Saved.UserID s) (Saved.EventID s)
           (Saved.TopicID s) (set_null (Saved.QuestionID s) id).

Definition Replies_null_TopicID (id : Z) (r : Replies.t) : Replies.t :=
  Replies.mk (Replies.ReplyID r) (Replies.Content r) (Replies.CreatedAt r)
             (Replies.CreatorID r) (Replies.QuestionID r)
             (set_null (Replies.TopicID r) id) (Replies.LikesNB r).
Definition Replies_null_QuestionID (id : Z) (r : Replies.t) : Replies.t :=
  Replies.mk (Replies.ReplyID r) (Replies.Content r) (Replies.CreatedAt r)
             (Replies.CreatorID r) (set_null (Replies.QuestionID r) id)
             (Replies.TopicID r) (Replies.LikesNB r).

(** The user a row refers to. *)
Definition user_of (d : Database) (id : Z) : option User.t :=
  find (fun u => User.UserID u =? id) (rows (tUser d)).

Definition user_exists (d : Database) (id : Z) : bool :=
  existsb (fun u => User.UserID u =? id) (rows (tUser d)).
Definition topic_exists (d : Database) (id : Z) : bool :=
  existsb (fun t => Topics.TopicID t =? id) (rows (tTopics d)).
Definition question_exists (d : Database) (id : Z) : bool :=
  existsb (fun q => Questions.QuestionID q =? id) (rows (tQuestions d)).
Definition event_exists (d : Database) (id : Z) : bool :=
  existsb (fun e => Events.EventID e =? id) (rows (tEvents d)).
Definition reply_exists (d : Database) (id : Z) : bool :=
  existsb (fun r => Replies.ReplyID r =? id) (rows (tReplies d)).

(** A nullable foreign key holds when it is null or names a row. *)
Definition fk_ok (present : Z -> bool) (o : option Z) : bool :=
  match o with
  | Some id => present id
  | None => true
  end.

(** Two rows collide on a unique index over a nullable target and the
    user when both name the same target and the same user. *)
Definition same_pair (o1 : option Z) (u1 : Z) (o2 : option Z) (u2 : Z) : bool :=
  match o1, o2 with
  | Some a, Some b => (a =? b) && (u1 =? u2)
  | _, _ => false
  end.

Module Prisma.

Module user.

Definition findUnique_Email (Email : string) : M (option User.t) :=
  emit (Query M_user A_findUnique) ;;;
  gets (fun w => find (fun u => String.eqb (User.Email u) Email) (rows (tUser (db w)))).

Definition findUnique (UserID : Z) : M (option User.t) :=
  emit (Query M_user A_findUnique) ;;;
  gets (fun w => find (fun u => User.UserID u =? UserID) (rows (tUser (db w)))).

Definition findMany : M (list User.t) :=
  emit (Query M_user A_findMany) ;;;
  gets (fun w => rows (tUser (db w))).

(** [create({ data })] with the columns the [data] names and its
    [further] keys. [FirstName] and [LastName] are required columns: a
    [data] without them, or with a further key the client does not
    accept, is refused by the client before it reaches the database. A
    [data] that names the [UserID], a 32-bit integer, is stored under
    that key and leaves the sequence alone; otherwise the key is drawn
    from the sequence. The key and the email are unique. The nested
    writes of the further keys run in the transaction of the insert. *)
Definition create `{Platform} (UserID : option Z) (FirstName LastName : option string)
    (Email Password : string) (further : list (string * string)) : M User.t :=
  emit (Query M_user A_create) ;;;
  match FirstName, LastName with
  | Some fn, Some ln =>
      if match further with
         | [] => false
         | _ => negb (nested_valid UserID further)
         end
      then throw PrismaClientValidationError
      else
        id <- match UserID with
              | Some id => if in_int4 id then ret id else known_error "P2020"
              | None => nextval tUser set_tUser
              end ;;
        d <- gets db ;;
        if longer_than 100 fn || longer_than 100 ln || longer_than 100 Email
           || longer_than 255 Password
        then known_error "P2000"
        else if existsb (fun u => (User.UserID u =? id)
                                  || String.eqb (User.Email u) Email)
                        (rows (tUser d))
        then known_error "P2002"
        else
          let u := User.mk id fn ln Email Password in
          let inserted := set_tUser (mkTable (rows (tUser d) ++ [u])
                                             (next_id (tUser d))) d in
          match further with
          | [] => modify_db (fun _ => inserted) ;;; ret u
          | _ =>
              match nested_writes further u inserted with
              | inl written => modify_db (fun _ => written) ;;; ret u
              | inr code => known_error code
              end
          end
  | _, _ => throw PrismaClientValidationError
  end.

(** Every reference to a user is [ON DELETE RESTRICT]. *)
Definition referenced (d : Database) (id : Z) : bool :=
  existsb (fun s => Saved.UserID s =? id) (rows (tSaved d))
  || existsb (fun e => Events.CreatorID e =? id) (rows (tEvents d))
  || existsb (fun l => Likes.UserID l =? id) (rows (tLikes d))
  || existsb (fun t => Topics.CreatorID t =? id) (rows (tTopics d))
  || existsb (fun q => Questions.CreatorID q =? id) (rows (tQuestions d))
  || existsb (fun r => Replies.CreatorID r =? id) (rows (tReplies d)).

Definition delete (UserID : Z) : M unit :=
  emit (Query M_user A_delete) ;;;
  d <- gets db ;;
  if negb (user_exists d UserID) then known_error "P2025"
  else if referenced d UserID then known_error "P2003"
  else set_rows tUser set_tUser (filter (fun u => negb (User.UserID u =? UserID))).

Definition update (UserID : Z) (FirstName LastName : option string)
    (Password : string) : M User.t :=
  emit (Query M_user A_update) ;;;
  d <- gets db ;;
  match find (fun u => User.UserID u =? UserID) (rows (tUser d)) with
  | None => known_error "P2025"
  | Some u =>
      let u' := User.mk UserID (or_keep FirstName (User.FirstName u))
                        (or_keep LastName (User.LastName u)) (User.Email u) Password in
      if longer_than 100 (User.FirstName u') || longer_than 100 (User.LastName u')
         || longer_than 255 Password
      then known_error "P2000"
      else
        set_rows tUser set_tUser
          (map (fun x => if User.UserID x =? UserID then u' else x)) ;;;
        ret u'
  end.

End user.

Module topics.

Definition findMany_Title_contains `{Platform} (search : string) : M (list Topics.t) :=
  emit (Query M_topics A_findMany) ;;;
  gets (fun w => filter (fun t => contains_insensitive (Topics.Title t) search)
                        (rows (tTopics (db w)))).

Definition create `{Platform} (Title Content CreatedAt : string) (CreatorID : Z)
  : M Topics.t :=
  emit (Query M_topics A_create) ;;;
  match Date_parse CreatedAt with
  | None => throw PrismaClientValidationError
  | Some created =>
      id <- nextval tTopics set_tTopics ;;
      d <- gets db ;;
      if longer_than 100 Title then known_error "P2000"
      else if negb (user_exists d CreatorID) then known_error "P2003"
      else
        let t := Topics.mk id Title Content created CreatorID 0 in
        insert_row tTopics set_tTopics t ;;; ret t
  end.

Definition findUnique (TopicID : Z) : M (option Topics.t) :=
  emit (Query M_topics A_findUnique) ;;;
  gets (fun w => find (fun t => Topics.TopicID t =? TopicID) (rows (tTopics (db w)))).

(** [include: { CreatedBy: true, Likes: { include: { User: true } },
    Saved: { include: { User: true } }, _count: { select: { Replies:
    true } } }] on a topic. *)
Definition include (d : Database) (t : Topics.t) : Included.t Topics.t :=
  Included.mk t
    (user_of d (Topics.CreatorID t))
    (map (fun l => (l, user_of d (Likes.UserID l)))
         (filter (fun l => opt_is (Likes.TopicID l) (Topics.TopicID t))
                 (rows (tLikes d))))
    (map (fun s => (s, user_of d (Saved.UserID s)))
         (filter (fun s => opt_is (Saved.TopicID s) (Topics.TopicID t))
                 (rows (tSaved d))))
    (Z.of_nat (List.length
                 (filter (fun r => opt_is (Replies.TopicID r) (Topics.TopicID t))
                         (rows (tReplies d))))).

Definition findUnique_include (TopicID : Z) : M (option (Included.t Topics.t)) :=
  emit (Query M_topics A_findUnique) ;;;
  gets (fun w => option_map (include (db w))
                   (find (fun t => Topics.TopicID t =? TopicID)
                         (rows (tTopics (db w))))).

(** The references of [Saved], [Likes] and [Replies] to a topic are
    [ON DELETE SET NULL]. *)
Definition delete (TopicID : Z) : M unit :=
  emit (Query M_topics A_delete) ;;;
  d <- gets db ;;
  if negb (topic_exists d TopicID) then known_error "P2025"
  else
    set_rows tTopics set_tTopics (filter (fun t => negb (Topics.TopicID t =? TopicID))) ;;;
    set_rows tSaved set_tSaved (map (Saved_null_TopicID TopicID)) ;;;
    set_rows tLikes set_tLikes (map (Likes_null_TopicID TopicID)) ;;;
    set_rows tReplies set_tReplies (map (Replies_null_TopicID TopicID)).

Definition update_LikesNb (TopicID : Z) (u : IntUpdate) : M Topics.t :=
  emit (Query M_topics A_update) ;;;
  d <- gets db ;;
  match find (fun t => Topics.TopicID t =? TopicID) (rows (tTopics d)) with
  | None => known_error "P2025"
  | Some t =>
      let n := apply_update u (Topics.LikesNb t) in
      if negb (in_int4 n) then known_error "P2020"
      else
        let t' := Topics.mk TopicID (Topics.Title t) (Topics.Content t)
                            (Topics.CreatedAt t) (Topics.CreatorID t) n in
        set_rows tTopics set_tTopics
          (map (fun x => if Topics.TopicID x =? TopicID then t' else x)) ;;;
        ret t'
  end.

Definition update (TopicID : Z) (Title Content : option string) : M Topics.t :=
  emit (Query M_topics A_update) ;;;
  d <- gets db ;;
  match find (fun t => Topics.TopicID t =? TopicID) (rows (tTopics d)) with
  | None => known_error "P2025"
  | Some t =>
      let t' := Topics.mk TopicID (or_keep Title (Topics.Title t))
                          (or_keep Content (Topics.Content t))
                          (Topics.CreatedAt t) (Topics.CreatorID t) (Topics.LikesNb t) in
      if longer_than 100 (Topics.Title t') then known_error "P2000"
      else
        set_rows tTopics set_tTopics
          (map (fun x => if Topics.TopicID x =? TopicID then t' else x)) ;;;
        ret t'
  end.

End topics.

Module questions.

Definition findMany_Title_contains `{Platform} (search : string)
  : M (list Questions.t) :=
  emit (Query M_questions A_findMany) ;;;
  gets (fun w => filter (fun q => contains_insensitive (Questions.Title q) search)
                        (rows (tQuestions (db w)))).

Definition create `{Platform} (Title Content CreatedAt : string) (CreatorID : Z)
  : M Questions.t :=
  emit (Query M_questions A_create) ;;;
  match Date_parse CreatedAt with
  | None => throw PrismaClientValidationError
  | Some created =>
      id <- nextval tQuestions set_tQuestions ;;
      d <- gets db ;;
      if longer_than 100 Title then known_error "P2000"
      else if negb (user_exists d CreatorID) then known_error "P2003"
      else
        let q := Questions.mk id Title Content created CreatorID 0 in
        insert_row tQuestions set_tQuestions q ;;; ret q
  end.

Definition findUnique (QuestionID : Z) : M (option Questions.t) :=
  emit (Query M_questions A_findUnique) ;;;
  gets (fun w => find (fun q => Questions.QuestionID q =? QuestionID)
                      (rows (tQuestions (db w)))).

(** The same [include] on a question. *)
Definition include (d : Database) (q : Questions.t) : Included.t Questions.t :=
  Included.mk q
    (user_of d (Questions.CreatorID q))
    (map (fun l => (l, user_of d (Likes.UserID l)))
         (filter (fun l => opt_is (Likes.QuestionID l) (Questions.QuestionID q))
                 (rows (tLikes d))))
    (map (fun s => (s, user_of d (Saved.UserID s)))
         (filter (fun s => opt_is (Saved.QuestionID s) (Questions.QuestionID q))
                 (rows (tSaved d))))
    (Z.of_nat (List.length
                 (filter (fun r => opt_is (Replies.QuestionID r)
                                          (Questions.QuestionID q))
                         (rows (tReplies d))))).

Definition findUnique_include (QuestionID : Z)
  : M (option (Included.t Questions.t)) :=
  emit (Query M_questions A_findUnique) ;;;
  gets (fun w => option_map (include (db w))
                   (find (fun q => Questions.QuestionID q =? QuestionID)
                         (rows (tQuestions (db w))))).

(** The references of [Saved], [Likes] and [Replies] to a question are
    [ON DELETE SET NULL]. *)
Definition delete (QuestionID : Z) : M unit :=
  emit (Query M_questions A_delete) ;;;
  d <- gets db ;;
  if negb (question_exists d QuestionID) then known_error "P2025"
  else
    set_rows tQuestions set_tQuestions
      (filter (fun q => negb (Questions.QuestionID q =? QuestionID))) ;;;
    set_rows tSaved set_tSaved (map (Saved_null_QuestionID QuestionID)) ;;;
    set_rows tLikes set_tLikes (map (Likes_null_QuestionID QuestionID)) ;;;
    set_rows tReplies set_tReplies (map (Replies_null_QuestionID QuestionID)).

Definition update_LikesNb (QuestionID : Z) (u : IntUpdate) : M Questions.t :=
  emit (Query M_questions A_update) ;;;
  d <- gets db ;;
  match find (fun q => Questions.QuestionID q =? QuestionID) (rows (tQuestions d)) with
  | None => known_error "P2025"
  | Some q =>
      let n := apply_update u (Questions.LikesNb q) in
      if negb (in_int4 n) then known_error "P2020"
      else
        let q' := Questions.mk QuestionID (Questions.Title q) (Questions.Content q)
                               (Questions.CreatedAt q) (Questions.CreatorID q) n in
        set_rows tQuestions set_tQuestions
          (map (fun x => if Questions.QuestionID x =? QuestionID then q' else x)) ;;;
        ret q'
  end.

Definition update (QuestionID : Z) (Title Content : option string) : M Questions.t :=
  emit (Query M_questions A_update) ;;;
  d <- gets db ;;
  match find (fun q => Questions.QuestionID q =? QuestionID) (rows (tQuestions d)) with
  | None => known_error "P2025"
  | Some q =>
      let q' := Questions.mk QuestionID (or_keep Title (Questions.Title q))
                             (or_keep Content (Questions.Content q))
                             (Questions.CreatedAt q) (Questions.CreatorID q)
                             (Questions.LikesNb q) in
      if longer_than 100 (Questions.Title q') then known_error "P2000"
      else
        set_rows tQuestions set_tQuestions
          (map (fun x => if Questions.QuestionID x =? QuestionID then q' else x)) ;;;
        ret q'
  end.

End questions.

Module events.

Definition findMany_Title_contains `{Platform} (search : string) : M (list Events.t) :=
  emit (Query M_events A_findMany) ;;;
  gets (fun w => filter (fun e => contains_insensitive (Events.Title e) search)
                        (rows (tEvents (db w)))).

Definition create `{Platform} (Title Description Date : string) (CreatorID : Z)
    (Location : string) : M Events.t :=
  emit (Query M_events A_create) ;;;
  match Date_parse Date with
  | None => throw PrismaClientValidationError
  | Some date =>
      id <- nextval tEvents set_tEvents ;;
      d <- gets db ;;
      if longer_than 100 Title || longer_than 255 Location then known_error "P2000"
      else if negb (user_exists d CreatorID) then known_error "P2003"
      else
        let e := Events.mk id Title Description date Location CreatorID 0 in
        insert_row tEvents set_tEvents e ;;; ret e
  end.

Definition findUnique (EventID : Z) : M (option Events.t) :=
  emit (Query M_events A_findUnique) ;;;
  gets (fun w => find (fun e => Events.EventID e =? EventID) (rows (tEvents (db w)))).

(** The references of [Saved] and [Likes] to an event are
    [ON DELETE SET NULL]. *)
Definition delete (EventID : Z) : M unit :=
  emit (Query M_events A_delete) ;;;
  d <- gets db ;;
  if negb (event_exists d EventID) then known_error "P2025"
  else
    set_rows tEvents set_tEvents (filter (fun e => negb (Events.EventID e =? EventID))) ;;;
    set_rows tSaved set_tSaved (map (Saved_null_EventID EventID)) ;;;
    set_rows tLikes set_tLikes (map (Likes_null_EventID EventID)).

Definition update_LikesNB (EventID : Z) (u : IntUpdate) : M Events.t :=
  emit (Query M_events A_update) ;;;
  d <- gets db ;;
  match find (fun e => Events.EventID e =? EventID) (rows (tEvents d)) with
  | None => known_error "P2025"
  | Some e =>
      let n := apply_update u (Events.LikesNB e) in
      if negb (in_int4 n) then known_error "P2020"
      else
        let e' := Events.mk EventID (Events.Title e) (Events.Description e)
                            (Events.Date e) (Events.Location e) (Events.CreatorID e) n in
        set_rows tEvents set_tEvents
          (map (fun x => if Events.EventID x =? EventID then e' else x)) ;;;
        ret e'
  end.

Definition update `{Platform} (EventID : Z) (Title Description Date Location : option string)
  : M Events.t :=
  emit (Query M_events A_update) ;;;
  d <- gets db ;;
  match find (fun e => Events.EventID e =? EventID) (rows (tEvents d)) with
  | None => known_error "P2025"
  | Some e =>
      match match Date with
            | Some s => Date_parse s
            | None => Some (Events.Date e)
            end with
      | None => throw PrismaClientValidationError
      | Some date =>
          let e' := Events.mk EventID (or_keep Title (Events.Title e))
                              (or_keep Description (Events.Description e)) date
                              (or_keep Location (Events.Location e))
                              (Events.CreatorID e) (Events.LikesNB e) in
          if longer_than 100 (Events.Title e') || longer_than 255 (Events.Location e')
          then known_error "P2000"
          else
            set_rows tEvents set_tEvents
              (map (fun x => if Events.EventID x =? EventID then e' else x)) ;;;
            ret e'
      end
  end.

End events.

Module replies.

Definition findMany_TopicID (TopicID : Z) : M (list Replies.t) :=
  emit (Query M_replies A_findMany) ;;;
  gets (fun w => filter (fun r => opt_is (Replies.TopicID r) TopicID)
                        (rows (tReplies (db w)))).

Definition findMany_QuestionID (QuestionID : Z) : M (list Replies.t) :=
  emit (Query M_replies A_findMany) ;;;
  gets (fun w => filter (fun r => opt_is (Replies.QuestionID r) QuestionID)
                        (rows (tReplies (db w)))).

(** A column the [data] does not mention is stored as [NULL]. *)
Definition create `{Platform} (TopicID QuestionID : option Z)
    (Content CreatedAt : string) (CreatorID : Z) : M Replies.t :=
  emit (Query M_replies A_create) ;;;
  match Date_parse CreatedAt with
  | None => throw PrismaClientValidationError
  | Some created =>
      id <- nextval tReplies set_tReplies ;;
      d <- gets db ;;
      if negb (user_exists d CreatorID)
         || negb (fk_ok (topic_exists d) TopicID)
         || negb (fk_ok (question_exists d) QuestionID)
      then known_error "P2003"
      else
        let r := Replies.mk id Content created CreatorID QuestionID TopicID 0 in
        insert_row tReplies set_tReplies r ;;; ret r
  end.

Definition findUnique (ReplyID : Z) : M (option Replies.t) :=
  emit (Query M_replies A_findUnique) ;;;
  gets (fun w => find (fun r => Replies.ReplyID r =? ReplyID) (rows (tReplies (db w)))).

(** The reference of [Likes] to a reply is [ON DELETE SET NULL]. *)
Definition delete (ReplyID : Z) : M unit :=
  emit (Query M_replies A_delete) ;;;
  d <- gets db ;;
  if negb (reply_exists d ReplyID) then known_error "P2025"
  else
    set_rows tReplies set_tReplies (filter (fun r => negb (Replies.ReplyID r =? ReplyID))) ;;;
    set_rows tLikes set_tLikes (map (Likes_null_ReplyID ReplyID)).

Definition update_LikesNB (ReplyID : Z) (u : IntUpdate) : M Replies.t :=
  emit (Query M_replies A_update) ;;;
  d <- gets db ;;
  match find (fun r => Replies.ReplyID r =? ReplyID) (rows (tReplies d)) with
  | None => known_error "P2025"
  | Some r =>
      let n := apply_update u (Replies.LikesNB r) in
      if negb (in_int4 n) then known_error "P2020"
      else
        let r' := Replies.mk ReplyID (Replies.Content r) (Replies.CreatedAt r)
                             (Replies.CreatorID r) (Replies.QuestionID r)
                             (Replies.TopicID r) n in
        set_rows tReplies set_tReplies
          (map (fun x => if Replies.ReplyID x =? ReplyID then r' else x)) ;;;
        ret r'
  end.

Definition update (ReplyID : Z) (Content : option string) : M Replies.t :=
  emit (Query M_replies A_update) ;;;
  d <- gets db ;;
  match find (fun r => Replies.ReplyID r =? ReplyID) (rows (tReplies d)) with
  | None => known_error "P2025"
  | Some r =>
      let r' := Replies.mk ReplyID (or_keep Content (Replies.Content r))
                           (Replies.CreatedAt r) (Replies.CreatorID r)
                           (Replies.QuestionID r) (Replies.TopicID r)
                           (Replies.LikesNB r) in
      set_rows tReplies set_tReplies
        (map (fun x => if Replies.ReplyID x =? ReplyID then r' else x)) ;;;
      ret r'
  end.

End replies.

Module likes.

(** The unique indexes [unique_event_like], [unique_topic_like],
    [unique_question_like] and [unique_reply_like]. *)
Definition collides (l : Likes.t) (EventID TopicID QuestionID ReplyID : option Z)
    (UserID : Z) : bool :=
  same_pair (Likes.EventID l) (Likes.UserID l) EventID UserID
  || same_pair (Likes.TopicID l) (Likes.UserID l) TopicID UserID
  || same_pair (Likes.QuestionID l) (Likes.UserID l) QuestionID UserID
  || same_pair (Likes.ReplyID l) (Likes.UserID l) ReplyID UserID.

Definition create (EventID TopicID QuestionID ReplyID : option Z) (UserID : Z)
  : M Likes.t :=
  emit (Query M_likes A_create) ;;;
  id <- nextval tLikes set_tLikes ;;
  d <- gets db ;;
  if existsb (fun l => collides l EventID TopicID QuestionID ReplyID UserID)
             (rows (tLikes d))
  then known_error "P2002"
  else if negb (user_exists d UserID)
          || negb (fk_ok (event_exists d) EventID)
          || negb (fk_ok (topic_exists d) TopicID)
          || negb (fk_ok (question_exists d) QuestionID)
          || negb (fk_ok (reply_exists d) ReplyID)
  then known_error "P2003"
  else
    let l := Likes.mk id UserID EventID TopicID QuestionID ReplyID in
    insert_row tLikes set_tLikes l ;;; ret l.

(** [delete({ where: { X_UserID: { X, UserID } } })] for the target
    column [X]: the row of the unique pair, which has to exist. *)
Definition delete (column : Likes.t -> option Z) (id UserID : Z) : M unit :=
  emit (Query M_likes A_delete) ;;;
  d <- gets db ;;
  let hit := fun l => opt_is (column l) id && (Likes.UserID l =? UserID) in
  if negb (existsb hit (rows (tLikes d))) then known_error "P2025"
  else set_rows tLikes set_tLikes (filter (fun l => negb (hit l))).

End likes.

Module saved.

(** The unique indexes [unique_event_saved], [unique_topic_saved] and
    [unique_question_saved]. *)
Definition collides (s : Saved.t) (EventID TopicID QuestionID : option Z)
    (UserID : Z) : bool :=
  same_pair (Saved.EventID s) (Saved.UserID s) EventID UserID
  || same_pair (Saved.TopicID s) (Saved.UserID s) TopicID UserID
  || same_pair (Saved.QuestionID s) (Saved.UserID s) QuestionID UserID.

Definition create (EventID TopicID QuestionID : option Z) (UserID : Z) : M Saved.t :=
  emit (Query M_saved A_create) ;;;
  id <- nextval tSaved set_tSaved ;;
  d <- gets db ;;
  if existsb (fun s => collides s EventID TopicID QuestionID UserID) (rows (tSaved d))
  then known_error "P2002"
  else if negb (user_exists d UserID)
          || negb (fk_ok (event_exists d) EventID)
          || negb (fk_ok (topic_exists d) TopicID)
          || negb (fk_ok (question_exists d) QuestionID)
  then known_error "P2003"
  else
    let s := Saved.mk id UserID EventID TopicID QuestionID in
    insert_row tSaved set_tSaved s ;;; ret s.

Definition delete (column : Saved.t -> option Z) (id UserID : Z) : M unit :=
  emit (Query M_saved A_delete) ;;;
  d <- gets db ;;
  let hit := fun s => opt_is (column s) id && (Saved.UserID s =? UserID) in
  if negb (existsb hit (rows (tSaved d))) then known_error "P2025"
  else set_rows tSaved set_tSaved (filter (fun s => negb (hit s))).

End saved.

End Prisma.

(* ------------------------------------------------------------------ *)
(** ** Sorting and the filter modes *)

(** The five values of the query parameter [q]. *)
Inductive FilterMode : Type :=
| Q_all | Q_popular | Q_recent | Q_name | Q_old.

(** The test [q === 'all' || q === 'popular' || q === 'recent' ||
    q === 'name' || q === 'old'] of the controllers, with the value it
    narrows [q] to. *)
Definition as_filter (q : option string) : option FilterMode :=
  match q with
  | Some s =>
      if String.eqb s "all" then Some Q_all
      else if String.eqb s "popular" then Some Q_popular
      else if String.eqb s "recent" then Some Q_recent
      else if String.eqb s "name" then Some Q_name
      else if String.eqb s "old" then Some Q_old
      else None
  | None => None
  end.

(** [Array.prototype.sort(compareFn)]. The language requires the sort to
    be stable, so that for a comparator that orders the elements
    consistently the result does not depend on the engine: it is the one
    this insertion sort computes, where [a] stays before [b] when
    [compareFn(a, b) <= 0]. *)
Fixpoint sort_insert {A : Type} (compareFn : A -> A -> Z) (x : A) (l : list A)
  : list A :=
  match l with
  | [] => [x]
  | y :: l' =>
      if compareFn x y <=? 0 then x :: l else y :: sort_insert compareFn x l'
  end.

Fixpoint Array_sort {A : Type} (compareFn : A -> A -> Z) (l : list A) : list A :=
  match l with
  | [] => []
  | x :: l' => sort_insert compareFn x (Array_sort compareFn l')
  end.

(** The value of a field after a presence check has passed. *)
Definition the {A : Type} (default : A) (o : option A) : A :=
  match o with
  | Some a => a
  | None => default
  end.

(* ------------------------------------------------------------------ *)
(** ** Request payloads

    A field of a request body may be absent at run time whatever its
    declared type; the fields the services test for presence are
    optional here. *)

(** The body of [signup]. The global [ValidationPipe] is created
    without [whitelist], so the keys of the body that the class does
    not declare stay on the object: [UserID], the column of [User] the
    class leaves out, when the body gives it as an integer, and
    [further], every other key with the JSON text of its value. *)
Module CreateUserDto.
Record t : Type := mk
  { FirstName : option string; LastName : option string;
    Email : option string; Password : option string;
    UserID : option Z; further : list (string * string) }.
End CreateUserDto.

Module UpdateUserDto.
Record t : Type := mk
  { UserID : Z; FirstName : option string; LastName : option string;
    Password : option string }.
End UpdateUserDto.

Module CreateTopicDto.
Record t : Type := mk
  { Title : option string; Content : option string;
    CreatedAt : option string; CreatorID : option Z }.
End CreateTopicDto.

Module CreateQuestionDto.
Record t : Type := mk
  { Title : option string; Content : option string;
    CreatedAt : option string; CreatorID : option Z }.
End CreateQuestionDto.

Module CreateEventDto.
Record t : Type := mk
  { Title : option string; Description : option string; Date : option string;
    Location : option string; CreatorID : option Z }.
End CreateEventDto.

Module CreateReplyDto.
Record t : Type := mk
  { Content : option string; CreatedAt : option string;
    CreatorID : option Z; TargetID : option Z }.
End CreateReplyDto.

Module UpdateTopicDto.
Record t : Type := mk
  { TopicID : Z; Title : option string; Content : option string }.
End UpdateTopicDto.

Module UpdateQuestionDto.
Record t : Type := mk
  { QuestionID : Z; Title : option string; Content : option string }.
End UpdateQuestionDto.

Module UpdateEventDto.
Record t : Type := mk
  { EventID : Z; Title : option string; Description : option string;
    Date : option string; Location : option string }.
End UpdateEventDto.

Module UpdateReplyDto.
Record t : Type := mk
  { ReplyID : Z; Content : option string }.
End UpdateReplyDto.

(** [throw new InternalServerErrorException('Internal Server Error')]
    after logging, the handler of most [catch] blocks. *)
Definition rethrow_internal {A : Type} (message : option string) (error : Exception)
  : M A :=
  logger_error error ;;; throw (InternalServerErrorException message).

(* ------------------------------------------------------------------ *)
(** ** auth.service.ts *)

Module AuthService.
Section WithPlatform.
Context `{Platform}.

(** [hash(data, 10)] of [bcrypt]; without [data] the package throws. *)
Definition hash (data : option string) (rounds : Z) : M string :=
  emit Bcrypt_hash ;;;
  match data with
  | Some s => lift_outcome (bcrypt_hash s rounds)
  | None => throw (Error "data and salt arguments required")
  end.

Definition compare (data encrypted : string) : M bool :=
  emit Bcrypt_compare ;;;
  lift_outcome (bcrypt_compare data encrypted).

Definition signup (userData : CreateUserDto.t) : M User.t :=
  (* check for missing data *)
  if falsy_string (CreateUserDto.Email userData)
     || falsy_string (CreateUserDto.Password userData)
  then throw (BadRequestException "Missing Data")
  else
    (* check if the email is in use *)
    userEmail <- Prisma.user.findUnique_Email (the "" (CreateUserDto.Email userData)) ;;
    match userEmail with
    | Some _ => throw (UnauthorizedException "Email exists")
    | None =>
        hashedPassword <- hash (CreateUserDto.Password userData) 10 ;;
        (* data: { ...userData, Password: hashedPassword } *)
        try_return
          (ret (Prisma.user.create (CreateUserDto.UserID userData)
                                   (CreateUserDto.FirstName userData)
                                   (CreateUserDto.LastName userData)
                                   (the "" (CreateUserDto.Email userData))
                                   hashedPassword
                                   (CreateUserDto.further userData)))
          (fun e => logger_error e ;;; throw (InternalServerErrorException None))
    end.

Definition login (Email Password : option string) : M (string * User.t) :=
  (* check for missing data *)
  if falsy_string Email || falsy_string Password
  then throw (BadRequestException "Missing Data")
  else
    (* fetch user *)
    user <- Prisma.user.findUnique_Email (the "" Email) ;;
    match user with
    | None => throw (NotFoundException "User does not exist")
    | Some user =>
        correct <- try_catch (compare (the "" Password) (User.Password user))
                     (fun e => logger_error e ;;;
                               throw (InternalServerErrorException None)) ;;
        if negb correct
        then throw (UnauthorizedException "Cannot login with these credentials")
        else
          (* payload to be added to the JWT token *)
          let payload := mkClaims (User.UserID user) (User.Email user) in
          now <- gets Date_now ;;
          env <- gets process_env ;;
          let expiresIn :=
            number_add (to_double now) (parseInt (JWT_DURATION env)) in
          emit (Jwt_signAsync payload expiresIn) ;;;
          cookie <- lift_outcome (jwt_sign payload expiresIn) ;;
          ret (cookie, user)
    end.

Definition getOneUser (UserID : Z) : M User.t :=
  try_catch
    (user <- Prisma.user.findUnique UserID ;;
     match user with
     | None => throw (NotFoundException "User not found")
     | Some user => ret user
     end)
    (rethrow_internal (Some "Internal Server Error")).

Definition getAllUsers : M (list User.t) :=
  try_catch Prisma.user.findMany (rethrow_internal (Some "Internal Server Error")).

Definition deleteUser (UserID : Z) : M unit :=
  try_catch
    (user <- Prisma.user.findUnique UserID ;;
     match user with
     | None => throw (NotFoundException "User not found")
     | Some _ => Prisma.user.delete UserID
     end)
    (rethrow_internal (Some "Internal Server Error")).

Definition updateUser (editDto : UpdateUserDto.t) : M User.t :=
  try_return
    (user <- Prisma.user.findUnique (UpdateUserDto.UserID editDto) ;;
     match user with
     | None => throw (NotFoundException "User not found")
     | Some _ =>
         hashedPassword <- hash (UpdateUserDto.Password editDto) 10 ;;
         ret (Prisma.user.update (UpdateUserDto.UserID editDto)
                                 (UpdateUserDto.FirstName editDto)
                                 (UpdateUserDto.LastName editDto)
                                 hashedPassword)
     end)
    (rethrow_internal (Some "Internal Server Error")).

End WithPlatform.
End AuthService.

(* ------------------------------------------------------------------ *)
(** ** token.middleware.ts *)

Module JwtMiddleware.
Section WithPlatform.
Context `{Platform}.

(** The part of a request the middleware reads and writes. *)
Record RequestWithUser : Type := mkRequest
  { authorization : option string; userEntity : option User.t }.

(** [authHeader && authHeader.split(' ')[1]]. *)
Definition token_of (authHeader : option string) : option string :=
  match authHeader with
  | None => None
  | Some h => if String.eqb h "" then Some "" else nth_error (split_space h) 1
  end.

(** [use(req, _, next)]: returns the request as it is when [next] has
    been called. The call of [next] is entered in the log; what the
    handler behind it does is a request of its own. *)
Definition use (req : RequestWithUser) : M RequestWithUser :=
  (* Get the token from the request header and check if missing. *)
  let authHeader := authorization req in
  let token := token_of authHeader in
  if falsy_string token then throw (UnauthorizedException "No token provided")
  else
    (* Verify the token and decode it and attach it to the request. *)
    try_catch
      (env <- gets process_env ;;
       emit (Jwt_verify (the "" token)) ;;;
       claims <- lift_outcome (jwt_verify (the "" token) (SECRET_KEY env)) ;;
       user <- Prisma.user.findUnique (sub claims) ;;
       match user with
       | None => throw (UnauthorizedException "User does not exist.")
       | Some user =>
           emit (Next user) ;;;
           ret (mkRequest (authorization req) (Some user))
       end)
      (fun err => throw (UnauthorizedException "Invalid token")).

End WithPlatform.
End JwtMiddleware.

(* ------------------------------------------------------------------ *)
(** ** discussions.service.ts *)

Module DiscussionsService.
Section WithPlatform.
Context `{Platform}.

Definition internal : option string := Some "Internal Server Error".

Definition likeTopic (TopicID UserID : Z) : M unit :=
  try_catch
    (Prisma.topics.update_LikesNb TopicID (increment 1) ;;;
     Prisma.likes.create None (Some TopicID) None None UserID ;;;
     ret tt)
    (rethrow_internal internal).

Definition unlikeTopic (TopicID UserID : Z) : M unit :=
  try_catch
    (Prisma.topics.update_LikesNb TopicID (decrement 1) ;;;
     Prisma.likes.delete Likes.TopicID TopicID UserID)
    (rethrow_internal internal).

Definition saveTopic (TopicID UserID : Z) : M unit :=
  try_catch
    (Prisma.saved.create None (Some TopicID) None UserID ;;; ret tt)
    (rethrow_internal internal).

Definition unsaveTopic (TopicID UserID : Z) : M unit :=
  try_catch
    (Prisma.saved.delete Saved.TopicID TopicID UserID)
    (rethrow_internal internal).

Definition filtered (q : FilterMode) (search : string) : M (list Topics.t) :=
  try_catch
    (alltopics <- Prisma.topics.findMany_Title_contains search ;;
     ret match q with
         | Q_all => alltopics (* No sorting needed *)
         | Q_popular =>
             Array_sort (fun a b => Topics.LikesNb b - Topics.LikesNb a) alltopics
         | Q_recent =>
             Array_sort (fun a b => Topics.CreatedAt b - Topics.CreatedAt a) alltopics
         | Q_name =>
             Array_sort (fun a b => localeCompare (Topics.Title a) (Topics.Title b))
                        alltopics
         | Q_old =>
             Array_sort (fun a b => Topics.CreatedAt a - Topics.CreatedAt b) alltopics
         end)
    (rethrow_internal internal).

Definition create (createTopicDto : CreateTopicDto.t) : M Topics.t :=
  if falsy_string (CreateTopicDto.CreatedAt createTopicDto)
     || falsy_number (CreateTopicDto.CreatorID createTopicDto)
     || falsy_string (CreateTopicDto.Title createTopicDto)
     || falsy_string (CreateTopicDto.Content createTopicDto)
  then throw (BadRequestException "Missing Data")
  else
    try_return
      (ret (Prisma.topics.create (the "" (CreateTopicDto.Title createTopicDto))
                                 (the "" (CreateTopicDto.Content createTopicDto))
                                 (the "" (CreateTopicDto.CreatedAt createTopicDto))
                                 (the 0 (CreateTopicDto.CreatorID createTopicDto))))
      (rethrow_internal internal).

Definition getOne (TopicID : Z) : M (Included.t Topics.t) :=
  try_catch
    (topic <- Prisma.topics.findUnique_include TopicID ;;
     match topic with
     | None => throw (NotFoundException "Topic not found")
     | Some topic => ret topic
     end)
    (rethrow_internal internal).

Definition delete (TopicID : Z) : M unit :=
  try_catch
    (topic <- Prisma.topics.findUnique TopicID ;;
     match topic with
     | None => throw (NotFoundException "Topic not found")
     | Some _ => Prisma.topics.delete TopicID
     end)
    (rethrow_internal internal).

Definition updateTopic (editDto : UpdateTopicDto.t) : M Topics.t :=
  try_return
    (topic <- Prisma.topics.findUnique (UpdateTopicDto.TopicID editDto) ;;
     match topic with
     | None => throw (NotFoundException "Topic not found")
     | Some _ =>
         ret (Prisma.topics.update (UpdateTopicDto.TopicID editDto)
                                   (UpdateTopicDto.Title editDto)
                                   (UpdateTopicDto.Content editDto))
     end)
    (rethrow_internal internal).

End WithPlatform.
End DiscussionsService.

(* ------------------------------------------------------------------ *)
(** ** questions.service.ts *)

Module QuestionsService.
Section WithPlatform.
Context `{Platform}.

Definition likeQuestion (QuestionID UserID : Z) : M unit :=
  try_catch
    (Prisma.questions.update_LikesNb QuestionID (increment 1) ;;;
     Prisma.likes.create None None (Some QuestionID) None UserID ;;;
     ret tt)
    (rethrow_internal None).

Definition unlikeQuestion (QuestionID UserID : Z) : M unit :=
  try_catch
    (Prisma.questions.update_LikesNb QuestionID (decrement 1) ;;;
     Prisma.likes.delete Likes.QuestionID QuestionID UserID)
    (rethrow_internal None).

Definition saveQuestion (QuestionID UserID : Z) : M unit :=
  try_catch
    (Prisma.saved.create None None (Some QuestionID) UserID ;;; ret tt)
    (rethrow_internal None).

Definition unsaveQuestion (QuestionID UserID : Z) : M unit :=
  try_catch
    (Prisma.saved.delete Saved.QuestionID QuestionID UserID)
    (rethrow_internal None).

Definition filtered (q : FilterMode) (search : string) : M (list Questions.t) :=
  try_catch
    (allquestions <- Prisma.questions.findMany_Title_contains search ;;
     ret match q with
         | Q_all => allquestions (* No sorting needed *)
         | Q_popular =>
             Array_sort (fun a b => Questions.LikesNb b - Questions.LikesNb a)
                        allquestions
         | Q_recent =>
             Array_sort (fun a b => Questions.CreatedAt b - Questions.CreatedAt a)
                        allquestions
         | Q_name =>
             Array_sort (fun a b => localeCompare (Questions.Title a) (Questions.Title b))
                        allquestions
         | Q_old =>
             Array_sort (fun a b => Questions.CreatedAt a - Questions.CreatedAt b)
                        allquestions
         end)
    (rethrow_internal None).

Definition create (createQuestionDto : CreateQuestionDto.t) : M Questions.t :=
  if falsy_string (CreateQuestionDto.CreatedAt createQuestionDto)
     || falsy_number (CreateQuestionDto.CreatorID createQuestionDto)
     || falsy_string (CreateQuestionDto.Title createQuestionDto)
     || falsy_string (CreateQuestionDto.Content createQuestionDto)
  then throw (BadRequestException "Missing Data")
  else
    try_return
      (ret (Prisma.questions.create
              (the "" (CreateQuestionDto.Title createQuestionDto))
              (the "" (CreateQuestionDto.Content createQuestionDto))
              (the "" (CreateQuestionDto.CreatedAt createQuestionDto))
              (the 0 (CreateQuestionDto.CreatorID createQuestionDto))))
      (rethrow_internal None).

Definition getOne (QuestionID : Z) : M (Included.t Questions.t) :=
  try_catch
    (question <- Prisma.questions.findUnique_include QuestionID ;;
     match question with
     | None => throw (NotFoundException "Question not found")
     | Some question => ret question
     end)
    (rethrow_internal None).

Definition delete (QuestionID : Z) : M unit :=
  try_catch
    (question <- Prisma.questions.findUnique QuestionID ;;
     match question with
     | None => throw (NotFoundException "Question not found")
     | Some _ => Prisma.questions.delete QuestionID
     end)
    (rethrow_internal None).

Definition updateQuestion (editDto : UpdateQuestionDto.t) : M Questions.t :=
  try_return
    (question <- Prisma.questions.findUnique (UpdateQuestionDto.QuestionID editDto) ;;
     match question with
     | None => throw (NotFoundException "Question not found")
     | Some _ =>
         ret (Prisma.questions.update (UpdateQuestionDto.QuestionID editDto)
                                      (UpdateQuestionDto.Title editDto)
                                      (UpdateQuestionDto.Content editDto))
     end)
    (rethrow_internal (Some "Internal Server Error")).

End WithPlatform.
End QuestionsService.

(* ------------------------------------------------------------------ *)
(** ** events.service.ts *)

Module EventsService.
Section WithPlatform.
Context `{Platform}.

Definition likeEvent (EventID UserID : Z) : M unit :=
  try_catch
    (Prisma.events.update_LikesNB EventID (increment 1) ;;;
     Prisma.likes.create (Some EventID) None None None UserID ;;;
     ret tt)
    (rethrow_internal None).

Definition unlikeEvent (EventID UserID : Z) : M unit :=
  try_catch
    (Prisma.events.update_LikesNB EventID (decrement 1) ;;;
     Prisma.likes.delete Likes.EventID EventID UserID)
    (rethrow_internal None).

Definition saveEvent (EventID UserID : Z) : M unit :=
  try_catch
    (Prisma.saved.create (Some EventID) None None UserID ;;; ret tt)
    (rethrow_internal None).

Definition unsaveEvent (EventID UserID : Z) : M unit :=
  try_catch
    (Prisma.saved.delete Saved.EventID EventID UserID)
    (rethrow_internal None).

Definition filtered (q : FilterMode) (search : string) : M (list Events.t) :=
  try_catch
    (allevents <- Prisma.events.findMany_Title_contains search ;;
     ret match q with
         | Q_all => allevents (* No sorting needed *)
         | Q_popular => (* Sort by number of likes *)
             Array_sort (fun a b => Events.LikesNB b - Events.LikesNB a) allevents
         | Q_recent => (* Sort by date (new to old) *)
             Array_sort (fun a b => Events.Date b - Events.Date a) allevents
         | Q_name => (* Sort by name alphabetically *)
             Array_sort (fun a b => localeCompare (Events.Title a) (Events.Title b))
                        allevents
         | Q_old => (* Sort by date (old to new) *)
             Array_sort (fun a b => Events.Date a - Events.Date b) allevents
         end)
    (rethrow_internal None).

Definition create (createEventDto : CreateEventDto.t) : M Events.t :=
  if falsy_string (CreateEventDto.Date createEventDto)
     || falsy_number (CreateEventDto.CreatorID createEventDto)
     || falsy_string (CreateEventDto.Title createEventDto)
     || falsy_string (CreateEventDto.Description createEventDto)
     || falsy_string (CreateEventDto.Location createEventDto)
  then throw (BadRequestException "Missing Data")
  else
    try_return
      (ret (Prisma.events.create (the "" (CreateEventDto.Title createEventDto))
                                 (the "" (CreateEventDto.Description createEventDto))
                                 (the "" (CreateEventDto.Date createEventDto))
                                 (the 0 (CreateEventDto.CreatorID createEventDto))
                                 (the "" (CreateEventDto.Location createEventDto))))
      (rethrow_internal None).

Definition delete (EventID : Z) : M unit :=
  try_catch
    (event <- Prisma.events.findUnique EventID ;;
     match event with
     | None => throw (NotFoundException "Event not found")
     | Some _ => Prisma.events.delete EventID
     end)
    (rethrow_internal None).

Definition updateEvent (editDto : UpdateEventDto.t) : M Events.t :=
  try_return
    (event <- Prisma.events.findUnique (UpdateEventDto.EventID editDto) ;;
     match event with
     | None => throw (NotFoundException "Event not found")
     | Some _ =>
         ret (Prisma.events.update (UpdateEventDto.EventID editDto)
                                   (UpdateEventDto.Title editDto)
                                   (UpdateEventDto.Description editDto)
                                   (UpdateEventDto.Date editDto)
                                   (UpdateEventDto.Location editDto))
     end)
    (rethrow_internal (Some "Internal Server Error")).

End WithPlatform.
End EventsService.

(* ------------------------------------------------------------------ *)
(** ** replies.service.ts *)

Module RepliesService.
Section WithPlatform.
Context `{Platform}.

Definition likeReply (ReplyID UserID : Z) : M unit :=
  try_catch
    (Prisma.replies.update_LikesNB ReplyID (increment 1) ;;;
     Prisma.likes.create None None None (Some ReplyID) UserID ;;;
     ret tt)
    (rethrow_internal None).

Definition unlikeReply (ReplyID UserID : Z) : M unit :=
  try_catch
    (Prisma.replies.update_LikesNB ReplyID (decrement 1) ;;;
     Prisma.likes.delete Likes.ReplyID ReplyID UserID)
    (rethrow_internal None).

(** The [switch (q)] of both reply listings. *)
Definition sorted_replies (q : FilterMode) (allReplies : list Replies.t)
  : list Replies.t :=
  match q with
  | Q_all => allReplies (* No sorting needed *)
  | Q_popular =>
      Array_sort (fun a b => Replies.LikesNB b - Replies.LikesNB a) allReplies
  | Q_recent =>
      Array_sort (fun a b => Replies.CreatedAt b - Replies.CreatedAt a) allReplies
  | Q_name =>
      Array_sort (fun a b => localeCompare (Replies.Content a) (Replies.Content b))
                 allReplies
  | Q_old =>
      Array_sort (fun a b => Replies.CreatedAt a - Replies.CreatedAt b) allReplies
  end.

Definition filteredForQuestion (q : FilterMode) (QuestionID : Z) : M (list Replies.t) :=
  try_catch
    (allReplies <- Prisma.replies.findMany_QuestionID QuestionID ;;
     ret (sorted_replies q allReplies))
    (rethrow_internal None).

Definition filteredForTopic (q : FilterMode) (TopicID : Z) : M (list Replies.t) :=
  try_catch
    (allReplies <- Prisma.replies.findMany_TopicID TopicID ;;
     ret (sorted_replies q allReplies))
    (rethrow_internal None).

Definition missing_data (createReplyDto : CreateReplyDto.t) : bool :=
  falsy_string (CreateReplyDto.CreatedAt createReplyDto)
  || falsy_number (CreateReplyDto.CreatorID createReplyDto)
  || falsy_string (CreateReplyDto.Content createReplyDto)
  || falsy_number (CreateReplyDto.TargetID createReplyDto).

Definition createForTopic (createReplyDto : CreateReplyDto.t) : M Replies.t :=
  if missing_data createReplyDto then throw (BadRequestException "Missing Data")
  else
    try_return
      (ret (Prisma.replies.create
              (Some (the 0 (CreateReplyDto.TargetID createReplyDto))) None
              (the "" (CreateReplyDto.Content createReplyDto))
              (the "" (CreateReplyDto.CreatedAt createReplyDto))
              (the 0 (CreateReplyDto.CreatorID createReplyDto))))
      (rethrow_internal None).

Definition createForQuestion (createReplyDto : CreateReplyDto.t) : M Replies.t :=
  if missing_data createReplyDto then throw (BadRequestException "Missing Data")
  else
    try_return
      (ret (Prisma.replies.create
              None (Some (the 0 (CreateReplyDto.TargetID createReplyDto)))
              (the "" (CreateReplyDto.Content createReplyDto))
              (the "" (CreateReplyDto.CreatedAt createReplyDto))
              (the 0 (CreateReplyDto.CreatorID createReplyDto))))
      (rethrow_internal None).

Definition delete (ReplyID : Z) : M unit :=
  try_catch
    (reply <- Prisma.replies.findUnique ReplyID ;;
     match reply with
     | None => throw (NotFoundException "Reply not found")
     | Some _ => Prisma.replies.delete ReplyID
     end)
    (rethrow_internal None).

Definition updateReply (editDto : UpdateReplyDto.t) : M Replies.t :=
  try_return
    (reply <- Prisma.replies.findUnique (UpdateReplyDto.ReplyID editDto) ;;
     match reply with
     | None => throw (NotFoundException "Reply not found")
     | Some _ =>
         ret (Prisma.replies.update (UpdateReplyDto.ReplyID editDto)
                                    (UpdateReplyDto.Content editDto))
     end)
    (rethrow_internal (Some "Internal Server Error")).

End WithPlatform.
End RepliesService.

(* ------------------------------------------------------------------ *)
(** ** The filter endpoints of the controllers *)

Module DiscussionsController.
Section WithPlatform.
Context `{Platform}.

Definition filtered (q search : option string) : M (list Topics.t) :=
  match as_filter q with
  | Some q => DiscussionsService.filtered q (String_ search)
  | None => throw (BadRequestException "Invalid Query Parameter")
  end.

End WithPlatform.
End DiscussionsController.

Module QuestionsController.
Section WithPlatform.
Context `{Platform}.

Definition filtered (q search : option string) : M (list Questions.t) :=
  match as_filter q with
  | Some q => QuestionsService.filtered q (String_ search)
  | None => throw (BadRequestException "Invalid Query Parameter")
  end.

End WithPlatform.
End QuestionsController.

Module EventsController.
Section WithPlatform.
Context `{Platform}.

Definition filtered (q search : option string) : M (list Events.t) :=
  match as_filter q with
  | Some q => EventsService.filtered q (String_ search)
  | None => throw (BadRequestException "Invalid Query Parameter")
  end.

End WithPlatform.
End EventsController.

Module RepliesController.
Section WithPlatform.
Context `{Platform}.

Definition filteredForTopic (q : option string) (TopicID : Z) : M (list Replies.t) :=
  match as_filter q with
  | Some q => RepliesService.filteredForTopic q TopicID
  | None => throw (BadRequestException "Invalid Query Parameter")
  end.

Definition filteredForQuestion (q : option string) (QuestionID : Z)
  : M (list Replies.t) :=
  match as_filter q with
  | Some q => RepliesService.filteredForQuestion q QuestionID
  | None => throw (BadRequestException "Invalid Query Parameter")
  end.

End WithPlatform.
End RepliesController.

(* ------------------------------------------------------------------ *)
(** ** Resource kinds

    The specification speaks of one [delete], [like] and [unlike] per
    resource kind; the source has one method per service. These
    definitions name the method of each kind. *)

Inductive Likeable : Type :=
| Topic | Question | Event | Reply.

Inductive Resource : Type :=
| Content (k : Likeable)
| Account.

Section WithPlatform.
Context `{Platform}.

Definition delete_resource (r : Resource) (id : Z) : M unit :=
  match r with
  | Content Topic => DiscussionsService.delete id
  | Content Question => QuestionsService.delete id
  | Content Event => EventsService.delete id
  | Content Reply => RepliesService.delete id
  | Account => AuthService.deleteUser id
  end.

Definition like (k : Likeable) (targetID userID : Z) : M unit :=
  match k with
  | Topic => DiscussionsService.likeTopic targetID userID
  | Question => QuestionsService.likeQuestion targetID userID
  | Event => EventsService.likeEvent targetID userID
  | Reply => RepliesService.likeReply targetID userID
  end.

Definition unlike (k : Likeable) (targetID userID : Z) : M unit :=
  match k with
  | Topic => DiscussionsService.unlikeTopic targetID userID
  | Question => QuestionsService.unlikeQuestion targetID userID
  | Event => EventsService.unlikeEvent targetID userID
  | Reply => RepliesService.unlikeReply targetID userID
  end.

End WithPlatform.

(** Whether a row of the kind with this key is stored. *)
Definition stored (r : Resource) (d : Database) (id : Z) : bool :=
  match r with
  | Content Topic => topic_exists d id
  | Content Question => question_exists d id
  | Content Event => event_exists d id
  | Content Reply => reply_exists d id
  | Account => user_exists d id
  end.

(** The model a kind is stored in. *)
Definition model_of (k : Likeable) : Model :=
  match k with
  | Topic => M_topics
  | Question => M_questions
  | Event => M_events
  | Reply => M_replies
  end.

(** The denormalized like counter of a target, when the target is
    stored. *)
Definition counter (k : Likeable) (d : Database) (id : Z) : option Z :=
  match k with
  | Topic =>
      option_map Topics.LikesNb
        (find (fun t => Topics.TopicID t =? id) (rows (tTopics d)))
  | Question =>
      option_map Questions.LikesNb
        (find (fun q => Questions.QuestionID q =? id) (rows (tQuestions d)))
  | Event =>
      option_map Events.LikesNB
        (find (fun e => Events.EventID e =? id) (rows (tEvents d)))
  | Reply =>
      option_map Replies.LikesNB
        (find (fun r => Replies.ReplyID r =? id) (rows (tReplies d)))
  end.

(** The column of [Likes] that refers to a kind. *)
Definition like_column (k : Likeable) : Likes.t -> option Z :=
  match k with
  | Topic => Likes.TopicID
  | Question => Likes.QuestionID
  | Event => Likes.EventID
  | Reply => Likes.ReplyID
  end.

(** The first write of [like] and [unlike]: the update of the counter
    of the target. *)
Definition update_counter (k : Likeable) (targetID : Z) (u : IntUpdate) : M unit :=
  match k with
  | Topic => Prisma.topics.update_LikesNb targetID u ;;; ret tt
  | Question => Prisma.questions.update_LikesNb targetID u ;;; ret tt
  | Event => Prisma.events.update_LikesNB targetID u ;;; ret tt
  | Reply => Prisma.replies.update_LikesNB targetID u ;;; ret tt
  end.

(** The second write of [like]: the insert of the join row. *)
Definition create_like (k : Likeable) (targetID userID : Z) : M Likes.t :=
  match k with
  | Topic => Prisma.likes.create None (Some targetID) None None userID
  | Question => Prisma.likes.create None None (Some targetID) None userID
  | Event => Prisma.likes.create (Some targetID) None None None userID
  | Reply => Prisma.likes.create None None None (Some targetID) userID
  end.

(** The second write of [unlike]: the delete of the join row. *)
Definition delete_like (k : Likeable) (targetID userID : Z) : M unit :=
  Prisma.likes.delete (like_column k) targetID userID.

(** The message of the [InternalServerErrorException] of a service. *)
Definition internal_message (k : Likeable) : option string :=
  match k with
  | Topic => Some "Internal Server Error"
  | _ => None
  end.

(** The join rows of a (target, user) pair. *)
Definition join_rows (k : Likeable) (d : Database) (targetID userID : Z)
  : list Likes.t :=
  filter (fun l => opt_is (like_column k l) targetID && (Likes.UserID l =? userID))
         (rows (tLikes d)).

(** The failure of a run, when it fails. *)
Definition failure {A : Type} (r : Result A * World) : option Exception :=
  match fst r with
  | Ok _ => None
  | Throw e => Some e
  end.

(* ------------------------------------------------------------------ *)
(** ** Orderings of the listings *)

(** A comparator that orders consistently: any two elements are
    comparable, and the order is transitive. *)
Definition consistent {A : Type} (compareFn : A -> A -> Z) : Prop :=
  (forall a b, compareFn a b <= 0 \/ compareFn b a <= 0)
  /\ (forall a b c, compareFn a b <= 0 -> compareFn b c <= 0 -> compareFn a c <= 0).

(** [l] is in descending order of [key]. *)
Definition descending {A : Type} (key : A -> Z) (l : list A) : Prop :=
  StronglySorted (fun a b => key a >= key b) l.

(** [l] is in ascending order of [key]. *)
Definition ascending {A : Type} (key : A -> Z) (l : list A) : Prop :=
  StronglySorted (fun a b => key a <= key b) l.

(** [l] is in ascending order of the texts [text] under [compareFn]. *)
Definition ascending_text {A : Type} (compareFn : string -> string -> Z)
    (text : A -> string) (l : list A) : Prop :=
  StronglySorted (fun a b => compareFn (text a) (text b) <= 0) l.

(** What a listing in mode [q] is, for a kind with like counter [likes],
    time stamp [stamp] and text [text]: the fetched rows, reordered as
    the mode says. *)
Definition listing {A : Type} (compareFn : string -> string -> Z)
    (likes stamp : A -> Z) (text : A -> string)
    (q : FilterMode) (fetched out : list A) : Prop :=
  Permutation fetched out /\
  match q with
  | Q_all => out = fetched
  | Q_popular => descending likes out
  | Q_recent => descending stamp out
  | Q_name => ascending_text compareFn text out
  | Q_old => ascending stamp out
  end.

(** The position of the row with key [id] in a listing. *)
Fixpoint position {A : Type} (key : A -> Z) (id : Z) (l : list A) : option nat :=
  match l with
  | [] => None
  | x :: l' =>
      if key x =? id then Some O
      else option_map S (position key id l')
  end.

(** Both rows are listed, [a] before [b]. *)
Definition listed_before {A : Type} (key : A -> Z) (a b : A) (l : list A) : bool :=
  match position key (key a) l, position key (key b) l with
  | Some i, Some j => (i <? j)%nat
  | _, _ => false
  end.

Definition set_Date_now (t : Z) (w : World) : World :=
  mkWorld (db w) (calls w) t (process_env w).

(* ------------------------------------------------------------------ *)
(** ** Requests and reachable worlds

    The methods a client reaches through the controllers (the token
    check included), and the worlds the server can be in: it starts on
    an empty database, and each request leaves the world its method
    leaves, whether the method returns or throws. The [getAll] listings,
    which only read, are not among them. *)

Inductive Request : Type :=
| R_use (req : JwtMiddleware.RequestWithUser)
| R_signup (userData : CreateUserDto.t)
| R_login (Email Password : option string)
| R_getOneUser (UserID : Z)
| R_getAllUsers
| R_deleteUser (UserID : Z)
| R_updateUser (editDto : UpdateUserDto.t)
| R_likeTopic (TopicID UserID : Z)
| R_unlikeTopic (TopicID UserID : Z)
| R_saveTopic (TopicID UserID : Z)
| R_unsaveTopic (TopicID UserID : Z)
| R_filteredTopics (q search : option string)
| R_createTopic (createTopicDto : CreateTopicDto.t)
| R_getOneTopic (TopicID : Z)
| R_deleteTopic (TopicID : Z)
| R_updateTopic (editDto : UpdateTopicDto.t)
| R_likeQuestion (QuestionID UserID : Z)
| R_unlikeQuestion (QuestionID UserID : Z)
| R_saveQuestion (QuestionID UserID : Z)
| R_unsaveQuestion (QuestionID UserID : Z)
| R_filteredQuestions (q search : option string)
| R_createQuestion (createQuestionDto : CreateQuestionDto.t)
| R_getOneQuestion (QuestionID : Z)
| R_deleteQuestion (QuestionID : Z)
| R_updateQuestion (editDto : UpdateQuestionDto.t)
| R_likeEvent (EventID UserID : Z)
| R_unlikeEvent (EventID UserID : Z)
| R_saveEvent (EventID UserID : Z)
| R_unsaveEvent (EventID UserID : Z)
| R_filteredEvents (q search : option string)
| R_createEvent (createEventDto : CreateEventDto.t)
| R_deleteEvent (EventID : Z)
| R_updateEvent (editDto : UpdateEventDto.t)
| R_likeReply (ReplyID UserID : Z)
| R_unlikeReply (ReplyID UserID : Z)
| R_filteredRepliesForTopic (q : option string) (TopicID : Z)
| R_filteredRepliesForQuestion (q : option string) (QuestionID : Z)
| R_createReplyForTopic (createReplyDto : CreateReplyDto.t)
| R_createReplyForQuestion (createReplyDto : CreateReplyDto.t)
| R_deleteReply (ReplyID : Z)
| R_updateReply (editDto : UpdateReplyDto.t).

Section WithPlatform.
Context `{Platform}.

(** The world a request leaves. *)
Definition handle (r : Request) (w : World) : World :=
  match r with
  | R_use req => snd (JwtMiddleware.use req w)
  | R_signup userData => snd (AuthService.signup userData w)
  | R_login Email Password => snd (AuthService.login Email Password w)
  | R_getOneUser UserID => snd (AuthService.getOneUser UserID w)
  | R_getAllUsers => snd (AuthService.getAllUsers w)
  | R_deleteUser UserID => snd (AuthService.deleteUser UserID w)
  | R_updateUser editDto => snd (AuthService.updateUser editDto w)
  | R_likeTopic t u => snd (DiscussionsService.likeTopic t u w)
  | R_unlikeTopic t u => snd (DiscussionsService.unlikeTopic t u w)
  | R_saveTopic t u => snd (DiscussionsService.saveTopic t u w)
  | R_unsaveTopic t u => snd (DiscussionsService.unsaveTopic t u w)
  | R_filteredTopics q search => snd (DiscussionsController.filtered q search w)
  | R_createTopic dto => snd (DiscussionsService.create dto w)
  | R_getOneTopic t => snd (DiscussionsService.getOne t w)
  | R_deleteTopic t => snd (DiscussionsService.delete t w)
  | R_updateTopic editDto => snd (DiscussionsService.updateTopic editDto w)
  | R_likeQuestion q u => snd (QuestionsService.likeQuestion q u w)
  | R_unlikeQuestion q u => snd (QuestionsService.unlikeQuestion q u w)
  | R_saveQuestion q u => snd (QuestionsService.saveQuestion q u w)
  | R_unsaveQuestion q u => snd (QuestionsService.unsaveQuestion q u w)
  | R_filteredQuestions q search => snd (QuestionsController.filtered q search w)
  | R_createQuestion dto => snd (QuestionsService.create dto w)
  | R_getOneQuestion q => snd (QuestionsService.getOne q w)
  | R_deleteQuestion q => snd (QuestionsService.delete q w)
  | R_updateQuestion editDto => snd (QuestionsService.updateQuestion editDto w)
  | R_likeEvent e u => snd (EventsService.likeEvent e u w)
  | R_unlikeEvent e u => snd (EventsService.unlikeEvent e u w)
  | R_saveEvent e u => snd (EventsService.saveEvent e u w)
  | R_unsaveEvent e u => snd (EventsService.unsaveEvent e u w)
  | R_filteredEvents q search => snd (EventsController.filtered q search w)
  | R_createEvent dto => snd (EventsService.create dto w)
  | R_deleteEvent e => snd (EventsService.delete e w)
  | R_updateEvent editDto => snd (EventsService.updateEvent editDto w)
  | R_likeReply r u => snd (RepliesService.likeReply r u w)
  | R_unlikeReply r u => snd (RepliesService.unlikeReply r u w)
  | R_filteredRepliesForTopic q t => snd (RepliesController.filteredForTopic q t w)
  | R_filteredRepliesForQuestion q i =>
      snd (RepliesController.filteredForQuestion q i w)
  | R_createReplyForTopic dto => snd (RepliesService.createForTopic dto w)
  | R_createReplyForQuestion dto => snd (RepliesService.createForQuestion dto w)
  | R_deleteReply r => snd (RepliesService.delete r w)
  | R_updateReply editDto => snd (RepliesService.updateReply editDto w)
  end.

Inductive reachable : World -> Prop :=
| reach_start : forall now env,
    reachable (mkWorld empty_database [] now env)
| reach_request : forall w r,
    reachable w -> reachable (handle r w)
| reach_clock : forall w t,
    reachable w -> reachable (set_Date_now t w).

End WithPlatform.

(** The request names every field of the data it writes. This holds
    of all requests but a [signup] whose body carries further keys:
    [signup] spreads its body into the [data] of [user.create], and the
    Prisma client runs the nested writes that it finds there. *)
Definition names_its_data (r : Request) : bool :=
  match r with
  | R_signup userData =>
      match CreateUserDto.further userData with
      | [] => true
      | _ => false
      end
  | _ => true
  end.

(** The number of targets a reply row refers to. *)
Definition targets (r : Replies.t) : nat :=
  (match Replies.TopicID r with Some _ => 1 | None => 0 end
   + match Replies.QuestionID r with Some _ => 1 | None => 0 end)%nat.

(* ------------------------------------------------------------------ *)
(** ** A concrete platform

    Stand-ins for the outside libraries, to run the services on concrete
    requests: byte-wise comparison for the collation, an ASCII
    case-insensitive substring test, a recognisable fake hash, tokens
    that spell out their subject, time stamps written as a number of
    milliseconds, and a client that accepts no further key in the
    [data] of [user.create]. *)

Module Demo.

Definition compare_strings (a b : string) : Z :=
  match String.compare a b with
  | Lt => -1
  | Eq => 0
  | Gt => 1
  end.

Definition lower (c : ascii) : ascii :=
  let n := N_of_ascii c in
  if ((65 <=? n)%N && (n <=? 90)%N)%bool then ascii_of_N (n + 32) else c.

Fixpoint lower_string (s : string) : string :=
  match s with
  | EmptyString => EmptyString
  | String c rest => String (lower c) (lower_string rest)
  end.

Fixpoint contains (haystack needle : string) : bool :=
  String.prefix needle haystack
  || match haystack with
     | EmptyString => false
     | String _ rest => contains rest needle
     end.

Definition hash (data : string) (rounds : Z) : Outcome string :=
  Success (String.append "$2b$10$" data).

Definition compare (data encrypted : string) : Outcome bool :=
  Success (String.eqb (String.append "$2b$10$" data) encrypted).

Definition sign (payload : JwtClaims) (expiresIn : number) : Outcome string :=
  match expiresIn with
  | Num _ => Success (String.append "token-of-" (email payload))
  | _ => Failure "expiresIn should be a number of seconds"
  end.

Definition verify (token : string) (secret : option string) : Outcome JwtClaims :=
  if String.eqb token "token-of-ada@example.com"
  then Success (mkClaims 1 "ada@example.com")
  else Failure "invalid token".

Definition parse_date (s : string) : option Z :=
  match parseInt (Some s) with
  | Num z => Some z
  | _ => None
  end.

#[global] Instance platform : Platform :=
  mkPlatform compare_strings
             (fun haystack needle => contains (lower_string haystack) (lower_string needle))
             hash compare sign verify parse_date
             (fun _ _ => false) (fun _ _ _ => inr "P2025").

Definition env : Env := mkEnv (Some "3600000") (Some "secret").

(** The server at time [1700000000000], nothing stored. *)
Definition start : World := mkWorld empty_database [] 1700000000000 env.

Definition ada : CreateUserDto.t :=
  CreateUserDto.mk (Some "Ada") (Some "Lovelace") (Some "ada@example.com")
                   (Some "analytical") None [].

(** The server after Ada has signed up. *)
Definition with_ada : World := handle (R_signup ada) start.

(** An event that takes place on day [1750000000000], and one that takes
    place earlier, on day [1740000000000]. *)
Definition launch : CreateEventDto.t :=
  CreateEventDto.mk (Some "Launch party") (Some "We ship") (Some "1750000000000")
                    (Some "Main hall") (Some 1).

Definition rehearsal : CreateEventDto.t :=
  CreateEventDto.mk (Some "Rehearsal") (Some "Dry run") (Some "1740000000000")
                    (Some "Room 2") (Some 1).

Definition welcome : CreateTopicDto.t :=
  CreateTopicDto.mk (Some "Welcome") (Some "Introduce yourself")
                    (Some "1700000000000") (Some 1).

Definition hello : CreateReplyDto.t :=
  CreateReplyDto.mk (Some "Hello everyone") (Some "1700000001000") (Some 1) (Some 1).

(** The server after Ada has announced both events. *)
Definition with_events : World :=
  handle (R_createEvent rehearsal) (handle (R_createEvent launch) with_ada).

(** The server after Ada has opened the topic [welcome]. *)
Definition with_topic : World := handle (R_createTopic welcome) with_ada.

(** The server after Ada has replied to her topic and then deleted the
    topic. *)
Definition orphaned : World :=
  handle (R_deleteTopic 1) (handle (R_createReplyForTopic hello) with_topic).

End Demo.

(* ------------------------------------------------------------------ *)
(** ** Statements about the server *)

(** [q] is one of the five enumerated values. *)
Definition enumerated (q : option string) : Prop :=
  q = Some "all" \/ q = Some "popular" \/ q = Some "recent"
  \/ q = Some "name" \/ q = Some "old".

(** A field of a payload is missing when it is absent or empty. *)
Definition missing (s : option string) : Prop := s = None \/ s = Some "".

(** The run fails with a [BadRequestException]. *)
Definition bad_request {A : Type} (r : Result A * World) : Prop :=
  exists message, failure r = Some (BadRequestException message).

(** No stored reply refers to both a topic and a question. *)
Definition one_target_at_most (d : Database) : Prop :=
  Forall (fun r => (targets r <= 1)%nat) (rows (tReplies d)).

(** [m] keeps the invariant [J] of the database, whether it returns or
    throws, and what it returns satisfies [Q]. *)
Definition preserves (J : Database -> Prop) {A : Type} (Q : A -> Prop) (m : M A)
  : Prop :=
  forall w, J (db w) ->
            J (db (snd (m w))) /\ (forall a, fst (m w) = Ok a -> Q a).

Definition keeps (J : Database -> Prop) {A : Type} (m : M A) : Prop :=
  preserves J (fun _ => True) m.

Section AsStated.
Context `{Platform}.

(** The [recent] listing of events as the specification words it, by
    creation time: of two events, the one created at the later reading
    of the clock is listed first. *)
Definition recent_lists_later_created_first : Prop :=
  forall (w w1 w2 w3 : World) (first second : CreateEventDto.t) (later : Z)
         (e1 e2 : Events.t) (out : list Events.t),
    EventsService.create first w = (Ok e1, w1) ->
    Date_now w1 < later ->
    EventsService.create second (set_Date_now later w1) = (Ok e2, w2) ->
    EventsService.filtered Q_recent "" w2 = (Ok out, w3) ->
    listed_before Events.EventID e2 e1 out = true.


(** The invariant of replies as the specification words it: in every
    reachable world every reply refers to exactly one target. *)
Definition every_reply_has_one_target : Prop :=
  forall w, reachable w ->
            Forall (fun r => targets r = 1%nat) (rows (tReplies (db w))).

End AsStated.

(* ------------------------------------------------------------------ *)
(** ** Further statements about the server *)

(** [s] holds no space. *)
Fixpoint no_space (s : string) : bool :=
  match s with
  | EmptyString => true
  | String c rest => negb (Ascii.eqb c " "%char) && no_space rest
  end.

(** The kinds that can be saved: replies cannot. *)
Inductive Saveable : Type :=
| SavedTopic | SavedQuestion | SavedEvent.

Section WithPlatform.
Context `{Platform}.

Definition save (k : Saveable) (targetID userID : Z) : M unit :=
  match k with
  | SavedTopic => DiscussionsService.saveTopic targetID userID
  | SavedQuestion => QuestionsService.saveQuestion targetID userID
  | SavedEvent => EventsService.saveEvent targetID userID
  end.

Definition unsave (k : Saveable) (targetID userID : Z) : M unit :=
  match k with
  | SavedTopic => DiscussionsService.unsaveTopic targetID userID
  | SavedQuestion => QuestionsService.unsaveQuestion targetID userID
  | SavedEvent => EventsService.unsaveEvent targetID userID
  end.

(** The failure of a request, when its method fails. *)
Definition fails (r : Request) (w : World) : option Exception :=
  match r with
  | R_use req => failure (JwtMiddleware.use req w)
  | R_signup userData => failure (AuthService.signup userData w)
  | R_login Email Password => failure (AuthService.login Email Password w)
  | R_getOneUser UserID => failure (AuthService.getOneUser UserID w)
  | R_getAllUsers => failure (AuthService.getAllUsers w)
  | R_deleteUser UserID => failure (AuthService.deleteUser UserID w)
  | R_updateUser editDto => failure (AuthService.updateUser editDto w)
  | R_likeTopic t u => failure (DiscussionsService.likeTopic t u w)
  | R_unlikeTopic t u => failure (DiscussionsService.unlikeTopic t u w)
  | R_saveTopic t u => failure (DiscussionsService.saveTopic t u w)
  | R_unsaveTopic t u => failure (DiscussionsService.unsaveTopic t u w)
  | R_filteredTopics q search => failure (DiscussionsController.filtered q search w)
  | R_createTopic dto => failure (DiscussionsService.create dto w)
  | R_getOneTopic t => failure (DiscussionsService.getOne t w)
  | R_deleteTopic t => failure (DiscussionsService.delete t w)
  | R_updateTopic editDto => failure (DiscussionsService.updateTopic editDto w)
  | R_likeQuestion q u => failure (QuestionsService.likeQuestion q u w)
  | R_unlikeQuestion q u => failure (QuestionsService.unlikeQuestion q u w)
  | R_saveQuestion q u => failure (QuestionsService.saveQuestion q u w)
  | R_unsaveQuestion q u => failure (QuestionsService.unsaveQuestion q u w)
  | R_filteredQuestions q search => failure (QuestionsController.filtered q search w)
  | R_createQuestion dto => failure (QuestionsService.create dto w)
  | R_getOneQuestion q => failure (QuestionsService.getOne q w)
  | R_deleteQuestion q => failure (QuestionsService.delete q w)
  | R_updateQuestion editDto => failure (QuestionsService.updateQuestion editDto w)
  | R_likeEvent e u => failure (EventsService.likeEvent e u w)
  | R_unlikeEvent e u => failure (EventsService.unlikeEvent e u w)
  | R_saveEvent e u => failure (EventsService.saveEvent e u w)
  | R_unsaveEvent e u => failure (EventsService.unsaveEvent e u w)
  | R_filteredEvents q search => failure (EventsController.filtered q search w)
  | R_createEvent dto => failure (EventsService.create dto w)
  | R_deleteEvent e => failure (EventsService.delete e w)
  | R_updateEvent editDto => failure (EventsService.updateEvent editDto w)
  | R_likeReply r u => failure (RepliesService.likeReply r u w)
  | R_unlikeReply r u => failure (RepliesService.unlikeReply r u w)
  | R_filteredRepliesForTopic q t =>
      failure (RepliesController.filteredForTopic q t w)
  | R_filteredRepliesForQuestion q i =>
      failure (RepliesController.filteredForQuestion q i w)
  | R_createReplyForTopic dto => failure (RepliesService.createForTopic dto w)
  | R_createReplyForQuestion dto => failure (RepliesService.createForQuestion dto w)
  | R_deleteReply r => failure (RepliesService.delete r w)
  | R_updateReply editDto => failure (RepliesService.updateReply editDto w)
  end.

End WithPlatform.

(** The column of [Saved] that refers to a kind. *)
Definition saved_column (k : Saveable) : Saved.t -> option Z :=
  match k with
  | SavedTopic => Saved.TopicID
  | SavedQuestion => Saved.QuestionID
  | SavedEvent => Saved.EventID
  end.

(** The [Saved] rows of a (target, user) pair. *)
Definition saved_rows (k : Saveable) (d : Database) (targetID userID : Z)
  : list Saved.t :=
  filter (fun s => opt_is (saved_column k s) targetID && (Saved.UserID s =? userID))
         (rows (tSaved d)).

(** The requests whose method awaits every call inside its [try] block:
    the likes and saves, the deletes, the single reads and the listing
    of users. *)
Definition guarded (r : Request) : bool :=
  match r with
  | R_getOneUser _ | R_getAllUsers | R_deleteUser _
  | R_likeTopic _ _ | R_unlikeTopic _ _ | R_saveTopic _ _ | R_unsaveTopic _ _
  | R_getOneTopic _ | R_deleteTopic _
  | R_likeQuestion _ _ | R_unlikeQuestion _ _ | R_saveQuestion _ _
  | R_unsaveQuestion _ _ | R_getOneQuestion _ | R_deleteQuestion _
  | R_likeEvent _ _ | R_unlikeEvent _ _ | R_saveEvent _ _ | R_unsaveEvent _ _
  | R_deleteEvent _
  | R_likeReply _ _ | R_unlikeReply _ _ | R_deleteReply _ => true
  | _ => false
  end.

(** The requests that create a row of content or a user: their method
    returns the promise of the insert without awaiting it. *)
Definition creating (r : Request) : bool :=
  match r with
  | R_signup _ | R_createTopic _ | R_createQuestion _ | R_createEvent _
  | R_createReplyForTopic _ | R_createReplyForQuestion _ => true
  | _ => false
  end.

(** The requests that only read. *)
Definition reading (r : Request) : bool :=
  match r with
  | R_use _ | R_login _ _ | R_getOneUser _ | R_getAllUsers
  | R_filteredTopics _ _ | R_getOneTopic _
  | R_filteredQuestions _ _ | R_getOneQuestion _
  | R_filteredEvents _ _
  | R_filteredRepliesForTopic _ _ | R_filteredRepliesForQuestion _ _ => true
  | _ => false
  end.

(** The exception is one the Prisma client throws. *)
Definition from_prisma (e : Exception) : Prop :=
  e = PrismaClientValidationError
  \/ exists code, e = PrismaClientKnownRequestError code.

(** The run of an update whose lookup finds nothing: the
    [NotFoundException] is logged and replaced. *)
Definition refused {A : Type} (w : World) (model : Model) (what : string)
  : Result A * World :=
  (Throw (InternalServerErrorException (Some "Internal Server Error")),
   set_calls (calls w ++ [Query model A_findUnique; Logger (NotFoundException what)])
             w).

(** A numeric field of a payload is missing when it is absent or zero. *)
Definition missing_number (n : option Z) : Prop := n = None \/ n = Some 0.

(** Two databases that differ in [Saved] at most. *)
Definition same_but_saved (d d' : Database) : Prop :=
  tUser d' = tUser d
  /\ tTopics d' = tTopics d
  /\ tQuestions d' = tQuestions d
  /\ tEvents d' = tEvents d
  /\ tReplies d' = tReplies d
  /\ tLikes d' = tLikes d.

(** The requests of the account endpoints that write. *)
Definition writes_users (r : Request) : bool :=
  match r with
  | R_signup _ | R_deleteUser _ | R_updateUser _ => true
  | _ => false
  end.

Section WithPlatform.
Context `{Platform}.

(** The stored password of the user is a hash [bcrypt] gave with 10
    rounds. *)
Definition hashed (u : User.t) : Prop :=
  exists Password, bcrypt_hash Password 10 = Success (User.Password u).

Definition passwords_hashed (d : Database) : Prop :=
  Forall hashed (rows (tUser d)).

End WithPlatform.

(** The requests that update a row: their method looks the row up,
    awaiting the lookup, and returns the promise of the update without
    awaiting it. *)
Definition updating (r : Request) : bool :=
  match r with
  | R_updateUser _ | R_updateTopic _ | R_updateQuestion _ | R_updateEvent _
  | R_updateReply _ => true
  | _ => false
  end.

(* ------------------------------------------------------------------ *)
(** ** Proof support *)

(** Unfolds the monad and the logging primitives. *)
Ltac run :=
  unfold rethrow_internal, logger_error, known_error, nextval, insert_row,
    set_rows, lift_outcome, try_return, try_catch, bind, ret, throw, emit,
    gets, modify_db in *;
  cbn in *.

Lemma existsb_find_none {A : Type} (p : A -> bool) (l : list A) :
  existsb p l = false -> find p l = None.
Proof.
  induction l as [|x l IH]; cbn; [reflexivity|].
  destruct (p x); cbn; [discriminate|exact IH].
Qed.

Lemma falsy_string_spec (s : option string) :
  falsy_string s = true <-> missing s.
Proof.
  unfold missing. destruct s as [s|]; cbn.
  - rewrite String.eqb_eq. split.
    + intros ->. now right.
    + intros [Hs|Hs]; [discriminate|congruence].
  - split; auto.
Qed.

Lemma falsy_either_spec (a b : option string) :
  falsy_string a || falsy_string b = true <-> missing a \/ missing b.
Proof. now rewrite orb_true_iff, !falsy_string_spec. Qed.

Lemma falsy_string_present (s : string) : s <> "" -> falsy_string (Some s) = false.
Proof. intros Hs. cbn. now apply String.eqb_neq. Qed.

(* ------------------------------------------------------------------ *)
(** ** Deleting a row that is not stored *)

Section Delete.
Context `{Platform}.

Lemma delete_missing (r : Resource) (id : Z) (w : World) :
  stored r (db w) id = false ->
  exists message, failure (delete_resource r id w)
                  = Some (InternalServerErrorException message).
Proof.
  intros Hs.
  destruct r as [[| | |]|]; cbn in Hs;
    apply existsb_find_none in Hs;
    unfold failure, delete_resource, DiscussionsService.delete,
      QuestionsService.delete, EventsService.delete, RepliesService.delete,
      AuthService.deleteUser, Prisma.topics.findUnique,
      Prisma.questions.findUnique, Prisma.events.findUnique,
      Prisma.replies.findUnique, Prisma.user.findUnique;
    run; rewrite Hs; cbn; eexists; reflexivity.
Qed.

(** A failure of [delete] is the exception of its [catch] block, whatever
    was thrown inside the [try] block. *)
Lemma delete_failure (r : Resource) (id : Z) (w : World) (e : Exception) :
  failure (delete_resource r id w) = Some e ->
  exists message, e = InternalServerErrorException message.
Proof.
  unfold failure.
  destruct r as [[| | |]|]; cbn [delete_resource];
    unfold DiscussionsService.delete, QuestionsService.delete, EventsService.delete,
      RepliesService.delete, AuthService.deleteUser, try_catch;
    match goal with
    | |- context [let (_, _) := ?m w in _] => destruct (m w) as [[a|x] w']
    end; cbn; intros [= <-]; eexists; reflexivity.
Qed.

End Delete.

(** C1, as the code behaves. Whenever the identifier names no stored
    row of the kind, [delete] of that kind (Topic, Question, Event,
    Reply, User) fails with [InternalServerErrorException], status 500,
    and not with [NotFoundException]: the [NotFoundException] thrown for
    the missing row is caught by the [catch] block of the same method,
    logged, and replaced. *)
Theorem delete_of_missing_id_throws_internal_error :
  forall (P : Platform) (r : Resource) (id : Z) (w : World),
    stored r (db w) id = false ->
    (exists message,
        failure (delete_resource r id w) = Some (InternalServerErrorException message))
    /\ (forall e, failure (delete_resource r id w) = Some e -> getStatus e = 500)
    /\ (forall message,
           failure (delete_resource r id w) <> Some (NotFoundException message))
    /\ In (Logger (NotFoundException
                     match r with
                     | Content Topic => "Topic not found"
                     | Content Question => "Question not found"
                     | Content Event => "Event not found"
                     | Content Reply => "Reply not found"
                     | Account => "User not found"
                     end))
          (calls (snd (delete_resource r id w))).
Proof.
  intros P r id w Hmissing. split; [|split; [|split]].
  - now apply delete_missing.
  - intros e Hf. apply delete_failure in Hf. destruct Hf as [m ->]. reflexivity.
  - intros message Hf. apply delete_failure in Hf.
    destruct Hf as [m Hm]. discriminate Hm.
  - destruct r as [[| | |]|]; cbn in Hmissing;
      apply existsb_find_none in Hmissing;
      unfold delete_resource, DiscussionsService.delete, QuestionsService.delete,
        EventsService.delete, RepliesService.delete, AuthService.deleteUser,
        Prisma.topics.findUnique, Prisma.questions.findUnique,
        Prisma.events.findUnique, Prisma.replies.findUnique,
        Prisma.user.findUnique;
      run; rewrite Hmissing; cbn; apply in_or_app; right; cbn; auto.
Qed.

(* ------------------------------------------------------------------ *)
(** ** The token check *)

Section Middleware.
Context `{Platform}.

(** Whatever is thrown inside the [try] block leaves the middleware as
    [UnauthorizedException('Invalid token')]. *)
Lemma use_failure_in_try (req : JwtMiddleware.RequestWithUser) (w : World) :
  falsy_string (JwtMiddleware.token_of (JwtMiddleware.authorization req)) = false ->
  forall e, failure (JwtMiddleware.use req w) = Some e ->
            e = UnauthorizedException "Invalid token".
Proof.
  intros Ht e. unfold failure, JwtMiddleware.use. rewrite Ht. run.
  destruct (jwt_verify _ _); cbn.
  - destruct (find _ _); cbn; congruence.
  - congruence.
Qed.

(** C3, as the code behaves. A request whose bearer token passes
    verification, while the subject of the token names no stored user,
    is refused with [UnauthorizedException('Invalid token')]: the
    [UnauthorizedException('User does not exist.')] that the middleware
    throws for the missing user is thrown inside its own [try] block,
    whose [catch] replaces every exception by the 'Invalid token' one.
    The user has been looked up, [next] has not been called, and the
    database is untouched. *)
Theorem use_unknown_user_reports_invalid_token :
  forall (req : JwtMiddleware.RequestWithUser) (w : World) (token : string)
         (claims : JwtClaims),
    JwtMiddleware.token_of (JwtMiddleware.authorization req) = Some token ->
    token <> "" ->
    jwt_verify token (SECRET_KEY (process_env w)) = Success claims ->
    user_exists (db w) (sub claims) = false ->
    JwtMiddleware.use req w
    = (Throw (UnauthorizedException "Invalid token"),
       set_calls (calls w ++ [Jwt_verify token; Query M_user A_findUnique]) w)
    /\ failure (JwtMiddleware.use req w)
       <> Some (UnauthorizedException "User does not exist").
Proof.
  intros req w token claims Ht Hn Hv Hu. apply existsb_find_none in Hu.
  assert (Hrun : JwtMiddleware.use req w
                 = (Throw (UnauthorizedException "Invalid token"),
                    set_calls (calls w ++ [Jwt_verify token;
                                           Query M_user A_findUnique]) w)).
  { unfold JwtMiddleware.use. rewrite Ht.
    rewrite (falsy_string_present _ Hn). run.
    rewrite Hv. cbn. rewrite Hu. cbn. rewrite <- app_assoc. reflexivity. }
  split; [exact Hrun|]. unfold failure. rewrite Hrun. cbn. discriminate.
Qed.

End Middleware.

(* ------------------------------------------------------------------ *)
(** ** Signing up and logging in *)

(** Case analysis on the first test the goal is stuck on. *)
Ltac split_match :=
  match goal with
  | |- context [match ?x with _ => _ end] =>
      lazymatch x with
      | context [match _ with _ => _ end] => fail
      | _ => let E := fresh "E" in destruct x eqn:E; cbn
      end
  end.

(** An integer of magnitude up to [2^53] is a double. *)
Lemma to_double_exact (z : Z) : Z.abs z <= 2 ^ 53 -> to_double z = Num z.
Proof.
  intros Hz. unfold to_double. apply Z.leb_le in Hz. now rewrite Hz.
Qed.

(** Beyond [2^53] a number is the nearest double: [parseInt] rounds
    the digits it reads, and a sum is rounded again. *)
Example parseInt_rounds_to_the_nearest_double :
  parseInt (Some "9007199254740993") = Num 9007199254740992
  /\ parseInt (Some "9007199254740995") = Num 9007199254740996
  /\ number_add (Num 1700000000000) (Num 9007199254740992) = Num 9008899254740992
  /\ number_add (Num 1) (Num 9007199254740992) = Num 9007199254740992.
Proof. repeat split. Qed.

Section Auth.
Context `{Platform}.

(** C4. [login] rejects a request whose [Email] or [Password] is
    missing with [BadRequestException] and leaves the world as it found
    it, so that no user lookup has been made. With both fields present,
    it fails with [NotFoundException] when the lookup of the email finds
    no user, and with [UnauthorizedException] when the lookup finds a
    user and [bcrypt] reports that the password does not match the
    stored hash. *)
Theorem login_rejections :
  (forall (Email Password : option string) (w : World),
      missing Email \/ missing Password ->
      AuthService.login Email Password w
      = (Throw (BadRequestException "Missing Data"), w))
  /\ (forall (Email Password : string) (w : World),
         Email <> "" -> Password <> "" ->
         fst (Prisma.user.findUnique_Email Email w) = Ok None ->
         failure (AuthService.login (Some Email) (Some Password) w)
         = Some (NotFoundException "User does not exist"))
  /\ (forall (Email Password : string) (w : World) (user : User.t),
         Email <> "" -> Password <> "" ->
         fst (Prisma.user.findUnique_Email Email w) = Ok (Some user) ->
         bcrypt_compare Password (User.Password user) = Success false ->
         failure (AuthService.login (Some Email) (Some Password) w)
         = Some (UnauthorizedException "Cannot login with these credentials")).
Proof.
  split; [|split].
  - intros Email Password w Hm. apply falsy_either_spec in Hm.
    unfold AuthService.login. now rewrite Hm.
  - intros Email Password w HE HP Hf.
    unfold failure, AuthService.login.
    rewrite (falsy_string_present _ HE), (falsy_string_present _ HP).
    unfold Prisma.user.findUnique_Email in *. run.
    injection Hf as ->. reflexivity.
  - intros Email Password w user HE HP Hf Hc.
    unfold failure, AuthService.login, AuthService.compare.
    rewrite (falsy_string_present _ HE), (falsy_string_present _ HP).
    unfold Prisma.user.findUnique_Email in *. run.
    injection Hf as ->. cbn. rewrite Hc. reflexivity.
Qed.

(** C8. When [login] succeeds at time [Date.now()], with
    [parseInt(process.env.JWT_DURATION)] the number [durationMs], the
    call to [signAsync] is the last call of the method; it is given the
    JavaScript sum [Date.now() + durationMs] as [expiresIn] and the
    payload made of the identifier and the email of the user, who is
    the stored user with the submitted email. The cookie returned is
    what the signer gave for these arguments. The sum is the double
    nearest to the sum of the two integers: it is that sum itself
    whenever the clock and the sum do not exceed [2^53] in magnitude. *)
Theorem login_token_expiry :
  forall (Email Password : option string) (w w' : World) (cookie : string)
         (user : User.t) (durationMs : Z),
    AuthService.login Email Password w = (Ok (cookie, user), w') ->
    parseInt (JWT_DURATION (process_env w)) = Num durationMs ->
    let payload := mkClaims (User.UserID user) (User.Email user) in
    let expiresIn := number_add (to_double (Date_now w)) (Num durationMs) in
    calls w' = calls w ++ [Query M_user A_findUnique; Bcrypt_compare;
                           Jwt_signAsync payload expiresIn]
    /\ jwt_sign payload expiresIn = Success cookie
    /\ Email = Some (User.Email user)
    /\ In user (rows (tUser (db w)))
    /\ (Z.abs (Date_now w) <= 2 ^ 53 ->
        Z.abs (Date_now w + durationMs) <= 2 ^ 53 ->
        expiresIn = Num (Date_now w + durationMs)).
Proof.
  intros Email Password w w' cookie user durationMs Hl Hd.
  unfold AuthService.login, AuthService.compare, Prisma.user.findUnique_Email in Hl.
  destruct (falsy_string Email || falsy_string Password) eqn:Hm; [discriminate|].
  apply orb_false_elim in Hm. destruct Hm as [HE HP].
  destruct Email as [Email|]; [|discriminate].
  run.
  destruct (find _ _) as [u|] eqn:Hf; [|discriminate]. cbn in Hl.
  destruct (bcrypt_compare _ _) as [[|]|] eqn:Hc; cbn in Hl; try discriminate.
  rewrite Hd in Hl. cbn in Hl.
  destruct (jwt_sign _ _) as [c|] eqn:Hs; cbn in Hl; [|discriminate].
  injection Hl as <- <- <-. cbn.
  apply find_some in Hf. destruct Hf as [Hin He].
  apply String.eqb_eq in He.
  split; [rewrite <- !app_assoc; reflexivity|].
  split; [exact Hs|]. split; [congruence|]. split; [exact Hin|].
  intros Hnow Hsum.
  rewrite (to_double_exact _ Hnow). cbn [number_add].
  apply (to_double_exact _ Hsum).
Qed.

(** C10. [signup] fails with [BadRequestException] exactly when the
    [Email] or the [Password] of the payload is missing; the message is
    then 'Missing Data' and the world is left as it was. A payload with
    both is looked up by its email first, whatever its [FirstName] and
    [LastName] are, absent ones included. *)
Theorem signup_missing_data :
  forall (userData : CreateUserDto.t) (w : World),
    (bad_request (AuthService.signup userData w)
     <-> missing (CreateUserDto.Email userData)
         \/ missing (CreateUserDto.Password userData))
    /\ (missing (CreateUserDto.Email userData)
        \/ missing (CreateUserDto.Password userData) ->
        AuthService.signup userData w
        = (Throw (BadRequestException "Missing Data"), w))
    /\ (~ (missing (CreateUserDto.Email userData)
           \/ missing (CreateUserDto.Password userData)) ->
        exists rest, calls (snd (AuthService.signup userData w))
                     = calls w ++ Query M_user A_findUnique :: rest).
Proof.
  intros userData w.
  rewrite <- falsy_either_spec.
  unfold bad_request, failure, AuthService.signup, AuthService.hash,
    Prisma.user.findUnique_Email, Prisma.user.create.
  destruct (falsy_string (CreateUserDto.Email userData)
            || falsy_string (CreateUserDto.Password userData)) eqn:Hm.
  - split; [|split].
    + split; [reflexivity|]. intros _. eexists. reflexivity.
    + reflexivity.
    + intros Hn. now contradiction Hn.
  - split; [|split].
    + split; [|discriminate].
      intros [message Hf]. revert Hf. run.
      repeat (split_match; try discriminate).
    + discriminate.
    + intros _. run.
      repeat (split_match; rewrite <- ?app_assoc; try (eexists; reflexivity)).
Qed.

End Auth.

(* ------------------------------------------------------------------ *)
(** ** Sorting *)

Section Sorting.
Variable A : Type.
Variable compareFn : A -> A -> Z.

Lemma sort_insert_perm (x : A) (l : list A) :
  Permutation (x :: l) (sort_insert compareFn x l).
Proof.
  induction l as [|y l IH]; cbn; [reflexivity|].
  destruct (compareFn x y <=? 0); [reflexivity|].
  rewrite perm_swap. now constructor.
Qed.

Lemma Array_sort_perm (l : list A) : Permutation l (Array_sort compareFn l).
Proof.
  induction l as [|x l IH]; cbn; [constructor|].
  rewrite <- sort_insert_perm. now constructor.
Qed.

Hypothesis compareFn_consistent : consistent compareFn.

Lemma sort_insert_sorted (x : A) (l : list A) :
  StronglySorted (fun a b => compareFn a b <= 0) l ->
  StronglySorted (fun a b => compareFn a b <= 0) (sort_insert compareFn x l).
Proof.
  destruct compareFn_consistent as [total trans].
  induction 1 as [|y l Hs IH Hy]; cbn.
  - repeat constructor.
  - destruct (Z.leb_spec (compareFn x y) 0) as [Hxy|Hxy].
    + constructor; [now constructor|].
      constructor; [exact Hxy|].
      eapply Forall_impl; [|exact Hy]. intros z Hz. now apply (trans x y z).
    + constructor; [exact IH|].
      rewrite <- sort_insert_perm. constructor; [|exact Hy].
      destruct (total x y); [lia|assumption].
Qed.

Lemma Array_sort_sorted (l : list A) :
  StronglySorted (fun a b => compareFn a b <= 0) (Array_sort compareFn l).
Proof.
  induction l as [|x l IH]; cbn; [constructor|now apply sort_insert_sorted].
Qed.

End Sorting.

Lemma StronglySorted_weaken {A : Type} (R S : A -> A -> Prop) (l : list A) :
  (forall a b, R a b -> S a b) -> StronglySorted R l -> StronglySorted S l.
Proof.
  intros HRS. induction 1 as [|x l Hs IH Hx]; constructor; [exact IH|].
  eapply Forall_impl; [|exact Hx]. intros b. apply HRS.
Qed.

Lemma consistent_descending {A : Type} (key : A -> Z) :
  consistent (fun a b => key b - key a).
Proof. split; intros; lia. Qed.

Lemma consistent_ascending {A : Type} (key : A -> Z) :
  consistent (fun a b => key a - key b).
Proof. split; intros; lia. Qed.

Lemma consistent_text {A : Type} (compareFn : string -> string -> Z) (text : A -> string) :
  consistent compareFn -> consistent (fun a b => compareFn (text a) (text b)).
Proof.
  intros [total trans]. split.
  - intros a b. apply total.
  - intros a b c. apply trans.
Qed.

(** The [switch (q)] of the listings yields a listing in mode [q]. *)
Lemma switch_listing {A : Type} (compareFn : string -> string -> Z)
    (likes stamp : A -> Z) (text : A -> string) (q : FilterMode) (fetched : list A) :
  consistent compareFn ->
  listing compareFn likes stamp text q fetched
    match q with
    | Q_all => fetched
    | Q_popular => Array_sort (fun a b => likes b - likes a) fetched
    | Q_recent => Array_sort (fun a b => stamp b - stamp a) fetched
    | Q_name => Array_sort (fun a b => compareFn (text a) (text b)) fetched
    | Q_old => Array_sort (fun a b => stamp a - stamp b) fetched
    end.
Proof.
  intros Hc. unfold listing, descending, ascending, ascending_text.
  destruct q; (split; [try apply Array_sort_perm; reflexivity|]).
  - reflexivity.
  - eapply StronglySorted_weaken;
      [|apply Array_sort_sorted, (consistent_descending likes)].
    cbn. intros; lia.
  - eapply StronglySorted_weaken;
      [|apply Array_sort_sorted, (consistent_descending stamp)].
    cbn. intros; lia.
  - apply Array_sort_sorted, consistent_text, Hc.
  - eapply StronglySorted_weaken;
      [|apply Array_sort_sorted, (consistent_ascending stamp)].
    cbn. intros; lia.
Qed.

Section Listings.
Context `{Platform}.
Hypothesis collation : consistent localeCompare.

(** C2, amended. Every listing returns the rows the fetch returns, in
    the order of its mode: unchanged for [all], descending like counter
    for [popular], ascending [localeCompare] order of the title (the
    content for replies) for [name]; for [recent] and [old], descending
    and ascending [CreatedAt] for topics, questions and replies, and
    descending and ascending [Date], the day the event takes place, for
    events, whose rows carry no creation time. *)
Theorem filtered_is_a_listing :
  forall (q : FilterMode) (search : string) (id : Z) (w : World),
    (exists fetched out,
        fst (Prisma.topics.findMany_Title_contains search w) = Ok fetched
        /\ fst (DiscussionsService.filtered q search w) = Ok out
        /\ listing localeCompare Topics.LikesNb Topics.CreatedAt Topics.Title
                   q fetched out)
    /\ (exists fetched out,
           fst (Prisma.questions.findMany_Title_contains search w) = Ok fetched
           /\ fst (QuestionsService.filtered q search w) = Ok out
           /\ listing localeCompare Questions.LikesNb Questions.CreatedAt
                      Questions.Title q fetched out)
    /\ (exists fetched out,
           fst (Prisma.events.findMany_Title_contains search w) = Ok fetched
           /\ fst (EventsService.filtered q search w) = Ok out
           /\ listing localeCompare Events.LikesNB Events.Date Events.Title
                      q fetched out)
    /\ (exists fetched out,
           fst (Prisma.replies.findMany_TopicID id w) = Ok fetched
           /\ fst (RepliesService.filteredForTopic q id w) = Ok out
           /\ listing localeCompare Replies.LikesNB Replies.CreatedAt Replies.Content
                      q fetched out)
    /\ (exists fetched out,
           fst (Prisma.replies.findMany_QuestionID id w) = Ok fetched
           /\ fst (RepliesService.filteredForQuestion q id w) = Ok out
           /\ listing localeCompare Replies.LikesNB Replies.CreatedAt Replies.Content
                      q fetched out).
Proof.
  intros q search id w.
  repeat split; do 2 eexists; (split; [reflexivity|]); (split; [reflexivity|]);
    unfold RepliesService.sorted_replies; apply switch_listing, collation.
Qed.

End Listings.

(* ------------------------------------------------------------------ *)
(** ** Liking and unliking *)

Lemma find_map_replace {R : Type} (p : R -> bool) (r' : R) (l : list R) (r : R) :
  find p l = Some r -> p r' = true ->
  find p (map (fun x => if p x then r' else x) l) = Some r'.
Proof.
  intros Hf Hp. induction l as [|x l IH]; cbn in *; [discriminate|].
  destruct (p x) eqn:Hx.
  - now rewrite Hp.
  - rewrite Hx. now apply IH.
Qed.


(** Case analysis on a test that decides which computation runs next. *)
Ltac split_test :=
  match goal with
  | |- context [(if ?c then _ else _) _] =>
      let E := fresh "E" in destruct c eqn:E; cbn
  end.

Ltac unfold_likes :=
  unfold like, unlike, update_counter, create_like, delete_like,
    DiscussionsService.likeTopic, QuestionsService.likeQuestion,
    EventsService.likeEvent, RepliesService.likeReply,
    DiscussionsService.unlikeTopic, QuestionsService.unlikeQuestion,
    EventsService.unlikeEvent, RepliesService.unlikeReply,
    DiscussionsService.internal,
    Prisma.topics.update_LikesNb, Prisma.questions.update_LikesNb,
    Prisma.events.update_LikesNB, Prisma.replies.update_LikesNB,
    Prisma.likes.create, Prisma.likes.delete, counter, internal_message,
    model_of, like_column.

Section Likes.
Context `{Platform}.


End Likes.

Section Unlikes.
Context `{Platform}.




End Unlikes.

(* ------------------------------------------------------------------ *)
(** ** The filter endpoints *)

Lemma as_filter_enumerated (q : option string) :
  (exists m, as_filter q = Some m) <-> enumerated q.
Proof.
  unfold enumerated, as_filter. destruct q as [s|].
  - destruct (String.eqb_spec s "all") as [->|H1]; [split; eauto|].
    destruct (String.eqb_spec s "popular") as [->|H2]; [split; eauto|].
    destruct (String.eqb_spec s "recent") as [->|H3]; [split; eauto 6|].
    destruct (String.eqb_spec s "name") as [->|H4]; [split; eauto 6|].
    destruct (String.eqb_spec s "old") as [->|H5]; [split; eauto 6|].
    split; [intros [m Hm]; discriminate|].
    intros [E|[E|[E|[E|E]]]]; congruence.
  - split; [intros [m Hm]; discriminate|].
    intros [E|[E|[E|[E|E]]]]; discriminate.
Qed.

Section Endpoints.
Context `{Platform}.

(** C7. Each of the five filter endpoints (topics, questions, events,
    replies of a topic, replies of a question) fails with
    [BadRequestException] exactly when [q] is not one of 'all',
    'popular', 'recent', 'name' and 'old'; the world is then left as it
    was. When [q] is one of the five, the endpoint is the listing of its
    service for that mode, with [String(search)] as the search text. *)
Theorem filter_endpoints_reject_unknown_modes :
  forall (q search : option string) (id : Z) (w : World),
    ((bad_request (DiscussionsController.filtered q search w) <-> ~ enumerated q)
     /\ (bad_request (QuestionsController.filtered q search w) <-> ~ enumerated q)
     /\ (bad_request (EventsController.filtered q search w) <-> ~ enumerated q)
     /\ (bad_request (RepliesController.filteredForTopic q id w) <-> ~ enumerated q)
     /\ (bad_request (RepliesController.filteredForQuestion q id w)
         <-> ~ enumerated q))
    /\ (~ enumerated q ->
        DiscussionsController.filtered q search w
        = (Throw (BadRequestException "Invalid Query Parameter"), w)
        /\ QuestionsController.filtered q search w
           = (Throw (BadRequestException "Invalid Query Parameter"), w)
        /\ EventsController.filtered q search w
           = (Throw (BadRequestException "Invalid Query Parameter"), w)
        /\ RepliesController.filteredForTopic q id w
           = (Throw (BadRequestException "Invalid Query Parameter"), w)
        /\ RepliesController.filteredForQuestion q id w
           = (Throw (BadRequestException "Invalid Query Parameter"), w))
    /\ (enumerated q ->
        exists m, as_filter q = Some m
        /\ DiscussionsController.filtered q search w
           = DiscussionsService.filtered m (String_ search) w
        /\ QuestionsController.filtered q search w
           = QuestionsService.filtered m (String_ search) w
        /\ EventsController.filtered q search w
           = EventsService.filtered m (String_ search) w
        /\ RepliesController.filteredForTopic q id w
           = RepliesService.filteredForTopic m id w
        /\ RepliesController.filteredForQuestion q id w
           = RepliesService.filteredForQuestion m id w).
Proof.
  intros q search id w. unfold bad_request.
  pose proof (as_filter_enumerated q) as He.
  unfold DiscussionsController.filtered, QuestionsController.filtered,
    EventsController.filtered, RepliesController.filteredForTopic,
    RepliesController.filteredForQuestion.
  destruct (as_filter q) as [m|].
  - assert (Hq : enumerated q) by (apply He; eauto).
    split; [|split].
    + repeat split; try (intros [message Hm]; cbn in Hm; discriminate);
        intros Hn; contradiction.
    + intros Hn; contradiction.
    + intros _. exists m. repeat split.
  - assert (Hq : ~ enumerated q) by (intros Hq; apply He in Hq; destruct Hq; discriminate).
    split; [|split].
    + repeat split; try (intros _; exact Hq); intros _; eexists; reflexivity.
    + intros _. repeat split.
    + intros Hn; contradiction.
Qed.

End Endpoints.

(* ------------------------------------------------------------------ *)
(** ** The targets of replies *)

Lemma targets_null_TopicID (id : Z) (r : Replies.t) :
  (targets (Replies_null_TopicID id r) <= targets r)%nat.
Proof.
  unfold targets, Replies_null_TopicID, set_null. cbn.
  destruct (opt_is (Replies.TopicID r) id), (Replies.TopicID r), (Replies.QuestionID r);
    cbn; lia.
Qed.

Lemma targets_null_QuestionID (id : Z) (r : Replies.t) :
  (targets (Replies_null_QuestionID id r) <= targets r)%nat.
Proof.
  unfold targets, Replies_null_QuestionID, set_null. cbn.
  destruct (opt_is (Replies.QuestionID r) id), (Replies.TopicID r),
    (Replies.QuestionID r); cbn; lia.
Qed.

Section Targets.
Variable P : Replies.t -> Prop.

Lemma Forall_filter_keep (p : Replies.t -> bool) (l : list Replies.t) :
  Forall P l -> Forall P (filter p l).
Proof.
  intros Hl. apply Forall_forall. intros x Hx.
  apply filter_In in Hx. destruct Hx as [Hx _].
  revert x Hx. now apply Forall_forall.
Qed.

Lemma Forall_replace (p : Replies.t -> bool) (r' : Replies.t) (l : list Replies.t) :
  Forall P l -> P r' -> Forall P (map (fun x => if p x then r' else x) l).
Proof.
  intros Hl Hr. apply Forall_map. eapply Forall_impl; [|exact Hl].
  intros x Hx. now destruct (p x).
Qed.

Lemma Forall_found (p : Replies.t -> bool) (l : list Replies.t) (r : Replies.t) :
  Forall P l -> find p l = Some r -> P r.
Proof.
  intros Hl Hf. apply find_some in Hf. destruct Hf as [Hin _].
  revert r Hin. now apply Forall_forall.
Qed.

End Targets.

Lemma Forall_null_TopicID (id : Z) (l : list Replies.t) :
  Forall (fun r => (targets r <= 1)%nat) l ->
  Forall (fun r => (targets r <= 1)%nat) (map (Replies_null_TopicID id) l).
Proof.
  intros Hl. apply Forall_map. eapply Forall_impl; [|exact Hl].
  intros r Hr. pose proof (targets_null_TopicID id r). cbn beta in *. lia.
Qed.

Lemma Forall_null_QuestionID (id : Z) (l : list Replies.t) :
  Forall (fun r => (targets r <= 1)%nat) l ->
  Forall (fun r => (targets r <= 1)%nat) (map (Replies_null_QuestionID id) l).
Proof.
  intros Hl. apply Forall_map. eapply Forall_impl; [|exact Hl].
  intros r Hr. pose proof (targets_null_QuestionID id r). cbn beta in *. lia.
Qed.

Ltac unfold_services :=
  unfold JwtMiddleware.use,
    AuthService.signup, AuthService.login, AuthService.getOneUser,
    AuthService.getAllUsers, AuthService.deleteUser, AuthService.updateUser,
    AuthService.hash, AuthService.compare,
    DiscussionsController.filtered, QuestionsController.filtered,
    EventsController.filtered, RepliesController.filteredForTopic,
    RepliesController.filteredForQuestion,
    DiscussionsService.likeTopic, DiscussionsService.unlikeTopic,
    DiscussionsService.saveTopic, DiscussionsService.unsaveTopic,
    DiscussionsService.filtered, DiscussionsService.create,
    DiscussionsService.getOne, DiscussionsService.delete,
    DiscussionsService.updateTopic,
    QuestionsService.likeQuestion, QuestionsService.unlikeQuestion,
    QuestionsService.saveQuestion, QuestionsService.unsaveQuestion,
    QuestionsService.filtered, QuestionsService.create,
    QuestionsService.getOne, QuestionsService.delete,
    QuestionsService.updateQuestion,
    EventsService.likeEvent, EventsService.unlikeEvent,
    EventsService.saveEvent, EventsService.unsaveEvent,
    EventsService.filtered, EventsService.create, EventsService.delete,
    EventsService.updateEvent,
    RepliesService.likeReply, RepliesService.unlikeReply,
    RepliesService.filteredForTopic, RepliesService.filteredForQuestion,
    RepliesService.createForTopic, RepliesService.createForQuestion,
    RepliesService.delete, RepliesService.updateReply in *.

Ltac unfold_prisma :=
  unfold Prisma.user.findUnique_Email, Prisma.user.findUnique,
    Prisma.user.findMany, Prisma.user.create, Prisma.user.delete,
    Prisma.user.update,
    Prisma.topics.findMany_Title_contains, Prisma.topics.create,
    Prisma.topics.findUnique, Prisma.topics.findUnique_include,
    Prisma.topics.delete,
    Prisma.topics.update_LikesNb, Prisma.topics.update,
    Prisma.questions.findMany_Title_contains, Prisma.questions.create,
    Prisma.questions.findUnique, Prisma.questions.findUnique_include,
    Prisma.questions.delete,
    Prisma.questions.update_LikesNb, Prisma.questions.update,
    Prisma.events.findMany_Title_contains, Prisma.events.create,
    Prisma.events.findUnique, Prisma.events.delete,
    Prisma.events.update_LikesNB, Prisma.events.update,
    Prisma.replies.findMany_TopicID, Prisma.replies.findMany_QuestionID,
    Prisma.replies.create, Prisma.replies.findUnique, Prisma.replies.delete,
    Prisma.replies.update_LikesNB, Prisma.replies.update,
    Prisma.likes.create, Prisma.likes.delete,
    Prisma.saved.create, Prisma.saved.delete in *.


(** Case analysis on the test that decides the world a run leaves. *)
Ltac split_run :=
  match goal with
  | |- context [snd (if ?c then _ else _)] =>
      let E := fresh "E" in destruct c eqn:E; cbn
  | |- context [snd (match ?c with _ => _ end)] =>
      let E := fresh "E" in destruct c eqn:E; cbn
  | |- context [snd ((if ?c then _ else _) _)] =>
      let E := fresh "E" in destruct c eqn:E; cbn
  | |- context [snd ((match ?c with _ => _ end) _)] =>
      let E := fresh "E" in destruct c eqn:E; cbn
  end.

(** *** Invariants of the database *)

Section Preserves.
Variable J : Database -> Prop.

Lemma keeps_intro {A : Type} (m : M A) :
  (forall w, J (db w) -> J (db (snd (m w)))) -> keeps J m.
Proof. intros Hm w Hw. split; [now apply Hm|trivial]. Qed.

Lemma preserves_ret {A : Type} (Q : A -> Prop) (a : A) : Q a -> preserves J Q (ret a).
Proof. intros Ha w Hw. split; [exact Hw|]. cbn. intros b [= <-]. exact Ha. Qed.

Lemma preserves_throw {A : Type} (Q : A -> Prop) (e : Exception) :
  preserves J Q (throw e).
Proof. intros w Hw. split; [exact Hw|]. cbn. discriminate. Qed.

Lemma preserves_bind {A B : Type} (Q : B -> Prop) (m : M A) (f : A -> M B) :
  keeps J m -> (forall a, preserves J Q (f a)) -> preserves J Q (bind m f).
Proof.
  intros Hm Hf w Hw. unfold bind.
  destruct (Hm w Hw) as [Hj _]. destruct (m w) as [[a|e] w']; cbn in *.
  - now apply Hf.
  - split; [exact Hj|discriminate].
Qed.

Lemma preserves_try_catch {A : Type} (Q : A -> Prop) (body : M A)
    (handler : Exception -> M A) :
  preserves J Q body -> (forall e, preserves J Q (handler e)) ->
  preserves J Q (try_catch body handler).
Proof.
  intros Hb Hh w Hw. unfold try_catch.
  destruct (Hb w Hw) as [Hj Hq]. destruct (body w) as [[a|e] w']; cbn in *.
  - split; [exact Hj|]. intros b [= <-]. now apply Hq.
  - now apply Hh.
Qed.

(** A method that hands over a promise keeps the invariant when the
    promise does. *)
Lemma preserves_try_return {A : Type} (body : M (M A))
    (handler : Exception -> M (M A)) :
  preserves J (keeps J) body -> (forall e, preserves J (keeps J) (handler e)) ->
  keeps J (try_return body handler).
Proof.
  intros Hb Hh w Hw. unfold try_return.
  destruct (preserves_try_catch (keeps J) body handler Hb Hh w Hw) as [Hj Hq].
  destruct (try_catch body handler w) as [[p|e] w']; cbn in *.
  - now apply (Hq p eq_refl).
  - split; [exact Hj|discriminate].
Qed.

Lemma keeps_emit (e : Effect) : keeps J (emit e).
Proof. apply keeps_intro. intros w Hw. exact Hw. Qed.

Lemma keeps_gets {A : Type} (f : World -> A) : keeps J (gets f).
Proof. apply keeps_intro. intros w Hw. exact Hw. Qed.

Lemma keeps_lift_outcome {A : Type} (o : Outcome A) : keeps J (lift_outcome o).
Proof. apply keeps_intro. intros w Hw. now destruct o. Qed.

Lemma keeps_rethrow_internal {A : Type} (Q : A -> Prop) (message : option string)
    (e : Exception) :
  preserves J Q (rethrow_internal message e).
Proof. intros w Hw. split; [exact Hw|]. cbn. discriminate. Qed.

End Preserves.

(** One step of a proof that a service method keeps an invariant. *)
Ltac keep_step :=
  lazymatch goal with
  | |- preserves _ _ (bind _ _) => apply preserves_bind; [|intros ?]
  | |- keeps _ (bind _ _) => apply preserves_bind; [|intros ?]
  | |- preserves _ _ (try_catch _ _) => apply preserves_try_catch; [|intros ?]
  | |- keeps _ (try_catch _ _) => apply preserves_try_catch; [|intros ?]
  | |- keeps _ (try_return _ _) => apply preserves_try_return; [|intros ?]
  | |- preserves _ _ (try_return _ _) => apply preserves_try_return; [|intros ?]
  | |- preserves _ _ (ret _) => apply preserves_ret
  | |- keeps _ (ret _) => apply preserves_ret
  | |- preserves _ _ (throw _) => apply preserves_throw
  | |- keeps _ (throw _) => apply preserves_throw
  | |- preserves _ _ (rethrow_internal _ _) => apply keeps_rethrow_internal
  | |- keeps _ (rethrow_internal _ _) => apply keeps_rethrow_internal
  | |- preserves _ _ (match ?x with _ => _ end) => destruct x
  | |- keeps _ (match ?x with _ => _ end) => destruct x
  | |- True => exact I
  | |- keeps _ (emit _) => apply keeps_emit
  | |- preserves _ _ (emit _) => apply keeps_emit
  | |- keeps _ (logger_error _) => apply keeps_emit
  | |- keeps _ (gets _) => apply keeps_gets
  | |- preserves _ _ (gets _) => apply keeps_gets
  | |- keeps _ (lift_outcome _) => apply keeps_lift_outcome
  | |- preserves _ _ (lift_outcome _) => apply keeps_lift_outcome
  end.

Create HintDb keeps.

Ltac keep :=
  repeat first
    [ keep_step
    | solve [auto with keeps]
    | match goal with
      | |- preserves ?J (fun _ => True) ?m => change (keeps J m); solve [auto with keeps]
      end ].

(** A delegate keeps the invariant on the replies: by cases on the tests
    of the delegate. *)
Ltac delegate_keeps :=
  apply keeps_intro; intros w Hw; unfold_prisma; run; repeat split_run;
  unfold one_target_at_most in *; cbn;
  auto using Forall_filter_keep, Forall_null_TopicID, Forall_null_QuestionID.

Section Reachable.
Context `{Platform}.

Lemma ok_user_findUnique_Email e :
  keeps one_target_at_most (Prisma.user.findUnique_Email e).
Proof. delegate_keeps. Qed.
Lemma ok_user_findUnique i :
  keeps one_target_at_most (Prisma.user.findUnique i).
Proof. delegate_keeps. Qed.
Lemma ok_user_findMany :
  keeps one_target_at_most Prisma.user.findMany.
Proof. delegate_keeps. Qed.
Lemma ok_user_create i f l e p :
  keeps one_target_at_most (Prisma.user.create i f l e p []).
Proof.
  apply keeps_intro. intros w Hw. unfold Prisma.user.create. run.
  destruct i, f, l; cbn; repeat split_test; exact Hw.
Qed.
Lemma ok_user_delete i :
  keeps one_target_at_most (Prisma.user.delete i).
Proof. delegate_keeps. Qed.
Lemma ok_user_update i f l p :
  keeps one_target_at_most (Prisma.user.update i f l p).
Proof. delegate_keeps. Qed.

Lemma ok_topics_findMany s :
  keeps one_target_at_most (Prisma.topics.findMany_Title_contains s).
Proof. delegate_keeps. Qed.
Lemma ok_topics_create t c a i :
  keeps one_target_at_most (Prisma.topics.create t c a i).
Proof. delegate_keeps. Qed.
Lemma ok_topics_findUnique i :
  keeps one_target_at_most (Prisma.topics.findUnique i).
Proof. delegate_keeps. Qed.
Lemma ok_topics_findUnique_include i :
  keeps one_target_at_most (Prisma.topics.findUnique_include i).
Proof. delegate_keeps. Qed.
Lemma ok_topics_delete i :
  keeps one_target_at_most (Prisma.topics.delete i).
Proof. delegate_keeps. Qed.
Lemma ok_topics_update_LikesNb i u :
  keeps one_target_at_most (Prisma.topics.update_LikesNb i u).
Proof. delegate_keeps. Qed.
Lemma ok_topics_update i t c :
  keeps one_target_at_most (Prisma.topics.update i t c).
Proof. delegate_keeps. Qed.


Lemma ok_questions_findMany s :
  keeps one_target_at_most (Prisma.questions.findMany_Title_contains s).
Proof. delegate_keeps. Qed.
Lemma ok_questions_create t c a i :
  keeps one_target_at_most (Prisma.questions.create t c a i).
Proof. delegate_keeps. Qed.
Lemma ok_questions_findUnique i :
  keeps one_target_at_most (Prisma.questions.findUnique i).
Proof. delegate_keeps. Qed.
Lemma ok_questions_findUnique_include i :
  keeps one_target_at_most (Prisma.questions.findUnique_include i).
Proof. delegate_keeps. Qed.
Lemma ok_questions_delete i :
  keeps one_target_at_most (Prisma.questions.delete i).
Proof. delegate_keeps. Qed.
Lemma ok_questions_update_LikesNb i u :
  keeps one_target_at_most (Prisma.questions.update_LikesNb i u).
Proof. delegate_keeps. Qed.
Lemma ok_questions_update i t c :
  keeps one_target_at_most (Prisma.questions.update i t c).
Proof. delegate_keeps. Qed.

Lemma ok_events_findMany s :
  keeps one_target_at_most (Prisma.events.findMany_Title_contains s).
Proof. delegate_keeps. Qed.
Lemma ok_events_create t c a i l :
  keeps one_target_at_most (Prisma.events.create t c a i l).
Proof. delegate_keeps. Qed.
Lemma ok_events_findUnique i :
  keeps one_target_at_most (Prisma.events.findUnique i).
Proof. delegate_keeps. Qed.
Lemma ok_events_delete i :
  keeps one_target_at_most (Prisma.events.delete i).
Proof. delegate_keeps. Qed.
Lemma ok_events_update_LikesNB i u :
  keeps one_target_at_most (Prisma.events.update_LikesNB i u).
Proof. delegate_keeps. Qed.
Lemma ok_events_update i t c a l :
  keeps one_target_at_most (Prisma.events.update i t c a l).
Proof. delegate_keeps. Qed.

Lemma ok_likes_create e t q r u :
  keeps one_target_at_most (Prisma.likes.create e t q r u).
Proof. delegate_keeps. Qed.
Lemma ok_likes_delete c i u :
  keeps one_target_at_most (Prisma.likes.delete c i u).
Proof. delegate_keeps. Qed.
Lemma ok_saved_create e t q u :
  keeps one_target_at_most (Prisma.saved.create e t q u).
Proof. delegate_keeps. Qed.
Lemma ok_saved_delete c i u :
  keeps one_target_at_most (Prisma.saved.delete c i u).
Proof. delegate_keeps. Qed.

Lemma ok_replies_findMany_TopicID i :
  keeps one_target_at_most (Prisma.replies.findMany_TopicID i).
Proof. delegate_keeps. Qed.
Lemma ok_replies_findMany_QuestionID i :
  keeps one_target_at_most (Prisma.replies.findMany_QuestionID i).
Proof. delegate_keeps. Qed.
Lemma ok_replies_findUnique i :
  keeps one_target_at_most (Prisma.replies.findUnique i).
Proof. delegate_keeps. Qed.
Lemma ok_replies_delete i :
  keeps one_target_at_most (Prisma.replies.delete i).
Proof. delegate_keeps. Qed.

(** A reply is stored with the targets the [data] names: one at most
    when the [data] names one at most. *)
Lemma ok_replies_create t q c a i :
  t = None \/ q = None -> keeps one_target_at_most (Prisma.replies.create t q c a i).
Proof.
  intros Hone. delegate_keeps.
  apply Forall_app. split; [exact Hw|].
  constructor; [|constructor]. unfold targets. cbn.
  destruct t, q, Hone; try discriminate; cbn; lia.
Qed.

Lemma ok_replies_update_LikesNB i u :
  keeps one_target_at_most (Prisma.replies.update_LikesNB i u).
Proof.
  delegate_keeps.
  apply (Forall_replace _ (fun x => Replies.ReplyID x =? i)); [exact Hw|].
  apply (Forall_found _ _ _ _ Hw E).
Qed.

Lemma ok_replies_update i c :
  keeps one_target_at_most (Prisma.replies.update i c).
Proof.
  delegate_keeps.
  apply (Forall_replace _ (fun x => Replies.ReplyID x =? i)); [exact Hw|].
  apply (Forall_found _ _ _ _ Hw E).
Qed.

End Reachable.

Section Services.
Context `{Platform}.

#[local] Hint Resolve ok_user_findUnique_Email ok_user_findUnique ok_user_findMany
  ok_user_create ok_user_delete ok_user_update
  ok_topics_findMany ok_topics_create ok_topics_findUnique ok_topics_delete
  ok_topics_findUnique_include ok_questions_findUnique_include
  ok_topics_update_LikesNb ok_topics_update
  ok_questions_findMany ok_questions_create ok_questions_findUnique
  ok_questions_delete ok_questions_update_LikesNb ok_questions_update
  ok_events_findMany ok_events_create ok_events_findUnique ok_events_delete
  ok_events_update_LikesNB ok_events_update
  ok_likes_create ok_likes_delete ok_saved_create ok_saved_delete
  ok_replies_findMany_TopicID ok_replies_findMany_QuestionID
  ok_replies_findUnique ok_replies_delete ok_replies_create
  ok_replies_update_LikesNB ok_replies_update : keeps.

(** Every request that names its data leaves a database in which no
    reply refers to both a topic and a question, when it finds one. *)
Lemma handle_keeps_targets (r : Request) (w : World) :
  names_its_data r = true ->
  one_target_at_most (db w) -> one_target_at_most (db (handle r w)).
Proof.
  intros Hr Hw.
  assert (K : forall A (m : M A), keeps one_target_at_most m -> one_target_at_most (db (snd (m w))))
    by (intros A m Hm; now apply Hm).
  destruct r; cbn [handle]; apply K; unfold_services;
    try (cbn in Hr; destruct (CreateUserDto.further _); [|discriminate Hr]);
    keep.
Qed.

End Services.

Section ReplyTargets.
Context `{Platform}.

Lemma truthy_number (n : option Z) :
  falsy_number n = false -> n = Some (the 0 n) /\ the 0 n <> 0.
Proof.
  destruct n as [z|]; cbn; [|discriminate].
  intros Hz. apply Z.eqb_neq in Hz. now split.
Qed.

Lemma set_null_not (o : option Z) (id : Z) : set_null o id <> Some id.
Proof.
  unfold set_null. destruct (opt_is o id) eqn:E; [discriminate|].
  intros ->. cbn in E. rewrite Z.eqb_refl in E. discriminate E.
Qed.

Lemma set_null_hit (id : Z) : set_null (Some id) id = None.
Proof. unfold set_null. cbn. now rewrite Z.eqb_refl. Qed.

Lemma replies_create_row (t q : option Z) (c a : string) (i : Z) (w w' : World)
    (r : Replies.t) :
  Prisma.replies.create t q c a i w = (Ok r, w') ->
  Replies.TopicID r = t /\ Replies.QuestionID r = q
  /\ rows (tReplies (db w')) = rows (tReplies (db w)) ++ [r].
Proof.
  unfold Prisma.replies.create. run.
  destruct (Date_parse a); cbn; [|discriminate].
  split_test; [discriminate|].
  intros [= <- <-]. cbn. auto.
Qed.

(** C9, amended. A reply created by [createForTopic] is stored with the
    [TargetID] of the payload as its [TopicID] and without [QuestionID];
    one created by [createForQuestion] is stored with the [TargetID] as
    its [QuestionID] and without [TopicID]; in both cases it refers to
    exactly one target when it is created. It does not keep it: when
    [DiscussionsService.delete] deletes a topic, every reply that
    referred to the topic stays stored, under its key and with its
    [QuestionID], and its [TopicID] is null, so that no reply refers to
    the deleted topic and a reply created for it is left with no
    target; [QuestionsService.delete] does the same to the replies of a
    question. No request that names the data it writes gives a reply a
    second target: it leaves a database in which no reply refers to
    both a topic and a question, when it finds one. *)
Theorem replies_get_one_target_and_never_two :
  (forall (createReplyDto : CreateReplyDto.t) (w w' : World) (r : Replies.t),
      RepliesService.createForTopic createReplyDto w = (Ok r, w') ->
      Replies.TopicID r = CreateReplyDto.TargetID createReplyDto
      /\ Replies.TopicID r <> None
      /\ Replies.QuestionID r = None
      /\ targets r = 1%nat
      /\ rows (tReplies (db w')) = rows (tReplies (db w)) ++ [r])
  /\ (forall (createReplyDto : CreateReplyDto.t) (w w' : World) (r : Replies.t),
         RepliesService.createForQuestion createReplyDto w = (Ok r, w') ->
         Replies.QuestionID r = CreateReplyDto.TargetID createReplyDto
         /\ Replies.QuestionID r <> None
         /\ Replies.TopicID r = None
         /\ targets r = 1%nat
         /\ rows (tReplies (db w')) = rows (tReplies (db w)) ++ [r])
  /\ (forall (TopicID : Z) (w w' : World),
         DiscussionsService.delete TopicID w = (Ok tt, w') ->
         Forall (fun r => Replies.TopicID r <> Some TopicID) (rows (tReplies (db w')))
         /\ forall r, In r (rows (tReplies (db w))) ->
                      Replies.TopicID r = Some TopicID ->
                      exists r', In r' (rows (tReplies (db w')))
                                 /\ Replies.ReplyID r' = Replies.ReplyID r
                                 /\ Replies.TopicID r' = None
                                 /\ Replies.QuestionID r' = Replies.QuestionID r)
  /\ (forall (QuestionID : Z) (w w' : World),
         QuestionsService.delete QuestionID w = (Ok tt, w') ->
         Forall (fun r => Replies.QuestionID r <> Some QuestionID)
                (rows (tReplies (db w')))
         /\ forall r, In r (rows (tReplies (db w))) ->
                      Replies.QuestionID r = Some QuestionID ->
                      exists r', In r' (rows (tReplies (db w')))
                                 /\ Replies.ReplyID r' = Replies.ReplyID r
                                 /\ Replies.QuestionID r' = None
                                 /\ Replies.TopicID r' = Replies.TopicID r)
  /\ (forall (r : Request) (w : World),
         names_its_data r = true ->
         Forall (fun r => (targets r <= 1)%nat) (rows (tReplies (db w))) ->
         Forall (fun r => (targets r <= 1)%nat) (rows (tReplies (db (handle r w))))).
Proof.
  split; [|split; [|split; [|split]]].
  - intros dto w w' r.
    unfold RepliesService.createForTopic, RepliesService.missing_data.
    destruct (falsy_string (CreateReplyDto.CreatedAt dto)); [discriminate|].
    destruct (falsy_number (CreateReplyDto.CreatorID dto)); [discriminate|].
    destruct (falsy_string (CreateReplyDto.Content dto)); [discriminate|].
    destruct (falsy_number (CreateReplyDto.TargetID dto)) eqn:Ht; [discriminate|].
    apply truthy_number in Ht. destruct Ht as [Ht _].
    cbn [orb]. unfold try_return, try_catch, ret. intros Hc.
    apply replies_create_row in Hc. destruct Hc as (HT & HQ & Hrows).
    unfold targets. rewrite HT, HQ. repeat split; congruence.
  - intros dto w w' r.
    unfold RepliesService.createForQuestion, RepliesService.missing_data.
    destruct (falsy_string (CreateReplyDto.CreatedAt dto)); [discriminate|].
    destruct (falsy_number (CreateReplyDto.CreatorID dto)); [discriminate|].
    destruct (falsy_string (CreateReplyDto.Content dto)); [discriminate|].
    destruct (falsy_number (CreateReplyDto.TargetID dto)) eqn:Ht; [discriminate|].
    apply truthy_number in Ht. destruct Ht as [Ht _].
    cbn [orb]. unfold try_return, try_catch, ret. intros Hc.
    apply replies_create_row in Hc. destruct Hc as (HT & HQ & Hrows).
    unfold targets. rewrite HT, HQ. repeat split; congruence.
  - intros id w w'.
    unfold DiscussionsService.delete, Prisma.topics.findUnique, Prisma.topics.delete.
    run. destruct (find _ _); cbn; [|discriminate].
    split_test; [discriminate|]. intros [= <-]. cbn. split.
    + apply Forall_map, Forall_forall. intros r _. cbn. apply set_null_not.
    + intros r Hin Ht. exists (Replies_null_TopicID id r).
      split; [now apply in_map|]. cbn. rewrite Ht. now rewrite set_null_hit.
  - intros id w w'.
    unfold QuestionsService.delete, Prisma.questions.findUnique,
      Prisma.questions.delete.
    run. destruct (find _ _); cbn; [|discriminate].
    split_test; [discriminate|]. intros [= <-]. cbn. split.
    + apply Forall_map, Forall_forall. intros r _. cbn. apply set_null_not.
    + intros r Hin Ht. exists (Replies_null_QuestionID id r).
      split; [now apply in_map|]. cbn. rewrite Ht. now rewrite set_null_hit.
  - exact handle_keeps_targets.
Qed.

End ReplyTargets.

(* ------------------------------------------------------------------ *)
(** ** The services on concrete requests *)

Lemma reachable_orphaned : reachable Demo.orphaned.
Proof.
  unfold Demo.orphaned, Demo.with_topic, Demo.with_ada, Demo.start.
  repeat apply reach_request. apply reach_start.
Qed.

(** C9, as stated, fails. Ada signs up, opens a topic, replies to it
    and deletes the topic: the reply stays stored, and the foreign key
    of its [TopicID], which is [ON DELETE SET NULL], leaves it without
    any target. *)
Lemma reply_without_target_is_reachable :
  reachable Demo.orphaned
  /\ rows (tReplies (db Demo.orphaned))
     = [Replies.mk 1 "Hello everyone" 1700000001000 1 None None 0]
  /\ ~ every_reply_has_one_target.
Proof.
  split; [exact reachable_orphaned|]. split; [reflexivity|].
  intros Hc. specialize (Hc Demo.orphaned reachable_orphaned).
  vm_compute in Hc. inversion Hc as [|r l Hr Hl]. discriminate Hr.
Qed.


(** C2, as stated, fails for events. Ada announces the launch party and,
    a minute later, the rehearsal that takes place before it. The
    [recent] listing puts the launch party first, by the day it takes
    place, although the rehearsal was created later. *)
Lemma events_recent_is_not_by_creation :
  let party := Events.mk 1 "Launch party" "We ship" 1750000000000 "Main hall" 1 0 in
  let rehearsal := Events.mk 2 "Rehearsal" "Dry run" 1740000000000 "Room 2" 1 0 in
  let r1 := EventsService.create Demo.launch Demo.with_ada in
  let r2 := EventsService.create Demo.rehearsal
              (set_Date_now 1700000060000 (snd r1)) in
  Date_now Demo.with_ada = 1700000000000
  /\ fst r1 = Ok party
  /\ fst r2 = Ok rehearsal
  /\ fst (EventsService.filtered Q_recent "" (snd r2)) = Ok [party; rehearsal]
  /\ ~ recent_lists_later_created_first.
Proof.
  intros party rehearsal r1 r2.
  split; [reflexivity|]. split; [reflexivity|]. split; [reflexivity|].
  split; [reflexivity|].
  intros Hc.
  specialize (Hc Demo.with_ada (snd r1) (snd r2)
                 (snd (EventsService.filtered Q_recent "" (snd r2)))
                 Demo.launch Demo.rehearsal 1700000060000
                 party rehearsal [party; rehearsal]).
  vm_compute in Hc.
  specialize (Hc eq_refl eq_refl eq_refl eq_refl). discriminate Hc.
Qed.

(** Liking twice: the second [like] of the same topic by the same user
    fails on the unique index of the pair, after the counter has been
    incremented a second time. *)
Example like_twice :
  let w1 := snd (like Topic 1 1 Demo.with_topic) in
  let w2 := snd (like Topic 1 1 w1) in
  failure (like Topic 1 1 Demo.with_topic) = None
  /\ failure (like Topic 1 1 w1)
     = Some (InternalServerErrorException (Some "Internal Server Error"))
  /\ counter Topic (db w2) 1 = Some 2
  /\ List.length (join_rows Topic (db w2) 1 1) = 1%nat
  /\ In (Logger (PrismaClientKnownRequestError "P2002")) (calls w2).
Proof. cbn. repeat split. auto 10. Qed.

Lemma compare_strings_transitive (a b c : string) :
  String.compare a b <> Gt -> String.compare b c <> Gt -> String.compare a c <> Gt.
Proof.
  revert b c. induction a as [|x a IH]; intros [|y b] [|z c]; cbn; try congruence.
  unfold Ascii.compare.
  destruct (N.compare_spec (N_of_ascii x) (N_of_ascii y)) as [Hxy|Hxy|Hxy];
    destruct (N.compare_spec (N_of_ascii y) (N_of_ascii z)) as [Hyz|Hyz|Hyz];
    destruct (N.compare_spec (N_of_ascii x) (N_of_ascii z)) as [Hxz|Hxz|Hxz];
    try congruence; try lia.
  apply IH.
Qed.

Lemma compare_strings_consistent : consistent Demo.compare_strings.
Proof.
  unfold consistent, Demo.compare_strings. split.
  - intros a b. rewrite (String.compare_antisym b a).
    destruct (String.compare a b); cbn; lia.
  - intros a b c Hab Hbc.
    pose proof (compare_strings_transitive a b c) as Ht.
    destruct (String.compare a b), (String.compare b c), (String.compare a c);
      try lia; exfalso; apply Ht; congruence.
Qed.

(** The events of [Demo.with_events] listed by name, under byte-wise
    comparison. *)
Lemma filtered_is_a_listing_witness :
  consistent Demo.compare_strings
  /\ exists out,
      fst (EventsService.filtered Q_name "" Demo.with_events) = Ok out
      /\ ascending_text Demo.compare_strings Events.Title out.
Proof.
  split; [exact compare_strings_consistent|].
  destruct (filtered_is_a_listing (H := Demo.platform) compare_strings_consistent
              Q_name "" 1 Demo.with_events)
    as (_ & _ & (fetched & out & _ & Hout & _ & Hsorted) & _).
  exists out. split; [exact Hout|exact Hsorted].
Defined.

(** [login] without an email, with an unknown email, and with a wrong
    password. *)
Lemma login_rejections_witness :
  AuthService.login None (Some "analytical") Demo.with_ada
  = (Throw (BadRequestException "Missing Data"), Demo.with_ada)
  /\ failure (AuthService.login (Some "bob@example.com") (Some "analytical")
                Demo.with_ada)
     = Some (NotFoundException "User does not exist")
  /\ failure (AuthService.login (Some "ada@example.com") (Some "difference")
                Demo.with_ada)
     = Some (UnauthorizedException "Cannot login with these credentials").
Proof.
  destruct (login_rejections (H := Demo.platform)) as (Hmissing & Hunknown & Hwrong).
  split; [|split].
  - apply Hmissing. left. left. reflexivity.
  - apply Hunknown; [discriminate|discriminate|reflexivity].
  - apply (Hwrong _ _ _ (User.mk 1 "Ada" "Lovelace" "ada@example.com"
                                 "$2b$10$analytical"));
      [discriminate|discriminate|reflexivity|reflexivity].
Defined.

(** Ada logs in at time [1700000000000] with a configured duration of
    one hour. *)
Lemma login_token_expiry_witness :
  In (Jwt_signAsync (mkClaims 1 "ada@example.com") (Num 1700003600000))
     (calls (snd (AuthService.login (Some "ada@example.com") (Some "analytical")
                    Demo.with_ada))).
Proof.
  assert (Hrun : AuthService.login (Some "ada@example.com") (Some "analytical")
                   Demo.with_ada
                 = (Ok ("token-of-ada@example.com",
                        User.mk 1 "Ada" "Lovelace" "ada@example.com"
                                "$2b$10$analytical"),
                    snd (AuthService.login (Some "ada@example.com")
                           (Some "analytical") Demo.with_ada)))
    by (vm_compute; reflexivity).
  destruct (login_token_expiry _ _ _ _ _ _ 3600000 Hrun) as (Hcalls & _);
    [vm_compute; reflexivity|].
  rewrite Hcalls. apply in_or_app. right. cbn. auto.
Defined.

(** A payload without names is looked up by its email. *)
Lemma signup_missing_data_witness :
  exists rest,
    calls (snd (AuthService.signup
                  (CreateUserDto.mk None None (Some "bob@example.com") (Some "pw") None [])
                  Demo.start))
    = calls Demo.start ++ Query M_user A_findUnique :: rest.
Proof.
  destruct (signup_missing_data
              (CreateUserDto.mk None None (Some "bob@example.com") (Some "pw") None [])
              Demo.start) as (_ & _ & Hlookup).
  apply Hlookup. intros [[E|E]|[E|E]]; discriminate E.
Defined.


(** The mode 'newest' is refused. *)
Lemma filter_endpoints_reject_unknown_modes_witness :
  DiscussionsController.filtered (Some "newest") None Demo.with_topic
  = (Throw (BadRequestException "Invalid Query Parameter"), Demo.with_topic).
Proof.
  destruct (filter_endpoints_reject_unknown_modes (Some "newest") None 1
              Demo.with_topic) as (_ & Hrefused & _).
  apply Hrefused.
  intros [E|[E|[E|[E|E]]]]; discriminate E.
Defined.

(** Ada's reply to her topic. *)
Lemma replies_get_one_target_and_never_two_witness :
  exists r, fst (RepliesService.createForTopic Demo.hello Demo.with_topic) = Ok r
            /\ Replies.TopicID r = Some 1 /\ Replies.QuestionID r = None
            /\ exists r', In r' (rows (tReplies (db Demo.orphaned)))
                          /\ Replies.ReplyID r' = Replies.ReplyID r
                          /\ Replies.TopicID r' = None
                          /\ Replies.QuestionID r' = None.
Proof.
  destruct (replies_get_one_target_and_never_two (H := Demo.platform))
    as (Htopic & _ & Hdelete & _).
  exists (Replies.mk 1 "Hello everyone" 1700000001000 1 None (Some 1) 0).
  destruct (Htopic Demo.hello Demo.with_topic
                   (snd (RepliesService.createForTopic Demo.hello Demo.with_topic))
                   (Replies.mk 1 "Hello everyone" 1700000001000 1 None (Some 1) 0))
    as (HT & _ & HQ & _ & Hrows); [vm_compute; reflexivity|].
  split; [reflexivity|]. split; [exact HT|]. split; [exact HQ|].
  destruct (Hdelete 1 (snd (RepliesService.createForTopic Demo.hello Demo.with_topic))
                    Demo.orphaned) as (_ & Hnull); [vm_compute; reflexivity|].
  apply (Hnull (Replies.mk 1 "Hello everyone" 1700000001000 1 None (Some 1) 0)).
  - rewrite Hrows. apply in_or_app. right. now left.
  - reflexivity.
Defined.

(** Topic 2 is deleted where only topic 1 is stored. *)
Lemma delete_of_missing_id_throws_internal_error_witness :
  stored (Content Topic) (db Demo.with_topic) 1 = true
  /\ stored (Content Topic) (db Demo.with_topic) 2 = false
  /\ exists message,
      failure (delete_resource (Content Topic) 2 Demo.with_topic)
      = Some (InternalServerErrorException message).
Proof.
  split; [reflexivity|]. split; [reflexivity|].
  destruct (delete_of_missing_id_throws_internal_error
              Demo.platform (Content Topic) 2 Demo.with_topic)
    as (Hfailure & _); [reflexivity|].
  exact Hfailure.
Defined.

(** A token for subject 1 is presented before anybody has signed up. *)
Lemma use_unknown_user_reports_invalid_token_witness :
  failure (JwtMiddleware.use
             (JwtMiddleware.mkRequest (Some "Bearer token-of-ada@example.com") None)
             Demo.start)
  = Some (UnauthorizedException "Invalid token").
Proof.
  destruct (use_unknown_user_reports_invalid_token
              (JwtMiddleware.mkRequest (Some "Bearer token-of-ada@example.com") None)
              Demo.start "token-of-ada@example.com"
              (mkClaims 1 "ada@example.com"))
    as (Hrun & _);
    [reflexivity|discriminate|reflexivity|reflexivity|].
  unfold failure. rewrite Hrun. reflexivity.
Defined.

(* ------------------------------------------------------------------ *)
(** ** More on the token check *)


Lemma split_space_aux_word (s rest cur : string) :
  no_space s = true ->
  split_space_aux (String.append s (String " " rest)) cur
  = String.append cur s :: split_space_aux rest "".
Proof.
  revert cur. induction s as [|c s IH]; intros cur Hs; cbn in *.
  - f_equal. induction cur as [|d cur IHc]; cbn; [reflexivity|now f_equal].
  - apply andb_prop in Hs. destruct Hs as [Hc Hs].
    apply negb_true_iff in Hc. rewrite Hc. rewrite IH by exact Hs.
    f_equal. clear. induction cur as [|d cur IHc]; cbn; [reflexivity|now f_equal].
Qed.

Lemma split_space_aux_last (s cur : string) :
  no_space s = true -> split_space_aux s cur = [String.append cur s].
Proof.
  revert cur. induction s as [|c s IH]; intros cur Hs; cbn in *.
  - f_equal. induction cur as [|d cur IHc]; cbn; [reflexivity|now f_equal].
  - apply andb_prop in Hs. destruct Hs as [Hc Hs].
    apply negb_true_iff in Hc. rewrite Hc. rewrite IH by exact Hs.
    f_equal. clear. induction cur as [|d cur IHc]; cbn; [reflexivity|now f_equal].
Qed.

(** The middleware reads the second word of the header and does not look
    at the first: whatever the scheme word is, the word after the first
    space is the token. *)
Theorem token_is_second_word_of_header :
  forall (scheme token : string),
    no_space scheme = true -> no_space token = true ->
    JwtMiddleware.token_of (Some (String.append scheme (String " " token)))
    = Some token.
Proof.
  intros scheme token Hs Ht. unfold JwtMiddleware.token_of.
  destruct (String.eqb_spec (String.append scheme (String " " token)) "") as [E|_].
  - destruct scheme; discriminate E.
  - unfold split_space. rewrite split_space_aux_word by exact Hs.
    rewrite split_space_aux_last by exact Ht. reflexivity.
Qed.

Lemma token_is_second_word_of_header_witness :
  JwtMiddleware.token_of (Some "Basic token-of-ada@example.com")
  = Some "token-of-ada@example.com".
Proof.
  apply (token_is_second_word_of_header "Basic" "token-of-ada@example.com");
    reflexivity.
Defined.

Section MoreMiddleware.
Context `{Platform}.

(** A header of one word, an empty header and no header at all carry no
    token. *)
Lemma token_of_one_word (h : string) :
  no_space h = true -> falsy_string (JwtMiddleware.token_of (Some h)) = true.
Proof.
  intros Hh. unfold JwtMiddleware.token_of.
  destruct (String.eqb_spec h "") as [->|_]; [reflexivity|].
  unfold split_space. rewrite split_space_aux_last by exact Hh. reflexivity.
Qed.

(** Without a header, with an empty header or with a header of a single
    word, the request is refused with 'No token provided' before anything
    is verified or looked up: the world is as it was. *)
Theorem use_without_token :
  forall (req : JwtMiddleware.RequestWithUser) (w : World),
    (JwtMiddleware.authorization req = None
     \/ exists h, JwtMiddleware.authorization req = Some h /\ no_space h = true) ->
    JwtMiddleware.use req w
    = (Throw (UnauthorizedException "No token provided"), w).
Proof.
  intros req w Hh. unfold JwtMiddleware.use.
  destruct Hh as [-> | (h & -> & Hh)]; [reflexivity|].
  now rewrite (token_of_one_word h Hh).
Qed.

(** Every failure of the middleware is an [UnauthorizedException], with
    one of two messages, and whether it fails or not the middleware
    leaves the database, the clock and the environment as they were. *)
Theorem use_fails_unauthorized_only :
  forall (req : JwtMiddleware.RequestWithUser) (w : World),
    (forall e, failure (JwtMiddleware.use req w) = Some e ->
               e = UnauthorizedException "No token provided"
               \/ e = UnauthorizedException "Invalid token")
    /\ db (snd (JwtMiddleware.use req w)) = db w
    /\ Date_now (snd (JwtMiddleware.use req w)) = Date_now w
    /\ process_env (snd (JwtMiddleware.use req w)) = process_env w.
Proof.
  intros req w. unfold failure, JwtMiddleware.use.
  destruct (falsy_string _) eqn:Ht.
  - cbn. split; [intros e [= <-]; now left|]. repeat split.
  - run. destruct (jwt_verify _ _); cbn.
    + destruct (find _ _); cbn; (split; [|repeat split]);
        intros e; try discriminate; intros [= <-]; now right.
    + split; [|repeat split]. intros e [= <-]. now right.
Qed.

(** A request whose token verifies for a stored user passes: the user
    is attached to the request, [next] is called once, after the
    verification and the lookup, and nothing is written. *)
Theorem use_attaches_the_user :
  forall (req : JwtMiddleware.RequestWithUser) (w : World) (token : string)
         (claims : JwtClaims) (user : User.t),
    JwtMiddleware.token_of (JwtMiddleware.authorization req) = Some token ->
    token <> "" ->
    jwt_verify token (SECRET_KEY (process_env w)) = Success claims ->
    find (fun u => User.UserID u =? sub claims) (rows (tUser (db w))) = Some user ->
    JwtMiddleware.use req w
    = (Ok (JwtMiddleware.mkRequest (JwtMiddleware.authorization req) (Some user)),
       set_calls (calls w ++ [Jwt_verify token; Query M_user A_findUnique; Next user])
                 w)
    /\ User.UserID user = sub claims
    /\ In user (rows (tUser (db w))).
Proof.
  intros req w token claims user Ht Hn Hv Hu.
  split.
  - unfold JwtMiddleware.use. rewrite Ht, (falsy_string_present _ Hn). run.
    rewrite Hv. cbn. rewrite Hu. cbn. rewrite <- !app_assoc. reflexivity.
  - apply find_some in Hu. destruct Hu as [Hin Hid].
    apply Z.eqb_eq in Hid. now split.
Qed.

End MoreMiddleware.

Lemma use_without_token_witness :
  JwtMiddleware.use (JwtMiddleware.mkRequest (Some "Bearer") None) Demo.with_ada
  = (Throw (UnauthorizedException "No token provided"), Demo.with_ada).
Proof.
  apply use_without_token. right. exists "Bearer". split; reflexivity.
Defined.

Lemma use_attaches_the_user_witness :
  exists r, fst (JwtMiddleware.use
                   (JwtMiddleware.mkRequest (Some "Bearer token-of-ada@example.com") None)
                   Demo.with_ada) = Ok r
            /\ option_map User.Email (JwtMiddleware.userEntity r)
               = Some "ada@example.com".
Proof.
  destruct (use_attaches_the_user
              (JwtMiddleware.mkRequest (Some "Bearer token-of-ada@example.com") None)
              Demo.with_ada "token-of-ada@example.com"
              (mkClaims 1 "ada@example.com")
              (User.mk 1 "Ada" "Lovelace" "ada@example.com" "$2b$10$analytical"))
    as (Hrun & _); [reflexivity|discriminate|reflexivity|reflexivity|].
  rewrite Hrun. eexists. split; reflexivity.
Defined.

(* ------------------------------------------------------------------ *)
(** ** Which exceptions reach the caller *)

Lemma caught_is_internal {A : Type} (body : M A) (message : option string)
    (w : World) (e : Exception) :
  failure (try_catch body (rethrow_internal message) w) = Some e ->
  e = InternalServerErrorException message
  /\ exists cause, In (Logger cause)
                      (calls (snd (try_catch body (rethrow_internal message) w))).
Proof.
  unfold failure, try_catch. destruct (body w) as [[a|x] w']; cbn; [discriminate|].
  intros [= <-]. split; [reflexivity|]. exists x. apply in_or_app. right. now left.
Qed.

Section Taxonomy.
Context `{Platform}.

(** A method that awaits all its calls inside [try] fails with
    [InternalServerErrorException] only, whatever was thrown, its own
    [NotFoundException] included, and it has logged the cause. This
    holds for every like, unlike, save and unsave, every delete, every
    read of one row, and the listing of users. *)
Theorem guarded_requests_fail_internal :
  forall (r : Request) (w : World) (e : Exception),
    guarded r = true ->
    fails r w = Some e ->
    (exists message, e = InternalServerErrorException message)
    /\ getStatus e = 500
    /\ exists cause, In (Logger cause) (calls (handle r w)).
Proof.
  intros r w e Hg Hf.
  assert (Hc : exists message,
             e = InternalServerErrorException message
             /\ exists cause, In (Logger cause) (calls (handle r w))).
  { destruct r; try discriminate Hg; cbn [fails handle] in *;
      unfold_services; apply caught_is_internal in Hf;
      destruct Hf as [-> Hl]; eexists; (split; [reflexivity|exact Hl]). }
  destruct Hc as (message & -> & Hl). split; [now exists message|]. now split.
Qed.

End Taxonomy.

Lemma guarded_requests_fail_internal_witness :
  fails (R_unsaveTopic 1 1) Demo.with_topic
  = Some (InternalServerErrorException (Some "Internal Server Error"))
  /\ exists cause,
      In (Logger cause) (calls (handle (R_unsaveTopic 1 1) Demo.with_topic)).
Proof.
  assert (Hf : fails (R_unsaveTopic 1 1) Demo.with_topic
               = Some (InternalServerErrorException (Some "Internal Server Error")))
    by reflexivity.
  destruct (guarded_requests_fail_internal (R_unsaveTopic 1 1) Demo.with_topic _
              eq_refl Hf) as (_ & _ & Hlog).
  split; [exact Hf|exact Hlog].
Defined.

(** A log to which only calls other than [Logger] were added holds the
    [Logger] calls it held. *)
Lemma no_new_logger (old new : list Effect) (x : Exception) :
  (forall y, ~ In (Logger y) new) -> In (Logger x) (old ++ new) -> In (Logger x) old.
Proof.
  intros Hn Hi. apply in_app_or in Hi. destruct Hi as [Hi|Hi]; [exact Hi|].
  now apply Hn in Hi.
Qed.

Ltac not_logged :=
  let y := fresh "y" in
  let Hy := fresh "Hy" in
  intros y Hy; cbn in Hy;
  repeat match goal with
         | H : _ \/ _ |- _ => destruct H as [H|H]
         end;
  try discriminate; try contradiction.

Section Creating.
Context `{Platform}.

(** The methods that create a row return the promise of the insert
    without awaiting it, so that their [catch] block never runs: nothing
    is logged, no [InternalServerErrorException] is thrown, and a
    rejected insert reaches the caller as the error of the Prisma
    client. Besides that error the caller sees the 'Missing Data' of the
    presence test and, for [signup], 'Email exists' and the error of
    [bcrypt]. *)
Theorem creating_requests_leak_the_database_error :
  forall (r : Request) (w : World),
    creating r = true ->
    (forall e, fails r w = Some e ->
               e = BadRequestException "Missing Data"
               \/ from_prisma e
               \/ (exists userData, r = R_signup userData)
                  /\ (e = UnauthorizedException "Email exists"
                      \/ exists message, e = Error message))
    /\ (forall message, fails r w <> Some (InternalServerErrorException message))
    /\ (forall x, In (Logger x) (calls (handle r w)) -> In (Logger x) (calls w)).
Proof.
  intros r w Hc.
  assert (Hmain :
            (forall e, fails r w = Some e ->
                       e = BadRequestException "Missing Data"
                       \/ from_prisma e
                       \/ (exists userData, r = R_signup userData)
                          /\ (e = UnauthorizedException "Email exists"
                              \/ exists message, e = Error message))
            /\ (forall x, In (Logger x) (calls (handle r w)) -> In (Logger x) (calls w))).
  { unfold from_prisma.
    destruct r; try discriminate Hc; cbn [fails handle]; unfold failure;
      unfold_services; unfold RepliesService.missing_data; unfold_prisma; run.
    all: repeat (split_match;
                 try (split; [intros e; try discriminate; intros [= <-]; eauto 8
                             |intros x; rewrite <- ?app_assoc;
                              try (apply no_new_logger; not_logged); auto])). }
  destruct Hmain as [He Hl]. split; [exact He|]. split; [|exact Hl].
  intros message Hf. apply He in Hf.
  destruct Hf as [Hf|[[Hf|[c Hf]]|[_ [Hf|[m Hf]]]]]; discriminate Hf.
Qed.

End Creating.

Lemma creating_requests_leak_the_database_error_witness :
  let orphan := CreateTopicDto.mk (Some "Ghost") (Some "Nobody wrote this")
                                  (Some "1700000000000") (Some 99) in
  fails (R_createTopic orphan) Demo.with_ada
  = Some (PrismaClientKnownRequestError "P2003")
  /\ forall x, In (Logger x) (calls (handle (R_createTopic orphan) Demo.with_ada)) ->
               In (Logger x) (calls Demo.with_ada).
Proof.
  intros orphan.
  destruct (creating_requests_leak_the_database_error (R_createTopic orphan)
              Demo.with_ada) as (_ & _ & Hlog); [reflexivity|].
  split; [reflexivity|exact Hlog].
Defined.

(* ------------------------------------------------------------------ *)
(** ** Requests that only read *)

Section Reads.
Context `{Platform}.
Variable J : Database -> Prop.

Lemma read_user_findUnique_Email e : keeps J (Prisma.user.findUnique_Email e).
Proof. apply keeps_intro. intros w Hw. exact Hw. Qed.
Lemma read_user_findUnique i : keeps J (Prisma.user.findUnique i).
Proof. apply keeps_intro. intros w Hw. exact Hw. Qed.
Lemma read_user_findMany : keeps J Prisma.user.findMany.
Proof. apply keeps_intro. intros w Hw. exact Hw. Qed.
Lemma read_topics_findMany s : keeps J (Prisma.topics.findMany_Title_contains s).
Proof. apply keeps_intro. intros w Hw. exact Hw. Qed.
Lemma read_topics_findUnique i : keeps J (Prisma.topics.findUnique i).
Proof. apply keeps_intro. intros w Hw. exact Hw. Qed.
Lemma read_topics_findUnique_include i :
  keeps J (Prisma.topics.findUnique_include i).
Proof. apply keeps_intro. intros w Hw. exact Hw. Qed.
Lemma read_questions_findMany s : keeps J (Prisma.questions.findMany_Title_contains s).
Proof. apply keeps_intro. intros w Hw. exact Hw. Qed.
Lemma read_questions_findUnique i : keeps J (Prisma.questions.findUnique i).
Proof. apply keeps_intro. intros w Hw. exact Hw. Qed.
Lemma read_questions_findUnique_include i :
  keeps J (Prisma.questions.findUnique_include i).
Proof. apply keeps_intro. intros w Hw. exact Hw. Qed.
Lemma read_events_findMany s : keeps J (Prisma.events.findMany_Title_contains s).
Proof. apply keeps_intro. intros w Hw. exact Hw. Qed.
Lemma read_events_findUnique i : keeps J (Prisma.events.findUnique i).
Proof. apply keeps_intro. intros w Hw. exact Hw. Qed.
Lemma read_replies_findMany_TopicID i : keeps J (Prisma.replies.findMany_TopicID i).
Proof. apply keeps_intro. intros w Hw. exact Hw. Qed.
Lemma read_replies_findMany_QuestionID i :
  keeps J (Prisma.replies.findMany_QuestionID i).
Proof. apply keeps_intro. intros w Hw. exact Hw. Qed.
Lemma read_replies_findUnique i : keeps J (Prisma.replies.findUnique i).
Proof. apply keeps_intro. intros w Hw. exact Hw. Qed.

End Reads.

Create HintDb reads.

#[local] Hint Resolve read_user_findUnique_Email read_user_findUnique
  read_user_findMany read_topics_findMany read_topics_findUnique
  read_topics_findUnique_include read_questions_findUnique_include
  read_questions_findMany read_questions_findUnique read_events_findMany
  read_events_findUnique read_replies_findMany_TopicID
  read_replies_findMany_QuestionID read_replies_findUnique : reads.

(** [keep], for a method whose delegates only read. *)
Ltac keep_reading :=
  repeat first
    [ keep_step
    | solve [auto with reads]
    | match goal with
      | |- preserves ?J (fun _ => True) ?m => change (keeps J m); solve [auto with reads]
      end ].

Section ReadOnly.
Context `{Platform}.

(** The token check, [login], the reads of one row, the listing of
    users and the five filter endpoints leave the database as it was,
    whether they return or throw. *)
Theorem reading_requests_write_nothing :
  forall (r : Request) (w : World),
    reading r = true -> db (handle r w) = db w.
Proof.
  intros r w Hr.
  assert (K : forall A (m : M A),
             keeps (fun d => d = db w) m -> db (snd (m w)) = db w)
    by (intros A m Hm; now apply Hm).
  destruct r; try discriminate Hr; cbn [handle]; apply K; unfold_services;
    keep_reading.
Qed.

End ReadOnly.

Lemma reading_requests_write_nothing_witness :
  db (handle (R_login (Some "ada@example.com") (Some "analytical")) Demo.with_ada)
  = db Demo.with_ada.
Proof.
  apply (reading_requests_write_nothing
           (R_login (Some "ada@example.com") (Some "analytical")) Demo.with_ada).
  reflexivity.
Defined.

(* ------------------------------------------------------------------ *)
(** ** Reading and updating one row *)

Section OneRow.
Context `{Platform}.


(** An update of a row that is not stored fails with
    [InternalServerErrorException('Internal Server Error')] after the
    lookup: the [NotFoundException] is caught and logged, no update is
    issued and the database is as it was. This holds for topics,
    questions, events, replies and users. *)
Theorem update_of_missing_row_fails_internal :
  forall (w : World),
    (forall editDto,
        stored (Content Topic) (db w) (UpdateTopicDto.TopicID editDto) = false ->
        DiscussionsService.updateTopic editDto w = refused w M_topics "Topic not found")
    /\ (forall editDto,
           stored (Content Question) (db w) (UpdateQuestionDto.QuestionID editDto)
           = false ->
           QuestionsService.updateQuestion editDto w
           = refused w M_questions "Question not found")
    /\ (forall editDto,
           stored (Content Event) (db w) (UpdateEventDto.EventID editDto) = false ->
           EventsService.updateEvent editDto w = refused w M_events "Event not found")
    /\ (forall editDto,
           stored (Content Reply) (db w) (UpdateReplyDto.ReplyID editDto) = false ->
           RepliesService.updateReply editDto w = refused w M_replies "Reply not found")
    /\ (forall editDto,
           stored Account (db w) (UpdateUserDto.UserID editDto) = false ->
           AuthService.updateUser editDto w = refused w M_user "User not found").
Proof.
  intros w. unfold refused.
  unfold DiscussionsService.updateTopic, QuestionsService.updateQuestion,
    EventsService.updateEvent, RepliesService.updateReply, AuthService.updateUser,
    DiscussionsService.internal,
    Prisma.topics.findUnique, Prisma.questions.findUnique, Prisma.events.findUnique,
    Prisma.replies.findUnique, Prisma.user.findUnique.
  split; [|split; [|split; [|split]]];
    intros editDto Hs; cbn in Hs; apply existsb_find_none in Hs; run;
    rewrite Hs; cbn; rewrite <- app_assoc; reflexivity.
Qed.

(** What an update returns is what a read of the same key finds next.
    [updateTopic] and [updateQuestion] return the row alone; [getOne]
    of the same key then returns that row with the relations of its
    [include], which the update has not touched: they are those of the
    row before the update. [updateUser] returns the user that
    [getOneUser] then returns. *)
Theorem update_then_getOne :
  (forall editDto w w' t,
      DiscussionsService.updateTopic editDto w = (Ok t, w') ->
      fst (DiscussionsService.getOne (UpdateTopicDto.TopicID editDto) w')
      = Ok (Prisma.topics.include (db w) t))
  /\ (forall editDto w w' q,
         QuestionsService.updateQuestion editDto w = (Ok q, w') ->
         fst (QuestionsService.getOne (UpdateQuestionDto.QuestionID editDto) w')
         = Ok (Prisma.questions.include (db w) q))
  /\ (forall editDto w w' u,
         AuthService.updateUser editDto w = (Ok u, w') ->
         fst (AuthService.getOneUser (UpdateUserDto.UserID editDto) w') = Ok u).
Proof.
  split; [|split]; intros editDto w w' x;
    unfold DiscussionsService.updateTopic, QuestionsService.updateQuestion,
      AuthService.updateUser, AuthService.hash, DiscussionsService.getOne,
      QuestionsService.getOne, AuthService.getOneUser,
      Prisma.topics.findUnique, Prisma.questions.findUnique, Prisma.user.findUnique,
      Prisma.topics.findUnique_include, Prisma.questions.findUnique_include,
      Prisma.topics.update, Prisma.questions.update, Prisma.user.update;
    run.
  - destruct (find _ _) as [old|] eqn:Hf; cbn; [|discriminate].
    rewrite Hf. cbn. split_test; [discriminate|].
    intros [= <- <-]. cbn.
    erewrite find_map_replace; [reflexivity|exact Hf|cbn; apply Z.eqb_refl].
  - destruct (find _ _) as [old|] eqn:Hf; cbn; [|discriminate].
    rewrite Hf. cbn. split_test; [discriminate|].
    intros [= <- <-]. cbn.
    erewrite find_map_replace; [reflexivity|exact Hf|cbn; apply Z.eqb_refl].
  - destruct (find _ _) as [old|] eqn:Hf; cbn; [|discriminate].
    destruct (UpdateUserDto.Password editDto) as [p|]; cbn; [|discriminate].
    destruct (bcrypt_hash p 10) as [h|] eqn:Hh; cbn; [|discriminate].
    rewrite Hf. cbn. split_test; [discriminate|].
    intros [= <- <-]. cbn.
    erewrite find_map_replace; [reflexivity|exact Hf|cbn; apply Z.eqb_refl].
Qed.

End OneRow.


Lemma update_of_missing_row_fails_internal_witness :
  db (snd (DiscussionsService.updateTopic (UpdateTopicDto.mk 2 (Some "Hello") None)
                                          Demo.with_topic))
  = db Demo.with_topic.
Proof.
  destruct (update_of_missing_row_fails_internal Demo.with_topic) as (Htopic & _).
  rewrite Htopic; reflexivity.
Defined.

(** Ada likes her topic and renames it: the read returns the renamed
    topic with her like. *)
Lemma update_then_getOne_witness :
  let liked := snd (like Topic 1 1 Demo.with_topic) in
  let renamed := snd (DiscussionsService.updateTopic
                        (UpdateTopicDto.mk 1 (Some "Hello") None) liked) in
  exists t, fst (DiscussionsService.getOne 1 renamed) = Ok t
            /\ Topics.Title (Included.row t) = "Hello"
            /\ Topics.LikesNb (Included.row t) = 1
            /\ map fst (Included.Likes t) = [Likes.mk 1 1 None (Some 1) None None]
            /\ option_map User.Email (Included.CreatedBy t) = Some "ada@example.com".
Proof.
  intros liked renamed.
  assert (Hrun : DiscussionsService.updateTopic
                   (UpdateTopicDto.mk 1 (Some "Hello") None) liked
                 = (Ok (Topics.mk 1 "Hello" "Introduce yourself" 1700000000000 1 1),
                    renamed))
    by (vm_compute; reflexivity).
  destruct update_then_getOne as (Htopic & _).
  eexists. split; [exact (Htopic _ _ _ _ Hrun)|].
  repeat split.
Defined.

(* ------------------------------------------------------------------ *)
(** ** Signing up *)

Lemma find_app_last {A : Type} (p : A -> bool) (l : list A) (x : A) :
  existsb p l = false -> p x = true -> find p (l ++ [x]) = Some x.
Proof.
  intros Hl Hx. induction l as [|y l IH]; cbn in *.
  - now rewrite Hx.
  - apply orb_false_elim in Hl. destruct Hl as [Hy Hl]. rewrite Hy. now apply IH.
Qed.

Lemma truthy_string (s : option string) :
  falsy_string s = false -> s = Some (the "" s) /\ the "" s <> "".
Proof.
  destruct s as [s|]; cbn; [|discriminate].
  intros Hs. apply String.eqb_neq in Hs. now split.
Qed.

Section SignUp.
Context `{Platform}.

(** [signup] with an email that is already registered fails with
    [UnauthorizedException('Email exists')] right after the lookup:
    nothing is hashed and nothing is written. *)
Theorem signup_refuses_a_registered_email :
  forall (userData : CreateUserDto.t) (w : World) (Email Password : string)
         (user : User.t),
    CreateUserDto.Email userData = Some Email -> Email <> "" ->
    CreateUserDto.Password userData = Some Password -> Password <> "" ->
    In user (rows (tUser (db w))) -> User.Email user = Email ->
    AuthService.signup userData w
    = (Throw (UnauthorizedException "Email exists"),
       set_calls (calls w ++ [Query M_user A_findUnique]) w).
Proof.
  intros userData w Email Password user HE HEn HP HPn Hin Hu.
  unfold AuthService.signup, Prisma.user.findUnique_Email.
  rewrite HE, HP, (falsy_string_present _ HEn), (falsy_string_present _ HPn). run.
  destruct (find _ _) eqn:Hf; [reflexivity|].
  exfalso. apply (find_none _ _ Hf) in Hin. cbn in Hin.
  rewrite Hu, String.eqb_refl in Hin. discriminate Hin.
Qed.

(** The run of a [signup] that succeeds. *)
Lemma signup_row (userData : CreateUserDto.t) (w w' : World) (user : User.t) :
  AuthService.signup userData w = (Ok user, w') ->
  exists fn ln email p h,
    let key := or_keep (CreateUserDto.UserID userData) (next_id (tUser (db w))) in
    let drawn := match CreateUserDto.UserID userData with
                 | Some _ => next_id (tUser (db w))
                 | None => next_id (tUser (db w)) + 1
                 end in
    let inserted := set_tUser (mkTable (rows (tUser (db w)) ++ [user]) drawn) (db w) in
    CreateUserDto.FirstName userData = Some fn
    /\ CreateUserDto.LastName userData = Some ln
    /\ CreateUserDto.Email userData = Some email
    /\ CreateUserDto.Password userData = Some p
    /\ bcrypt_hash p 10 = Success h
    /\ existsb (fun u => (User.UserID u =? key) || String.eqb (User.Email u) email)
               (rows (tUser (db w))) = false
    /\ user = User.mk key fn ln email h
    /\ calls w' = calls w ++ [Query M_user A_findUnique; Bcrypt_hash;
                              Query M_user A_create]
    /\ process_env w' = process_env w
    /\ Date_now w' = Date_now w
    /\ match CreateUserDto.further userData with
       | [] => db w' = inserted
       | further => nested_valid (CreateUserDto.UserID userData) further = true
                    /\ nested_writes further user inserted = inl (db w')
       end.
Proof.
  unfold AuthService.signup, AuthService.hash, Prisma.user.findUnique_Email,
    Prisma.user.create.
  destruct (falsy_string (CreateUserDto.Email userData)) eqn:HE; [discriminate|].
  destruct (falsy_string (CreateUserDto.Password userData)) eqn:HP; [discriminate|].
  apply truthy_string in HE. destruct HE as [HE _].
  cbn [orb]. run.
  destruct (find _ _) eqn:Hf; cbn; [discriminate|].
  destruct (CreateUserDto.Password userData) as [p|]; cbn; [|discriminate].
  destruct (bcrypt_hash p 10) as [h|] eqn:Hh; cbn; [|discriminate].
  destruct (CreateUserDto.FirstName userData) as [fn|]; cbn; [|discriminate].
  destruct (CreateUserDto.LastName userData) as [ln|]; cbn; [|discriminate].
  destruct (CreateUserDto.further userData) as [|x rest]; cbn.
  - destruct (CreateUserDto.UserID userData) as [id|]; cbn;
      [destruct (in_int4 id); cbn; [|discriminate]|].
    all: repeat (split_test; [discriminate|]).
    all: intros [= <- <-]; cbn.
    all: exists fn, ln, (the "" (CreateUserDto.Email userData)), p, h; cbn.
    all: repeat (split; [try reflexivity; try assumption|]); try reflexivity.
    all: rewrite <- !app_assoc; reflexivity.
  - destruct (nested_valid _ (x :: rest)) eqn:Hv; cbn; [|discriminate].
    destruct (CreateUserDto.UserID userData) as [id|]; cbn;
      [destruct (in_int4 id); cbn; [|discriminate]|].
    all: repeat (split_test; [discriminate|]).
    all: match goal with
         | |- context [nested_writes ?f ?u ?d] =>
             destruct (nested_writes f u d) as [written|code] eqn:Hn; cbn;
             [|discriminate]
         end.
    all: intros [= <- <-]; cbn.
    all: exists fn, ln, (the "" (CreateUserDto.Email userData)), p, h; cbn.
    all: repeat (split; [try reflexivity; try assumption|]); try assumption.
    all: rewrite <- !app_assoc; reflexivity.
Qed.

(** What [signup] stores. The user it returns has the names and the
    email of the body and, as password, the hash [bcrypt] gave for the
    submitted one with 10 rounds. Its key is the [UserID] of the body
    when the body has one, since the body is spread into the [data],
    and the next value of the sequence otherwise; no stored user had
    the key or the email before. When the body has no further keys the
    user becomes the last row of the table, and the sequence advances
    exactly when the key was drawn from it. When it has, the client has
    accepted them, and the database is the one their nested writes
    leave once the user is inserted. *)
Theorem signup_stores_the_hash :
  forall (userData : CreateUserDto.t) (w w' : World) (user : User.t),
    AuthService.signup userData w = (Ok user, w') ->
    let drawn := match CreateUserDto.UserID userData with
                 | Some _ => next_id (tUser (db w))
                 | None => next_id (tUser (db w)) + 1
                 end in
    let inserted := set_tUser (mkTable (rows (tUser (db w)) ++ [user]) drawn) (db w) in
    (exists Password,
        CreateUserDto.Password userData = Some Password
        /\ bcrypt_hash Password 10 = Success (User.Password user))
    /\ CreateUserDto.Email userData = Some (User.Email user)
    /\ CreateUserDto.FirstName userData = Some (User.FirstName user)
    /\ CreateUserDto.LastName userData = Some (User.LastName user)
    /\ User.UserID user
       = or_keep (CreateUserDto.UserID userData) (next_id (tUser (db w)))
    /\ existsb (fun u => (User.UserID u =? User.UserID user)
                         || String.eqb (User.Email u) (User.Email user))
               (rows (tUser (db w))) = false
    /\ calls w' = calls w ++ [Query M_user A_findUnique; Bcrypt_hash;
                              Query M_user A_create]
    /\ (CreateUserDto.further userData = [] -> db w' = inserted)
    /\ (CreateUserDto.further userData <> [] ->
        nested_valid (CreateUserDto.UserID userData)
                     (CreateUserDto.further userData) = true
        /\ nested_writes (CreateUserDto.further userData) user inserted
           = inl (db w')).
Proof.
  intros userData w w' user Hs.
  destruct (signup_row _ _ _ _ Hs)
    as (fn & ln & email & p & h & Hfn & Hln & HE & HP & Hh & Hfresh & Hu
        & Hcalls & _ & _ & Hdb).
  cbn zeta in *. subst user. cbn.
  split; [exists p; now split|].
  repeat (split; [assumption || reflexivity|]).
  destruct (CreateUserDto.further userData) as [|x rest].
  - split; [intros _; exact Hdb|intros Hn; now contradiction Hn].
  - split; [discriminate|intros _; exact Hdb].
Qed.

(** After a [signup] that succeeds, with a body that has no further
    keys, a [login] with the same email and password finds the new user
    and returns it with a token, provided [bcrypt] accepts the password
    against the hash it gave, the token duration is configured and the
    signer signs. *)
Theorem signup_then_login :
  forall (userData : CreateUserDto.t) (w w' : World) (user : User.t)
         (Password : string) (durationMs : Z) (cookie : string),
    AuthService.signup userData w = (Ok user, w') ->
    CreateUserDto.further userData = [] ->
    CreateUserDto.Password userData = Some Password ->
    bcrypt_compare Password (User.Password user) = Success true ->
    parseInt (JWT_DURATION (process_env w)) = Num durationMs ->
    jwt_sign (mkClaims (User.UserID user) (User.Email user))
             (number_add (to_double (Date_now w)) (Num durationMs))
    = Success cookie ->
    fst (AuthService.login (CreateUserDto.Email userData)
                           (CreateUserDto.Password userData) w')
    = Ok (cookie, user).
Proof.
  intros userData w w' user Password durationMs cookie Hs Hplain HP Hc Hd Hj.
  destruct (signup_row _ _ _ _ Hs)
    as (fn & ln & email & p & h & _ & _ & HE & _ & _ & Hfresh & Hu & _
        & Henv & Hnow & Hdb).
  cbn zeta in *. rewrite Hplain in Hdb.
  assert (Hmail : User.Email user = email) by now subst user.
  rewrite <- Hmail in HE.
  assert (Hnew : existsb (fun u => String.eqb (User.Email u) (User.Email user))
                         (rows (tUser (db w))) = false).
  { rewrite Hmail. clear - Hfresh.
    induction (rows (tUser (db w))) as [|x l IH]; cbn in *; [reflexivity|].
    apply orb_false_elim in Hfresh. destruct Hfresh as [Hx Hl].
    apply orb_false_elim in Hx. destruct Hx as [_ Hx]. rewrite Hx. now apply IH. }
  unfold AuthService.signup in Hs.
  destruct (falsy_string (CreateUserDto.Email userData)
            || falsy_string (CreateUserDto.Password userData)) eqn:Hm;
    [discriminate|].
  unfold AuthService.login, AuthService.compare, Prisma.user.findUnique_Email.
  rewrite Hm. run. rewrite Hdb, HE, HP. cbn.
  rewrite find_app_last; [|exact Hnew|cbn; apply String.eqb_refl].
  cbn. rewrite Hc. cbn. rewrite Henv, Hnow, Hd. cbn [number_add].
  rewrite Hj. reflexivity.
Qed.

End SignUp.

Lemma signup_refuses_a_registered_email_witness :
  failure (AuthService.signup Demo.ada Demo.with_ada)
  = Some (UnauthorizedException "Email exists")
  /\ db (snd (AuthService.signup Demo.ada Demo.with_ada)) = db Demo.with_ada.
Proof.
  rewrite (signup_refuses_a_registered_email Demo.ada Demo.with_ada
             "ada@example.com" "analytical"
             (User.mk 1 "Ada" "Lovelace" "ada@example.com" "$2b$10$analytical"));
    [split; reflexivity|reflexivity|discriminate|reflexivity|discriminate
    |left; reflexivity|reflexivity].
Defined.

(** Grace signs up with a body that names the key 7. *)
Lemma signup_stores_the_hash_witness :
  let grace := CreateUserDto.mk (Some "Grace") (Some "Hopper")
                                (Some "grace@example.com") (Some "compiler")
                                (Some 7) [] in
  exists user, fst (AuthService.signup grace Demo.with_ada) = Ok user
               /\ User.Password user = "$2b$10$compiler"
               /\ User.UserID user = 7
               /\ next_id (tUser (db (snd (AuthService.signup grace Demo.with_ada))))
                  = 2.
Proof.
  intros grace.
  exists (User.mk 7 "Grace" "Hopper" "grace@example.com" "$2b$10$compiler").
  assert (Hrun : AuthService.signup grace Demo.with_ada
                 = (Ok (User.mk 7 "Grace" "Hopper" "grace@example.com"
                                "$2b$10$compiler"),
                    snd (AuthService.signup grace Demo.with_ada)))
    by (vm_compute; reflexivity).
  destruct (signup_stores_the_hash _ _ _ _ Hrun)
    as (_ & _ & _ & _ & Hid & _ & _ & Hdb & _).
  split; [reflexivity|]. split; [reflexivity|]. split; [exact Hid|].
  rewrite Hdb; reflexivity.
Defined.

Lemma signup_then_login_witness :
  fst (AuthService.login (Some "ada@example.com") (Some "analytical")
         (snd (AuthService.signup Demo.ada Demo.start)))
  = Ok ("token-of-ada@example.com",
        User.mk 1 "Ada" "Lovelace" "ada@example.com" "$2b$10$analytical").
Proof.
  assert (Hrun : AuthService.signup Demo.ada Demo.start
                 = (Ok (User.mk 1 "Ada" "Lovelace" "ada@example.com"
                                "$2b$10$analytical"),
                    snd (AuthService.signup Demo.ada Demo.start)))
    by (vm_compute; reflexivity).
  apply (signup_then_login Demo.ada Demo.start _ _ "analytical" 3600000 _ Hrun);
    vm_compute; reflexivity.
Defined.

(* ------------------------------------------------------------------ *)
(** ** Creating content *)

Lemma falsy_number_spec (n : option Z) : falsy_number n = true <-> missing_number n.
Proof.
  unfold missing_number. destruct n as [z|]; cbn.
  - rewrite Z.eqb_eq. split.
    + intros ->. now right.
    + intros [E|E]; [discriminate|congruence].
  - split; auto.
Qed.

Lemma or_assoc_flat_4 (A B C D : Prop) : ((A \/ B) \/ C) \/ D <-> A \/ B \/ C \/ D.
Proof. tauto. Qed.

Lemma or_assoc_flat_5 (A B C D E : Prop) :
  (((A \/ B) \/ C) \/ D) \/ E <-> A \/ B \/ C \/ D \/ E.
Proof. tauto. Qed.

Section Creates.
Context `{Platform}.

(** That a create fails with [BadRequestException] means exactly that a
    field of the payload the method tests is missing. *)
Lemma create_bad_request {A : Type} (test : bool) (p : M A)
    (handler : Exception -> M (M A)) (w : World) :
  (forall e, failure (p w) = Some e -> from_prisma e) ->
  let run := (if test then throw (BadRequestException "Missing Data")
              else try_return (ret p) handler) w in
  (bad_request run <-> test = true)
  /\ (test = true -> run = (Throw (BadRequestException "Missing Data"), w)).
Proof.
  intros Hp. destruct test; cbn.
  - split; [|reflexivity]. split; [reflexivity|]. intros _. eexists. reflexivity.
  - split; [|discriminate]. split; [|discriminate].
    intros [message Hm]. unfold try_return, try_catch, ret in Hm. cbn in Hm.
    apply Hp in Hm. destruct Hm as [Hm|[code Hm]]; discriminate Hm.
Qed.

Lemma topics_create_failure t c a i w e :
  failure (Prisma.topics.create t c a i w) = Some e -> from_prisma e.
Proof.
  unfold failure, from_prisma, Prisma.topics.create. run.
  repeat (split_match; try discriminate); intros [= <-]; eauto.
Qed.

Lemma questions_create_failure t c a i w e :
  failure (Prisma.questions.create t c a i w) = Some e -> from_prisma e.
Proof.
  unfold failure, from_prisma, Prisma.questions.create. run.
  repeat (split_match; try discriminate); intros [= <-]; eauto.
Qed.

Lemma events_create_failure t c a i l w e :
  failure (Prisma.events.create t c a i l w) = Some e -> from_prisma e.
Proof.
  unfold failure, from_prisma, Prisma.events.create. run.
  repeat (split_match; try discriminate); intros [= <-]; eauto.
Qed.

Lemma replies_create_failure t q c a i w e :
  failure (Prisma.replies.create t q c a i w) = Some e -> from_prisma e.
Proof.
  unfold failure, from_prisma, Prisma.replies.create. run.
  repeat (split_match; try discriminate); intros [= <-]; eauto.
Qed.

Ltac by_missing_fields :=
  lazymatch goal with
  | |- (bad_request ((if ?test then _ else try_return (ret ?p) ?handler) ?w) <-> ?gap)
       /\ _ =>
      let Hp := fresh "Hp" in
      let Hiff := fresh "Hiff" in
      let Hrun := fresh "Hrun" in
      let Hgap := fresh "Hgap" in
      assert (Hp : forall e, failure (p w) = Some e -> from_prisma e) by
        (intros e;
         first [apply topics_create_failure | apply questions_create_failure
               | apply events_create_failure | apply replies_create_failure]);
      destruct (create_bad_request test p handler w Hp) as [Hiff Hrun];
      assert (Hgap : test = true <-> gap) by
        (rewrite !orb_true_iff, !falsy_string_spec, !falsy_number_spec;
         first [apply or_assoc_flat_4 | apply or_assoc_flat_5]);
      split; [rewrite <- Hgap; exact Hiff|intros Hg; apply Hrun, Hgap, Hg]
  end.

(** The creates of topics, questions, events and replies fail with
    [BadRequestException] exactly when a field they test is missing: an
    absent or empty text, an absent number, or the number 0, which the
    test [!x] takes for an absent one, so that a creator or a target
    with key 0 cannot be named. The message is then 'Missing Data' and
    the world is as it was. *)
Theorem create_refuses_missing_fields :
  forall (w : World),
    (forall dto,
        let gap := missing (CreateTopicDto.CreatedAt dto)
                   \/ missing_number (CreateTopicDto.CreatorID dto)
                   \/ missing (CreateTopicDto.Title dto)
                   \/ missing (CreateTopicDto.Content dto) in
        (bad_request (DiscussionsService.create dto w) <-> gap)
        /\ (gap -> DiscussionsService.create dto w
                   = (Throw (BadRequestException "Missing Data"), w)))
    /\ (forall dto,
           let gap := missing (CreateQuestionDto.CreatedAt dto)
                      \/ missing_number (CreateQuestionDto.CreatorID dto)
                      \/ missing (CreateQuestionDto.Title dto)
                      \/ missing (CreateQuestionDto.Content dto) in
           (bad_request (QuestionsService.create dto w) <-> gap)
           /\ (gap -> QuestionsService.create dto w
                      = (Throw (BadRequestException "Missing Data"), w)))
    /\ (forall dto,
           let gap := missing (CreateEventDto.Date dto)
                      \/ missing_number (CreateEventDto.CreatorID dto)
                      \/ missing (CreateEventDto.Title dto)
                      \/ missing (CreateEventDto.Description dto)
                      \/ missing (CreateEventDto.Location dto) in
           (bad_request (EventsService.create dto w) <-> gap)
           /\ (gap -> EventsService.create dto w
                      = (Throw (BadRequestException "Missing Data"), w)))
    /\ (forall dto,
           let gap := missing (CreateReplyDto.CreatedAt dto)
                      \/ missing_number (CreateReplyDto.CreatorID dto)
                      \/ missing (CreateReplyDto.Content dto)
                      \/ missing_number (CreateReplyDto.TargetID dto) in
           ((bad_request (RepliesService.createForTopic dto w) <-> gap)
            /\ (gap -> RepliesService.createForTopic dto w
                       = (Throw (BadRequestException "Missing Data"), w)))
           /\ (bad_request (RepliesService.createForQuestion dto w) <-> gap)
           /\ (gap -> RepliesService.createForQuestion dto w
                      = (Throw (BadRequestException "Missing Data"), w))).
Proof.
  intros w.
  split; [|split; [|split]]; intros dto gap; subst gap;
    unfold DiscussionsService.create, QuestionsService.create, EventsService.create,
      RepliesService.createForTopic, RepliesService.createForQuestion,
      RepliesService.missing_data;
    [| | |split]; by_missing_fields.
Qed.

End Creates.

Lemma create_refuses_missing_fields_witness :
  DiscussionsService.create (CreateTopicDto.mk (Some "Ghost") (Some "Nobody") (Some "1")
                                               (Some 0))
                            Demo.with_ada
  = (Throw (BadRequestException "Missing Data"), Demo.with_ada).
Proof.
  destruct (create_refuses_missing_fields Demo.with_ada) as (Htopic & _).
  apply Htopic. right. left. right. reflexivity.
Defined.

(* ------------------------------------------------------------------ *)
(** ** Counters that drift from the join rows *)

Lemma filter_nil_existsb {R : Type} (p : R -> bool) (l : list R) :
  filter p l = [] <-> existsb p l = false.
Proof.
  induction l as [|x l IH]; cbn; [tauto|].
  destruct (p x); cbn; [split; discriminate|exact IH].
Qed.

Lemma existsb_same {R : Type} (p q : R -> bool) (l : list R) :
  (forall x, p x = q x) -> existsb p l = existsb q l.
Proof.
  intros E. induction l as [|x l IH]; cbn; [reflexivity|]. now rewrite E, IH.
Qed.

(** The unique index a new join row is checked against is the one of
    its own target column. *)
Lemma likes_collides_own_column (k : Likeable) (targetID userID : Z) (l : Likes.t) :
  (match k with
   | Topic => Prisma.likes.collides l None (Some targetID) None None userID
   | Question => Prisma.likes.collides l None None (Some targetID) None userID
   | Event => Prisma.likes.collides l (Some targetID) None None None userID
   | Reply => Prisma.likes.collides l None None None (Some targetID) userID
   end)
  = opt_is (like_column k l) targetID && (Likes.UserID l =? userID).
Proof.
  destruct l as [i u e t q r]. unfold Prisma.likes.collides, same_pair, opt_is.
  destruct k, e, t, q, r; cbn; rewrite ?orb_false_r; reflexivity.
Qed.

Section Drift.
Context `{Platform}.

(** An [unlike] by a user who has not liked the target still takes one
    off the counter: the counter is written first, the missing join row
    is found second, and the method fails with
    [InternalServerErrorException] without restoring the counter. *)
Theorem unlike_without_like_takes_a_count :
  forall (k : Likeable) (targetID userID : Z) (w : World) (n : Z),
    counter k (db w) targetID = Some n ->
    in_int4 (n - 1) = true ->
    join_rows k (db w) targetID userID = [] ->
    failure (unlike k targetID userID w)
    = Some (InternalServerErrorException (internal_message k))
    /\ counter k (db (snd (unlike k targetID userID w))) targetID = Some (n - 1)
    /\ rows (tLikes (db (snd (unlike k targetID userID w)))) = rows (tLikes (db w))
    /\ In (Logger (PrismaClientKnownRequestError "P2025"))
          (calls (snd (unlike k targetID userID w))).
Proof.
  intros k targetID userID w n Hn Hr Hj.
  apply filter_nil_existsb in Hj.
  destruct k; unfold failure; unfold_likes; unfold join_rows, like_column in *; run.
  all: destruct (find _ _) as [t|] eqn:Hf; cbn in *; [|discriminate].
  all: injection Hn as <-; rewrite Hr; cbn; rewrite Hj; cbn.
  all: split; [reflexivity|].
  all: split;
    [erewrite find_map_replace; [reflexivity|exact Hf|cbn; apply Z.eqb_refl]|].
  all: split; [reflexivity|apply in_or_app; right; now left].
Qed.

(** A second [like] of the same target by the same user adds one to
    the counter again: the unique index refuses the join row, the method
    fails with [InternalServerErrorException], and the counter keeps the
    increment, so that it counts the user twice. *)
Theorem like_again_counts_twice :
  forall (k : Likeable) (targetID userID : Z) (w : World) (n : Z),
    counter k (db w) targetID = Some n ->
    in_int4 (n + 1) = true ->
    join_rows k (db w) targetID userID <> [] ->
    failure (like k targetID userID w)
    = Some (InternalServerErrorException (internal_message k))
    /\ counter k (db (snd (like k targetID userID w))) targetID = Some (n + 1)
    /\ rows (tLikes (db (snd (like k targetID userID w)))) = rows (tLikes (db w))
    /\ In (Logger (PrismaClientKnownRequestError "P2002"))
          (calls (snd (like k targetID userID w))).
Proof.
  intros k targetID userID w n Hn Hr Hj.
  assert (Hc : existsb (fun l => opt_is (like_column k l) targetID
                                 && (Likes.UserID l =? userID))
                       (rows (tLikes (db w))) = true).
  { destruct (existsb _ _) eqn:E; [reflexivity|].
    apply filter_nil_existsb in E. now apply Hj in E. }
  rewrite <- (existsb_same _ _ _ (likes_collides_own_column k targetID userID)) in Hc.
  destruct k; unfold failure; unfold_likes; run.
  all: destruct (find _ _) as [t|] eqn:Hf; cbn in *; [|discriminate].
  all: injection Hn as <-; rewrite Hr; cbn; rewrite Hc; cbn.
  all: split; [reflexivity|].
  all: split;
    [erewrite find_map_replace; [reflexivity|exact Hf|cbn; apply Z.eqb_refl]|].
  all: split; [reflexivity|apply in_or_app; right; now left].
Qed.

End Drift.

Lemma unlike_without_like_takes_a_count_witness :
  counter Topic (db (snd (unlike Topic 1 1 Demo.with_topic))) 1 = Some (0 - 1)
  /\ join_rows Topic (db Demo.with_topic) 1 1 = [].
Proof.
  destruct (unlike_without_like_takes_a_count Topic 1 1 Demo.with_topic 0)
    as (_ & Hn & _); [reflexivity|reflexivity|reflexivity|].
  split; [exact Hn|reflexivity].
Defined.

Lemma like_again_counts_twice_witness :
  counter Topic (db (snd (like Topic 1 1 (snd (like Topic 1 1 Demo.with_topic))))) 1
  = Some (1 + 1)
  /\ List.length (rows (tLikes (db (snd (like Topic 1 1
                                           (snd (like Topic 1 1 Demo.with_topic)))))))
     = 1%nat.
Proof.
  destruct (like_again_counts_twice Topic 1 1 (snd (like Topic 1 1 Demo.with_topic)) 1)
    as (_ & Hn & Hrows & _); [reflexivity|reflexivity|discriminate|].
  split; [exact Hn|]. rewrite Hrows. reflexivity.
Defined.

(* ------------------------------------------------------------------ *)
(** ** Saving and unsaving *)

Lemma saved_collides_own_column (k : Saveable) (targetID userID : Z) (s : Saved.t) :
  (match k with
   | SavedTopic => Prisma.saved.collides s None (Some targetID) None userID
   | SavedQuestion => Prisma.saved.collides s None None (Some targetID) userID
   | SavedEvent => Prisma.saved.collides s (Some targetID) None None userID
   end)
  = opt_is (saved_column k s) targetID && (Saved.UserID s =? userID).
Proof.
  destruct s as [i u e t q]. unfold Prisma.saved.collides, same_pair, opt_is.
  destruct k, e, t, q; cbn; rewrite ?orb_false_r; reflexivity.
Qed.

Lemma filter_all {R : Type} (p : R -> bool) (l : list R) :
  existsb p l = false -> filter (fun x => negb (p x)) l = l.
Proof.
  induction l as [|x l IH]; cbn; [reflexivity|].
  destruct (p x); cbn; [discriminate|]. intros E. now rewrite IH.
Qed.

Ltac unfold_saves :=
  unfold save, unsave,
    DiscussionsService.saveTopic, QuestionsService.saveQuestion,
    EventsService.saveEvent, DiscussionsService.unsaveTopic,
    QuestionsService.unsaveQuestion, EventsService.unsaveEvent,
    DiscussionsService.internal, Prisma.saved.create, Prisma.saved.delete,
    saved_rows, saved_column in *.

Section Saves.
Context `{Platform}.

(** Saving and unsaving write to [Saved] only: the users, the content
    with its like counters and the [Likes] rows are as they were,
    whether the method returns or throws. *)
Theorem save_and_unsave_write_saved_only :
  forall (k : Saveable) (targetID userID : Z) (w : World),
    same_but_saved (db w) (db (snd (save k targetID userID w)))
    /\ same_but_saved (db w) (db (snd (unsave k targetID userID w))).
Proof.
  intros k targetID userID w. unfold same_but_saved.
  split; destruct k; unfold_saves; run.
  all: repeat split_test; now repeat split.
Qed.

(** A pair of target and user is saved once: a second [save] is
    refused by the unique index and fails with
    [InternalServerErrorException]; the rows of [Saved] are as they
    were. *)
Theorem save_again_is_refused :
  forall (k : Saveable) (targetID userID : Z) (w : World),
    saved_rows k (db w) targetID userID <> [] ->
    (exists message,
        failure (save k targetID userID w)
        = Some (InternalServerErrorException message))
    /\ rows (tSaved (db (snd (save k targetID userID w)))) = rows (tSaved (db w))
    /\ In (Logger (PrismaClientKnownRequestError "P2002"))
          (calls (snd (save k targetID userID w))).
Proof.
  intros k targetID userID w Hj.
  assert (Hc : existsb (fun s => opt_is (saved_column k s) targetID
                                 && (Saved.UserID s =? userID))
                       (rows (tSaved (db w))) = true).
  { destruct (existsb _ _) eqn:E; [reflexivity|].
    apply filter_nil_existsb in E. now apply Hj in E. }
  rewrite <- (existsb_same _ _ _ (saved_collides_own_column k targetID userID)) in Hc.
  destruct k; unfold failure; unfold_saves; run; rewrite Hc; cbn.
  all: split; [eexists; reflexivity|].
  all: split; [reflexivity|apply in_or_app; right; now left].
Qed.

(** An [unsave] of a pair that is not saved fails with
    [InternalServerErrorException] and leaves the database as it
    was. *)
Theorem unsave_of_unsaved_fails :
  forall (k : Saveable) (targetID userID : Z) (w : World),
    saved_rows k (db w) targetID userID = [] ->
    (exists message,
        unsave k targetID userID w
        = (Throw (InternalServerErrorException message),
           set_calls (calls w ++ [Query M_saved A_delete;
                                  Logger (PrismaClientKnownRequestError "P2025")])
                     w)).
Proof.
  intros k targetID userID w Hj.
  apply filter_nil_existsb in Hj.
  destruct k; unfold_saves; run; rewrite Hj; cbn; rewrite <- app_assoc;
    eexists; reflexivity.
Qed.

(** A [save] that succeeds followed by the [unsave] of the same pair
    restores the rows of [Saved]: the pair was not saved before, it is
    saved in between, and afterwards the table holds the rows it held
    at first. *)
Theorem save_then_unsave_restores :
  forall (k : Saveable) (targetID userID : Z) (w w1 w2 : World),
    save k targetID userID w = (Ok tt, w1) ->
    unsave k targetID userID w1 = (Ok tt, w2) ->
    saved_rows k (db w) targetID userID = []
    /\ (exists s, rows (tSaved (db w1)) = rows (tSaved (db w)) ++ [s]
                  /\ saved_rows k (db w1) targetID userID = [s])
    /\ rows (tSaved (db w2)) = rows (tSaved (db w)).
Proof.
  intros k targetID userID w w1 w2.
  pose proof (existsb_same _ _ (rows (tSaved (db w)))
                (saved_collides_own_column k targetID userID)) as Hc.
  unfold saved_rows.
  destruct k; unfold_saves; run.
  all: split_test; [discriminate|].
  all: split_test; [discriminate|].
  all: intros [= <-]; cbn.
  all: rewrite existsb_app; cbn; rewrite !Z.eqb_refl, orb_true_r; cbn.
  all: intros [= <-]; cbn.
  all: match goal with
       | Hx : false = existsb _ _ |- _ => symmetry in Hx; rename Hx into Hno
       end.
  all: split; [now apply filter_nil_existsb|].
  all: rewrite !filter_app; cbn; rewrite !Z.eqb_refl; cbn.
  all: rewrite (proj2 (filter_nil_existsb _ _) Hno), (filter_all _ _ Hno), app_nil_r.
  all: split; [eexists; split; reflexivity|reflexivity].
Qed.

End Saves.

Lemma save_again_is_refused_witness :
  rows (tSaved (db (snd (save SavedTopic 1 1 (snd (save SavedTopic 1 1 Demo.with_topic))))))
  = rows (tSaved (db (snd (save SavedTopic 1 1 Demo.with_topic))))
  /\ saved_rows SavedTopic (db (snd (save SavedTopic 1 1 Demo.with_topic))) 1 1 <> [].
Proof.
  destruct (save_again_is_refused SavedTopic 1 1
              (snd (save SavedTopic 1 1 Demo.with_topic)))
    as (_ & Hrows & _); [discriminate|].
  split; [exact Hrows|discriminate].
Defined.

Lemma unsave_of_unsaved_fails_witness :
  exists message,
    unsave SavedTopic 1 1 Demo.with_topic
    = (Throw (InternalServerErrorException message),
       set_calls (calls Demo.with_topic
                  ++ [Query M_saved A_delete;
                      Logger (PrismaClientKnownRequestError "P2025")])
                 Demo.with_topic).
Proof.
  apply (unsave_of_unsaved_fails SavedTopic 1 1 Demo.with_topic). reflexivity.
Defined.

Lemma save_then_unsave_restores_witness :
  rows (tSaved (db (snd (unsave SavedTopic 1 1 (snd (save SavedTopic 1 1 Demo.with_topic))))))
  = rows (tSaved (db Demo.with_topic)).
Proof.
  assert (Hs : save SavedTopic 1 1 Demo.with_topic
               = (Ok tt, snd (save SavedTopic 1 1 Demo.with_topic)))
    by (vm_compute; reflexivity).
  assert (Hu : unsave SavedTopic 1 1 (snd (save SavedTopic 1 1 Demo.with_topic))
               = (Ok tt, snd (unsave SavedTopic 1 1
                                (snd (save SavedTopic 1 1 Demo.with_topic)))))
    by (vm_compute; reflexivity).
  destruct (save_then_unsave_restores SavedTopic 1 1 _ _ _ Hs Hu) as (_ & _ & Hrows).
  exact Hrows.
Defined.

(* ------------------------------------------------------------------ *)
(** ** Deleting stored rows *)

Lemma existsb_find_some {R : Type} (p : R -> bool) (l : list R) :
  existsb p l = true -> exists x, find p l = Some x.
Proof.
  induction l as [|x l IH]; cbn; [discriminate|].
  destruct (p x); [intros _; now exists x|exact IH].
Qed.

Lemma existsb_filter_out {R : Type} (p : R -> bool) (l : list R) :
  existsb p (filter (fun x => negb (p x)) l) = false.
Proof.
  induction l as [|x l IH]; cbn; [reflexivity|].
  destruct (p x) eqn:Hx; cbn; [exact IH|]. now rewrite Hx.
Qed.

Lemma existsb_filter_other {R : Type} (key : R -> Z) (id j : Z) (l : list R) :
  j <> id ->
  existsb (fun x => key x =? j) (filter (fun x => negb (key x =? id)) l)
  = existsb (fun x => key x =? j) l.
Proof.
  intros Hj. induction l as [|x l IH]; cbn; [reflexivity|].
  destruct (key x =? id) eqn:Hx; cbn; [|now rewrite IH].
  apply Z.eqb_eq in Hx. rewrite IH.
  destruct (key x =? j) eqn:Hk; [|reflexivity].
  apply Z.eqb_eq in Hk. congruence.
Qed.

Lemma filter_map_none {R : Type} (p : R -> bool) (f : R -> R) (l : list R) :
  (forall x, p (f x) = false) -> filter p (map f l) = [].
Proof.
  intros Hp. induction l as [|x l IH]; cbn; [reflexivity|]. now rewrite Hp.
Qed.

Lemma opt_is_set_null (o : option Z) (id : Z) : opt_is (set_null o id) id = false.
Proof.
  unfold set_null. destruct (opt_is o id) eqn:E; [reflexivity|exact E].
Qed.

Section Deletes.
Context `{Platform}.

(** Deleting a stored topic, question, event or reply succeeds after
    one lookup and one delete. The row is gone and the other rows of
    its table stay. Its like rows are not deleted: [Likes] has as many
    rows as before, and none of them names the deleted target any more.
    The replies to a deleted topic or question stay as well. *)
Theorem delete_keeps_the_like_rows :
  forall (k : Likeable) (id : Z) (w : World),
    stored (Content k) (db w) id = true ->
    exists w',
      delete_resource (Content k) id w = (Ok tt, w')
      /\ calls w' = calls w ++ [Query (model_of k) A_findUnique;
                                Query (model_of k) A_delete]
      /\ stored (Content k) (db w') id = false
      /\ (forall j, j <> id ->
                    stored (Content k) (db w') j = stored (Content k) (db w) j)
      /\ List.length (rows (tLikes (db w'))) = List.length (rows (tLikes (db w)))
      /\ (forall userID, join_rows k (db w') id userID = [])
      /\ (k <> Reply ->
          List.length (rows (tReplies (db w'))) = List.length (rows (tReplies (db w)))).
Proof.
  intros k id w Hs.
  destruct k; cbn in Hs; pose proof Hs as Hf; apply existsb_find_some in Hf;
    destruct Hf as [x Hf];
    unfold delete_resource, DiscussionsService.delete, QuestionsService.delete,
      EventsService.delete, RepliesService.delete, DiscussionsService.internal,
      Prisma.topics.findUnique, Prisma.questions.findUnique,
      Prisma.events.findUnique, Prisma.replies.findUnique,
      Prisma.topics.delete, Prisma.questions.delete, Prisma.events.delete,
      Prisma.replies.delete, topic_exists, question_exists, event_exists,
      reply_exists, join_rows, like_column in *;
    run; rewrite Hf; cbn; rewrite Hs; cbn;
    eexists; (split; [reflexivity|]); cbn.
  all: split; [now rewrite <- app_assoc|].
  all: split; [apply existsb_filter_out|].
  all: split; [intros j Hj; now apply existsb_filter_other|].
  all: split; [now rewrite length_map|].
  all: split;
    [intros userID; apply filter_map_none; intros l; cbn;
     now rewrite opt_is_set_null|].
  all: intros Hk; try (now rewrite length_map); congruence.
Qed.

(** A user who is named by any topic, question, event, reply, like or
    saved row cannot be deleted: [deleteUser] fails with
    [InternalServerErrorException] and removes nothing. A stored user
    whom nothing names is deleted, and the other users stay. *)
Theorem deleteUser_is_refused_while_referenced :
  forall (UserID : Z) (w : World),
    stored Account (db w) UserID = true ->
    if Prisma.user.referenced (db w) UserID
    then AuthService.deleteUser UserID w
         = (Throw (InternalServerErrorException (Some "Internal Server Error")),
            set_calls (calls w ++ [Query M_user A_findUnique; Query M_user A_delete;
                                   Logger (PrismaClientKnownRequestError "P2003")])
                      w)
    else exists w',
        AuthService.deleteUser UserID w = (Ok tt, w')
        /\ stored Account (db w') UserID = false
        /\ (forall j, j <> UserID ->
                      stored Account (db w') j = stored Account (db w) j).
Proof.
  intros UserID w Hs. cbn in Hs. pose proof Hs as Hf.
  apply existsb_find_some in Hf. destruct Hf as [x Hf].
  unfold AuthService.deleteUser, Prisma.user.findUnique, Prisma.user.delete,
    user_exists in *.
  run. rewrite Hf. cbn. rewrite Hs. cbn.
  destruct (Prisma.user.referenced (db w) UserID); cbn.
  - now rewrite <- !app_assoc.
  - eexists. split; [reflexivity|]. cbn.
    split; [apply existsb_filter_out|].
    intros j Hj. now apply existsb_filter_other.
Qed.

End Deletes.

Lemma delete_keeps_the_like_rows_witness :
  exists w',
    delete_resource (Content Topic) 1 (snd (like Topic 1 1 Demo.with_topic)) = (Ok tt, w')
    /\ List.length (rows (tLikes (db w'))) = 1%nat
    /\ join_rows Topic (db w') 1 1 = [].
Proof.
  destruct (delete_keeps_the_like_rows Topic 1 (snd (like Topic 1 1 Demo.with_topic)))
    as (w' & Hrun & _ & _ & _ & Hlen & Hjoin & _); [reflexivity|].
  exists w'. split; [exact Hrun|]. split; [|apply Hjoin].
  rewrite Hlen. reflexivity.
Defined.

Lemma deleteUser_is_refused_while_referenced_witness :
  failure (AuthService.deleteUser 1 Demo.with_topic)
  = Some (InternalServerErrorException (Some "Internal Server Error"))
  /\ db (snd (AuthService.deleteUser 1 Demo.with_topic)) = db Demo.with_topic.
Proof.
  pose proof (deleteUser_is_refused_while_referenced 1 Demo.with_topic) as Hd.
  assert (Hr : Prisma.user.referenced (db Demo.with_topic) 1 = true) by reflexivity.
  rewrite Hr in Hd. rewrite Hd; [split; reflexivity|reflexivity].
Defined.

(* ------------------------------------------------------------------ *)
(** ** Updating a user *)

Section UpdateUser.
Context `{Platform}.

(** [updateUser] hashes the password of the payload on every update.
    Without a password the hashing throws, so that an update of the
    names alone fails with [InternalServerErrorException] and writes
    nothing. An update that succeeds stores the hash of the new
    password, keeps the email and the key, and keeps each name the
    payload leaves out. *)
Theorem updateUser_rehashes_the_password :
  forall (editDto : UpdateUserDto.t) (w : World),
    (stored Account (db w) (UpdateUserDto.UserID editDto) = true ->
     UpdateUserDto.Password editDto = None ->
     AuthService.updateUser editDto w
     = (Throw (InternalServerErrorException (Some "Internal Server Error")),
        set_calls (calls w ++ [Query M_user A_findUnique; Bcrypt_hash;
                               Logger (Error "data and salt arguments required")])
                  w))
    /\ (forall u w',
           AuthService.updateUser editDto w = (Ok u, w') ->
           exists old Password,
             find (fun x => User.UserID x =? UpdateUserDto.UserID editDto)
                  (rows (tUser (db w))) = Some old
             /\ UpdateUserDto.Password editDto = Some Password
             /\ bcrypt_hash Password 10 = Success (User.Password u)
             /\ User.Email u = User.Email old
             /\ User.UserID u = UpdateUserDto.UserID editDto
             /\ User.FirstName u
                = or_keep (UpdateUserDto.FirstName editDto) (User.FirstName old)
             /\ User.LastName u
                = or_keep (UpdateUserDto.LastName editDto) (User.LastName old)).
Proof.
  intros editDto w.
  unfold AuthService.updateUser, AuthService.hash, Prisma.user.findUnique,
    Prisma.user.update.
  split.
  - intros Hs Hp. cbn in Hs. apply existsb_find_some in Hs. destruct Hs as [x Hf].
    run. rewrite Hf, Hp. cbn. now rewrite <- !app_assoc.
  - intros u w'. run.
    destruct (find _ _) as [old|] eqn:Hf; cbn; [|discriminate].
    destruct (UpdateUserDto.Password editDto) as [p|]; cbn; [|discriminate].
    destruct (bcrypt_hash p 10) as [h|] eqn:Hh; cbn; [|discriminate].
    rewrite Hf. cbn. split_test; [discriminate|].
    intros [= <- <-]. exists old, p. cbn. now repeat split.
Qed.

End UpdateUser.

Lemma updateUser_rehashes_the_password_witness :
  failure (AuthService.updateUser (UpdateUserDto.mk 1 (Some "Augusta") None None)
                                  Demo.with_ada)
  = Some (InternalServerErrorException (Some "Internal Server Error"))
  /\ db (snd (AuthService.updateUser (UpdateUserDto.mk 1 (Some "Augusta") None None)
                                     Demo.with_ada))
     = db Demo.with_ada.
Proof.
  destruct (updateUser_rehashes_the_password
              (UpdateUserDto.mk 1 (Some "Augusta") None None) Demo.with_ada)
    as [Hrun _].
  rewrite Hrun; [split; reflexivity|reflexivity|reflexivity].
Defined.

(* ------------------------------------------------------------------ *)
(** ** The table of users *)

(** A delegate of another model leaves the table of users as it is,
    and with it whatever holds of that table. *)
Ltac users_kept :=
  apply keeps_intro; intros w Hw; unfold_prisma; run; repeat split_run; cbn;
  exact Hw.

Section UsersKept.
Context `{Platform}.
Variable J : Table User.t -> Prop.

Lemma users_kept_topics_create t c a i :
  keeps (fun d => J (tUser d)) (Prisma.topics.create t c a i).
Proof. users_kept. Qed.
Lemma users_kept_topics_delete i :
  keeps (fun d => J (tUser d)) (Prisma.topics.delete i).
Proof. users_kept. Qed.
Lemma users_kept_topics_update_LikesNb i u :
  keeps (fun d => J (tUser d)) (Prisma.topics.update_LikesNb i u).
Proof. users_kept. Qed.
Lemma users_kept_topics_update i t c :
  keeps (fun d => J (tUser d)) (Prisma.topics.update i t c).
Proof. users_kept. Qed.

Lemma users_kept_questions_create t c a i :
  keeps (fun d => J (tUser d)) (Prisma.questions.create t c a i).
Proof. users_kept. Qed.
Lemma users_kept_questions_delete i :
  keeps (fun d => J (tUser d)) (Prisma.questions.delete i).
Proof. users_kept. Qed.
Lemma users_kept_questions_update_LikesNb i u :
  keeps (fun d => J (tUser d)) (Prisma.questions.update_LikesNb i u).
Proof. users_kept. Qed.
Lemma users_kept_questions_update i t c :
  keeps (fun d => J (tUser d)) (Prisma.questions.update i t c).
Proof. users_kept. Qed.

Lemma users_kept_events_create t c a i l :
  keeps (fun d => J (tUser d)) (Prisma.events.create t c a i l).
Proof. users_kept. Qed.
Lemma users_kept_events_delete i :
  keeps (fun d => J (tUser d)) (Prisma.events.delete i).
Proof. users_kept. Qed.
Lemma users_kept_events_update_LikesNB i u :
  keeps (fun d => J (tUser d)) (Prisma.events.update_LikesNB i u).
Proof. users_kept. Qed.
Lemma users_kept_events_update i t c a l :
  keeps (fun d => J (tUser d)) (Prisma.events.update i t c a l).
Proof. users_kept. Qed.

Lemma users_kept_replies_create t q c a i :
  keeps (fun d => J (tUser d)) (Prisma.replies.create t q c a i).
Proof. users_kept. Qed.
Lemma users_kept_replies_delete i :
  keeps (fun d => J (tUser d)) (Prisma.replies.delete i).
Proof. users_kept. Qed.
Lemma users_kept_replies_update_LikesNB i u :
  keeps (fun d => J (tUser d)) (Prisma.replies.update_LikesNB i u).
Proof. users_kept. Qed.
Lemma users_kept_replies_update i c :
  keeps (fun d => J (tUser d)) (Prisma.replies.update i c).
Proof. users_kept. Qed.

Lemma users_kept_likes_create e t q r u :
  keeps (fun d => J (tUser d)) (Prisma.likes.create e t q r u).
Proof. users_kept. Qed.
Lemma users_kept_likes_delete c i u :
  keeps (fun d => J (tUser d)) (Prisma.likes.delete c i u).
Proof. users_kept. Qed.
Lemma users_kept_saved_create e t q u :
  keeps (fun d => J (tUser d)) (Prisma.saved.create e t q u).
Proof. users_kept. Qed.
Lemma users_kept_saved_delete c i u :
  keeps (fun d => J (tUser d)) (Prisma.saved.delete c i u).
Proof. users_kept. Qed.

End UsersKept.

Create HintDb users.

#[local] Hint Resolve users_kept_topics_create users_kept_topics_delete
  users_kept_topics_update_LikesNb users_kept_topics_update
  users_kept_questions_create users_kept_questions_delete
  users_kept_questions_update_LikesNb users_kept_questions_update
  users_kept_events_create users_kept_events_delete
  users_kept_events_update_LikesNB users_kept_events_update
  users_kept_replies_create users_kept_replies_delete
  users_kept_replies_update_LikesNB users_kept_replies_update
  users_kept_likes_create users_kept_likes_delete
  users_kept_saved_create users_kept_saved_delete : users.

Ltac keep_users :=
  repeat first
    [ keep_step
    | solve [auto with reads users]
    | match goal with
      | |- preserves ?J (fun _ => True) ?m =>
          change (keeps J m); solve [auto with reads users]
      end ].

Lemma Forall_kept {R : Type} (P : R -> Prop) (p : R -> bool) (l : list R) :
  Forall P l -> Forall P (filter p l).
Proof.
  intros Hl. apply Forall_forall. intros x Hx.
  apply filter_In in Hx. destruct Hx as [Hx _].
  revert x Hx. now apply Forall_forall.
Qed.

Lemma Forall_replaced {R : Type} (P : R -> Prop) (p : R -> bool) (r' : R)
    (l : list R) :
  Forall P l -> P r' -> Forall P (map (fun x => if p x then r' else x) l).
Proof.
  intros Hl Hr. apply Forall_map. eapply Forall_impl; [|exact Hl].
  intros x Hx. now destruct (p x).
Qed.

Section Users.
Context `{Platform}.

(** What holds of the table of users holds of it after a request of
    another endpoint. *)
Lemma handle_keeps_users (J : Table User.t -> Prop) (r : Request) (w : World) :
  writes_users r = false -> J (tUser (db w)) -> J (tUser (db (handle r w))).
Proof.
  intros Hr Hw.
  assert (K : forall A (m : M A),
             keeps (fun d => J (tUser d)) m -> J (tUser (db (snd (m w)))))
    by (intros A m Hm; now apply Hm).
  destruct r; try discriminate Hr; cbn [handle]; apply K; unfold_services;
    keep_users.
Qed.

Lemma signup_keeps_hashes (userData : CreateUserDto.t) (w : World) :
  CreateUserDto.further userData = [] ->
  passwords_hashed (db w) -> passwords_hashed (db (snd (AuthService.signup userData w))).
Proof.
  unfold passwords_hashed. intros Hplain Hw.
  unfold AuthService.signup, AuthService.hash, Prisma.user.findUnique_Email,
    Prisma.user.create.
  rewrite Hplain. run.
  destruct (falsy_string _ || falsy_string _); cbn; [exact Hw|].
  destruct (find _ _); cbn; [exact Hw|].
  destruct (CreateUserDto.Password userData) as [p|]; cbn; [|exact Hw].
  destruct (bcrypt_hash p 10) as [h|] eqn:Hh; cbn; [|exact Hw].
  destruct (CreateUserDto.FirstName userData) as [fn|]; cbn; [|exact Hw].
  destruct (CreateUserDto.LastName userData) as [ln|]; cbn; [|exact Hw].
  destruct (CreateUserDto.UserID userData) as [id|]; cbn.
  all: repeat (split_test; try exact Hw).
  all: apply Forall_app; split; [exact Hw|].
  all: constructor; [|constructor]; now exists p.
Qed.

Lemma updateUser_keeps_hashes (editDto : UpdateUserDto.t) (w : World) :
  passwords_hashed (db w) ->
  passwords_hashed (db (snd (AuthService.updateUser editDto w))).
Proof.
  unfold passwords_hashed. intros Hw.
  unfold AuthService.updateUser, AuthService.hash, Prisma.user.findUnique,
    Prisma.user.update.
  run.
  destruct (find _ _) as [old|] eqn:Hf; cbn; [|exact Hw].
  destruct (UpdateUserDto.Password editDto) as [p|]; cbn; [|exact Hw].
  destruct (bcrypt_hash p 10) as [h|] eqn:Hh; cbn; [|exact Hw].
  rewrite Hf. cbn.
  repeat (split_run; try exact Hw).
  apply Forall_replaced; [exact Hw|]. now exists p.
Qed.

Lemma deleteUser_keeps_hashes (UserID : Z) (w : World) :
  passwords_hashed (db w) ->
  passwords_hashed (db (snd (AuthService.deleteUser UserID w))).
Proof.
  unfold passwords_hashed. intros Hw.
  unfold AuthService.deleteUser, Prisma.user.findUnique, Prisma.user.delete.
  run.
  destruct (find _ _) as [old|] eqn:Hf; cbn; [|exact Hw].
  repeat (split_test; try exact Hw).
  now apply Forall_kept.
Qed.

(** Only [signup], [deleteUser] and [updateUser] write to the table of
    users: every other request leaves its rows and its sequence as they
    were, whether it returns or throws. *)
Theorem only_account_requests_write_users :
  forall (r : Request) (w : World),
    writes_users r = false -> tUser (db (handle r w)) = tUser (db w).
Proof.
  intros r w Hr.
  now apply (handle_keeps_users (fun t => t = tUser (db w)) r w Hr).
Qed.

(** No request that names the data it writes stores a password as it
    was submitted: when the password of every stored user is a hash
    that [bcrypt] gave with 10 rounds, it is so after the request,
    whether the request returns or throws. [signup] and [updateUser]
    store the hash they have just computed, [deleteUser] removes a row,
    and no other request writes to the table. *)
Theorem requests_keep_passwords_hashed :
  forall (r : Request) (w : World),
    names_its_data r = true ->
    passwords_hashed (db w) -> passwords_hashed (db (handle r w)).
Proof.
  intros r w Hr Hw.
  destruct (writes_users r) eqn:Hu.
  - destruct r; try discriminate Hu; cbn [handle].
    + apply signup_keeps_hashes; [|exact Hw].
      cbn in Hr. now destruct (CreateUserDto.further userData).
    + now apply deleteUser_keeps_hashes.
    + now apply updateUser_keeps_hashes.
  - now apply (handle_keeps_users (fun t => Forall hashed (rows t)) r w Hu).
Qed.

End Users.

Lemma only_account_requests_write_users_witness :
  tUser (db (handle (R_createTopic Demo.welcome) Demo.with_ada))
  = tUser (db Demo.with_ada).
Proof.
  apply (only_account_requests_write_users (R_createTopic Demo.welcome) Demo.with_ada).
  reflexivity.
Defined.

Lemma requests_keep_passwords_hashed_witness :
  passwords_hashed (db Demo.with_ada).
Proof.
  apply (requests_keep_passwords_hashed (R_signup Demo.ada) Demo.start).
  - reflexivity.
  - constructor.
Defined.

(* ------------------------------------------------------------------ *)
(** ** Updating content *)

Section Updates.
Context `{Platform}.

(** A failed update has written nothing. Its failure is either the
    [InternalServerErrorException('Internal Server Error')] of the
    [catch] block, with the cause logged, for what the awaited lookup
    and hashing threw, or the error of the Prisma client itself, with
    nothing logged, for what the update threw: the promise of the update
    is returned without being awaited. *)
Theorem updating_requests_leak_the_database_error :
  forall (r : Request) (w : World) (e : Exception),
    updating r = true ->
    fails r w = Some e ->
    db (handle r w) = db w
    /\ ((e = InternalServerErrorException (Some "Internal Server Error")
         /\ exists cause, In (Logger cause) (calls (handle r w)))
        \/ (from_prisma e
            /\ forall x, In (Logger x) (calls (handle r w)) -> In (Logger x) (calls w))).
Proof.
  intros r w e Hu. unfold from_prisma.
  destruct r; try discriminate Hu; cbn [fails handle]; unfold failure;
    unfold_services; unfold DiscussionsService.internal; unfold_prisma; run.
  all: repeat (split_match; try discriminate).
  all: intros [= <-]; (split; [reflexivity|]).
  all: first
    [ left; split; [reflexivity|];
      eexists; rewrite <- ?app_assoc; apply in_or_app; right; cbn; eauto 6
    | right; split; [eauto|];
      intros x; rewrite <- ?app_assoc; apply no_new_logger; not_logged ].
Qed.

(** An update of a topic, a question or a reply that succeeds changes
    the texts the payload names and nothing else of the row: the like
    counter, the author and the creation time are those of the stored
    row, and a text the payload leaves out is kept. *)
Theorem update_changes_the_named_texts_only :
  (forall editDto w w' t,
      DiscussionsService.updateTopic editDto w = (Ok t, w') ->
      exists old,
        find (fun x => Topics.TopicID x =? UpdateTopicDto.TopicID editDto)
             (rows (tTopics (db w))) = Some old
        /\ t = Topics.mk (UpdateTopicDto.TopicID editDto)
                         (or_keep (UpdateTopicDto.Title editDto) (Topics.Title old))
                         (or_keep (UpdateTopicDto.Content editDto) (Topics.Content old))
                         (Topics.CreatedAt old) (Topics.CreatorID old)
                         (Topics.LikesNb old))
  /\ (forall editDto w w' q,
         QuestionsService.updateQuestion editDto w = (Ok q, w') ->
         exists old,
           find (fun x => Questions.QuestionID x =? UpdateQuestionDto.QuestionID editDto)
                (rows (tQuestions (db w))) = Some old
           /\ q = Questions.mk (UpdateQuestionDto.QuestionID editDto)
                               (or_keep (UpdateQuestionDto.Title editDto)
                                        (Questions.Title old))
                               (or_keep (UpdateQuestionDto.Content editDto)
                                        (Questions.Content old))
                               (Questions.CreatedAt old) (Questions.CreatorID old)
                               (Questions.LikesNb old))
  /\ (forall editDto w w' r,
         RepliesService.updateReply editDto w = (Ok r, w') ->
         exists old,
           find (fun x => Replies.ReplyID x =? UpdateReplyDto.ReplyID editDto)
                (rows (tReplies (db w))) = Some old
           /\ r = Replies.mk (UpdateReplyDto.ReplyID editDto)
                             (or_keep (UpdateReplyDto.Content editDto)
                                      (Replies.Content old))
                             (Replies.CreatedAt old) (Replies.CreatorID old)
                             (Replies.QuestionID old) (Replies.TopicID old)
                             (Replies.LikesNB old)).
Proof.
  split; [|split]; intros editDto w w' x;
    unfold DiscussionsService.updateTopic, QuestionsService.updateQuestion,
      RepliesService.updateReply, DiscussionsService.internal,
      Prisma.topics.findUnique, Prisma.questions.findUnique,
      Prisma.replies.findUnique, Prisma.topics.update, Prisma.questions.update,
      Prisma.replies.update;
    run.
  - destruct (find _ _) as [old|] eqn:Hf; cbn; [|discriminate].
    rewrite Hf. cbn. split_test; [discriminate|].
    intros [= <- <-]. now exists old.
  - destruct (find _ _) as [old|] eqn:Hf; cbn; [|discriminate].
    rewrite Hf. cbn. split_test; [discriminate|].
    intros [= <- <-]. now exists old.
  - destruct (find _ _) as [old|] eqn:Hf; cbn; [|discriminate].
    rewrite Hf. cbn.
    intros [= <- <-]. now exists old.
Qed.

End Updates.

Lemma updating_requests_leak_the_database_error_witness :
  let long := UpdateTopicDto.mk 1 (Some (String.concat "" (repeat "0123456789" 11)))
                                None in
  fails (R_updateTopic long) Demo.with_topic
  = Some (PrismaClientKnownRequestError "P2000")
  /\ db (handle (R_updateTopic long) Demo.with_topic) = db Demo.with_topic.
Proof.
  intros long.
  assert (Hf : fails (R_updateTopic long) Demo.with_topic
               = Some (PrismaClientKnownRequestError "P2000"))
    by (vm_compute; reflexivity).
  destruct (updating_requests_leak_the_database_error (R_updateTopic long)
              Demo.with_topic _ eq_refl Hf) as (Hdb & _).
  split; [exact Hf|exact Hdb].
Defined.

Lemma update_changes_the_named_texts_only_witness :
  exists t,
    fst (DiscussionsService.updateTopic (UpdateTopicDto.mk 1 (Some "Hello") None)
                                        (snd (like Topic 1 1 Demo.with_topic)))
    = Ok t
    /\ Topics.LikesNb t = 1 /\ Topics.Content t = "Introduce yourself".
Proof.
  assert (Hrun : DiscussionsService.updateTopic
                   (UpdateTopicDto.mk 1 (Some "Hello") None)
                   (snd (like Topic 1 1 Demo.with_topic))
                 = (Ok (Topics.mk 1 "Hello" "Introduce yourself" 1700000000000 1 1),
                    snd (DiscussionsService.updateTopic
                           (UpdateTopicDto.mk 1 (Some "Hello") None)
                           (snd (like Topic 1 1 Demo.with_topic)))))
    by (vm_compute; reflexivity).
  destruct update_changes_the_named_texts_only as (Htopic & _).
  destruct (Htopic _ _ _ _ Hrun) as (old & _ & Ht).
  eexists. split; [rewrite Hrun; reflexivity|]. split; reflexivity.
Defined.
